(** * ds3_c_sdk: the signing and wire-protocol pipeline of [src/ds3.c]

    A shallow embedding of the request factories, the canonical signer,
    the header-line callback, the request executor and the XML codec of
    [src/ds3.c], and the properties of the specification stated over it.

    Conventions of the embedding.
    - A C string ([char*]) that the code may receive as [NULL] is an
      [option string]; [None] is the null pointer.
    - [uint64_t] and [size_t] values are [Z] with the wrap-around modulo
      [2^64] written out; [long] is 64 bits wide (LP64).
    - A C string holds no NUL byte, and a header line handed to the
      header callback holds none.  A response body is a sequence of
      bytes, any of which may be NUL; it is gathered in a [GByteArray],
      which has no terminator.
    - A [GHashTable] keyed by strings is a [gmap string _]; the order in
      which [g_hash_table_foreach] visits the entries is the
      collaborator [visit_order].  An entry of the response-header table
      records whether the string used as its key has been freed.
    - Dereferencing a null pointer ([strlen(NULL)], [strtoul(NULL, ..)])
      is the outcome [NullDeref] of the [crash] monad, reading freed
      memory the outcome [UseAfterFree].
    - libcurl, libxml2's parser and serialiser, the HMAC and base64
      routines of GLib and the clock are collaborators outside the
      repository: they are parameters of the development. *)

From Stdlib Require Import ZArith Ascii Lia.
From Stdlib Require String.
From stdpp Require Import base option list strings gmap.

Local Open Scope Z_scope.

(** ** The C library and GLib string routines used by [ds3.c] *)

Module CLib.

Definition LF : ascii := ascii_of_N 10.
Definition CR : ascii := ascii_of_N 13.
Definition HT : ascii := ascii_of_N 9.
Definition VT : ascii := ascii_of_N 11.
Definition FF : ascii := ascii_of_N 12.
Definition SP : ascii := ascii_of_N 32.

Definition ascii_code (c : ascii) : Z := Z.of_N (N_of_ascii c).

(** [g_ascii_isspace]: space, tab, line feed, form feed, carriage return. *)
Definition g_ascii_isspace (c : ascii) : bool :=
  let n := ascii_code c in
  (n =? 32) || (n =? 9) || (n =? 10) || (n =? 12) || (n =? 13).

(** [isspace] in the C locale: the above and the vertical tab. *)
Definition isspace (c : ascii) : bool :=
  g_ascii_isspace c || (ascii_code c =? 11).

Definition NUL : ascii := ascii_of_N 0.

Definition strlen (s : string) : Z := Z.of_nat (String.length s).

(** The C string that starts where [bytes] start: what lies before the
    first NUL byte. *)
Fixpoint c_str (bytes : string) : string :=
  match bytes with
  | EmptyString => EmptyString
  | String c r => if Ascii.eqb c NUL then EmptyString else String c (c_str r)
  end.

(** [g_strchomp]: drop trailing white space. *)
Fixpoint g_strchomp (s : string) : string :=
  match s with
  | EmptyString => EmptyString
  | String c s' =>
      match g_strchomp s' with
      | EmptyString => if g_ascii_isspace c then EmptyString else String c EmptyString
      | r => String c r
      end
  end.

(** [g_str_has_prefix str prefix]. *)
Definition g_str_has_prefix (str prefix : string) : bool :=
  String.prefix prefix str.

(** [strncmp(s, lit, n) == 0]: the first [n] bytes agree (a shorter
    string differs at its terminator). *)
Fixpoint strncmp_eq (s lit : string) (n : nat) {struct n} : bool :=
  match n with
  | O => true
  | S n' =>
      match s, lit with
      | EmptyString, EmptyString => true
      | String a s', String b lit' => Ascii.eqb a b && strncmp_eq s' lit' n'
      | _, _ => false
      end
  end.

(** What is left of [s] after the delimiter [d], when [s] starts with it. *)
Fixpoint strip_prefix (d s : string) : option string :=
  match d with
  | EmptyString => Some s
  | String a d' =>
      match s with
      | EmptyString => None
      | String b s' => if Ascii.eqb a b then strip_prefix d' s' else None
      end
  end.

(** [strstr]: the text before and after the first occurrence of [d]. *)
Fixpoint strstr (d s : string) : option (string * string) :=
  match strip_prefix d s with
  | Some r => Some (EmptyString, r)
  | None =>
      match s with
      | EmptyString => None
      | String c s' =>
          match strstr d s' with
          | Some (a, b) => Some (String c a, b)
          | None => None
          end
      end
  end.

(** The loop of [g_strsplit]: at most [k] cuts, then the remainder. *)
Fixpoint g_strsplit_loop (d : string) (k : nat) (remainder : string) : list string :=
  match k with
  | O => [remainder]
  | S k' =>
      match strstr d remainder with
      | None => [remainder]
      | Some (tok, rest) => tok :: g_strsplit_loop d k' rest
      end
  end.

(** [g_strsplit string delimiter max_tokens] with [max_tokens >= 1]:
    the empty string gives the empty vector, and the loop
    [while (--max_tokens && s)] cuts at most [max_tokens - 1] times. *)
Definition g_strsplit (s d : string) (max_tokens : nat) : list string :=
  match s with
  | EmptyString => []
  | _ => g_strsplit_loop d (Nat.pred max_tokens) s
  end.

(** [g_strjoinv separator str_array]. *)
Definition g_strjoinv (sep : string) (l : list string) : string :=
  String.concat sep l.

(** [g_strconcat first, ..., NULL]: the variadic list ends at the first
    [NULL], so a null argument silently drops what follows it; a null
    first argument gives [NULL]. *)
Fixpoint g_strconcat_rest (l : list (option string)) : string :=
  match l with
  | Some s :: r => s +:+ g_strconcat_rest r
  | _ => EmptyString
  end.

Definition g_strconcat (l : list (option string)) : option string :=
  match l with
  | Some s :: r => Some (s +:+ g_strconcat_rest r)
  | _ => None
  end.

Definition digit_of (c : ascii) : option Z :=
  let n := ascii_code c in
  if (48 <=? n) && (n <=? 57) then Some (n - 48) else None.

Fixpoint skip_while (p : ascii → bool) (s : string) : string :=
  match s with
  | String c s' => if p c then skip_while p s' else s
  | EmptyString => EmptyString
  end.

(** The digits at the head of [s], read in base ten onto [acc]. *)
Fixpoint parse_digits (acc : Z) (s : string) : Z :=
  match s with
  | String c s' =>
      match digit_of c with
      | Some d => parse_digits (acc * 10 + d) s'
      | None => acc
      end
  | EmptyString => acc
  end.

Definition parse_sign (s : string) : bool * string :=
  match s with
  | String c s' =>
      if Ascii.eqb c "-" then (true, s')
      else if Ascii.eqb c "+" then (false, s')
      else (false, s)
  | EmptyString => (false, s)
  end.

(** [g_ascii_strtoll nptr endptr 10]: a [gint64], saturating. *)
Definition g_ascii_strtoll (s : string) : Z :=
  let '(neg, r) := parse_sign (skip_while isspace s) in
  let n := parse_digits 0 r in
  if neg then (if 2 ^ 63 <? n then - 2 ^ 63 else - n)
  else (if 2 ^ 63 - 1 <? n then 2 ^ 63 - 1 else n).

(** [strtoul nptr NULL 10]: an [unsigned long]; a negated value wraps. *)
Definition strtoul (s : string) : Z :=
  let '(neg, r) := parse_sign (skip_while isspace s) in
  let n := parse_digits 0 r in
  if 2 ^ 64 - 1 <? n then 2 ^ 64 - 1
  else if neg then (- n) mod 2 ^ 64
  else n.

Definition digit_char (d : Z) : ascii := ascii_of_N (Z.to_N (48 + d)).

(** Decimal digits of [n >= 0], most significant first, onto [acc]. *)
Fixpoint dec_digits (fuel : nat) (n : Z) (acc : string) : string :=
  match fuel with
  | O => acc
  | S f =>
      let acc' := String (digit_char (n mod 10)) acc in
      if n <? 10 then acc' else dec_digits f (n / 10) acc'
  end.

(** The [long] that a [uint64_t] argument is read as where a variadic
    function takes a [long]: by ["%ld"], by [curl_easy_setopt]. *)
Definition long_of_uint64 (u : Z) : Z :=
  if u <? 2 ^ 63 then u else u - 2 ^ 64.

Fixpoint string_take (n : nat) (s : string) : string :=
  match n, s with
  | S n', String c s' => String c (string_take n' s')
  | _, _ => EmptyString
  end.

(** ["%ld"] of a [long]: at most nineteen digits after the sign. *)
Definition format_ld (v : Z) : string :=
  if v <? 0 then String "-" (dec_digits 19 (- v) EmptyString)
  else dec_digits 19 v EmptyString.

(** [g_snprintf(buf, n, "%ld", v)]: at most [n - 1] characters are kept. *)
Definition g_snprintf_ld (n : nat) (v : Z) : string :=
  string_take (Nat.pred n) (format_ld (long_of_uint64 v)).

End CLib.

Import CLib.

(** ** Memory faults as outcomes *)

Inductive crash (A : Type) : Type :=
| Done (a : A)
| NullDeref
| UseAfterFree.
Arguments Done {A} a.
Arguments NullDeref {A}.
Arguments UseAfterFree {A}.

#[global] Instance crash_ret : MRet crash := λ A a, Done a.
#[global] Instance crash_bind : MBind crash := λ A B f m,
  match m with
  | Done a => f a
  | NullDeref => NullDeref
  | UseAfterFree => UseAfterFree
  end.

(** [strlen] of a pointer that may be null. *)
Definition strlen_ptr (p : option string) : crash Z :=
  match p with
  | Some s => Done (strlen s)
  | None => NullDeref
  end.

Definition wrap64 (n : Z) : Z := n mod 2 ^ 64.

Definition NL : string := String LF EmptyString.

(** ** Data model *)

Inductive http_verb := HTTP_GET | HTTP_PUT | HTTP_POST | HTTP_DELETE | HTTP_HEAD.

Inductive ds3_error_code :=
| DS3_ERROR_INVALID_XML
| DS3_ERROR_CURL_HANDLE
| DS3_ERROR_FAILED_REQUEST
| DS3_ERROR_MISSING_ARGS.

Record ds3_error := {
  code : ds3_error_code;
  message : string;
  message_size : Z
}.

Record ds3_creds := {
  access_id : string;
  access_id_len : Z;
  secret_key : string;
  secret_key_len : Z
}.

Record ds3_client := {
  endpoint : string;
  endpoint_len : Z;
  proxy : option string;
  proxy_len : Z;
  num_redirects : Z;
  creds : ds3_creds
}.

Record ds3_bulk_object := {
  bulk_object_name : option string;
  bulk_object_name_size : Z;
  bulk_object_size : Z
}.

(** The array [list] and its length [size] are one Rocq list. *)
Record ds3_bulk_object_list := {
  bulk_list : list ds3_bulk_object;
  server_id : option string;
  server_id_size : Z;
  chunk_number : Z
}.

Definition bulk_list_size (l : ds3_bulk_object_list) : Z :=
  Z.of_nat (length (bulk_list l)).

(** [struct _ds3_request]. *)
Record _ds3_request := {
  verb : http_verb;
  path : string;
  path_size : Z;
  request_length : Z;
  request_headers : gmap string string;
  query_params : gmap string string;
  object_list : option ds3_bulk_object_list
}.

Record ds3_response_header := {
  key : string;
  key_size : Z;
  value : string;
  value_size : Z
}.

(** An entry of the response-header table.  The table is made with
    [g_str_hash], [g_str_equal], no key destructor and
    [_ds3_free_response_header] as value destructor, and every header is
    inserted under its own [key] pointer: the key of an entry is a
    string owned by the header first inserted under that name. *)
Record header_entry := {
  entry_key_freed : bool;
  entry_header : ds3_response_header
}.

Record ds3_response_data := {
  status_code : Z;
  status_message : option string;
  status_message_size : Z;
  header_count : Z;
  headers : gmap string header_entry
}.

(** [memset(&response_data, 0, ..)] with a fresh header table. *)
Definition response_data_init : ds3_response_data :=
  {| status_code := 0; status_message := None; status_message_size := 0;
     header_count := 0; headers := ∅ |}.

Definition _ds3_create_error (c : ds3_error_code) (msg : string) : ds3_error :=
  {| code := c; message := msg; message_size := strlen msg |}.

(** ** Header stream parser *)

(** [_ds3_free_response_header] frees the [key] and the [value] of a
    header and the header itself.  Called on the value of an entry that
    stays in the table, it leaves the entry with a freed key. *)
Definition _ds3_free_response_header (e : header_entry) : header_entry :=
  {| entry_key_freed := true; entry_header := entry_header e |}.

(** [g_hash_table_insert(headers, header->key, header)].  Under a name
    not yet in the table the entry is added, with the header's [key] as
    its key.  Under a name already there GLib keeps the key the entry
    has, stores the new value and hands the old one to the value
    destructor -- which frees the string the entry goes on using as key.
    When the name comes again, [g_str_equal] compares it with that
    string: a read of freed memory.  ([g_str_equal] is called on the
    keys whose [g_str_hash] is that of the name; names that differ are
    taken to differ in their hash.) *)
Definition g_hash_table_insert (headers : gmap string header_entry)
    (header : ds3_response_header) : crash (gmap string header_entry) :=
  match headers !! key header with
  | None =>
      Done (<[key header := {| entry_key_freed := false; entry_header := header |}]> headers)
  | Some old =>
      if entry_key_freed old then UseAfterFree
      else
        let freed := _ds3_free_response_header old in
        Done (<[key header := {| entry_key_freed := entry_key_freed freed;
                                 entry_header := header |}]> headers)
  end.

(** [_process_header_line]: libcurl hands over one header line of
    [size * nmemb] bytes; the result is the callback's return value and
    the updated [ds3_response_data]. *)
Definition _process_header_line (buffer : string) (response_data : ds3_response_data)
  : crash (Z * ds3_response_data) :=
  let to_read := strlen buffer in
  if to_read <? 2 then Done (0, response_data)
  else
    let header_buff := g_strchomp buffer in
    if strlen header_buff =? 0 then Done (to_read, response_data)
    else if header_count response_data <? 1 then
      if g_str_has_prefix header_buff "HTTP/1.1" then
        let split_result := g_strsplit header_buff " " 1000 in
        match split_result !! 1%nat with
        | None => NullDeref
        | Some tok =>
            let status := wrap64 (g_ascii_strtoll tok) in
            if status =? 0 then Done (0, response_data)
            else if status =? 100 then Done (to_read, response_data)
            else
              let msg := g_strjoinv " " (drop 2 split_result) in
              Done (to_read,
                    {| status_code := status;
                       status_message := Some msg;
                       status_message_size := strlen msg;
                       header_count := wrap64 (header_count response_data + 1);
                       headers := headers response_data |})
        end
      else Done (0, response_data)
    else
      let split_result := g_strsplit header_buff ": " 2 in
      let k := split_result !! 0%nat in
      let v := split_result !! 1%nat in
      ksz ← strlen_ptr k;
      vsz ← strlen_ptr v;
      let header := {| key := default EmptyString k; key_size := ksz;
                       value := default EmptyString v; value_size := vsz |} in
      table ← g_hash_table_insert (headers response_data) header;
      Done (to_read,
            {| status_code := status_code response_data;
               status_message := status_message response_data;
               status_message_size := status_message_size response_data;
               header_count := wrap64 (header_count response_data + 1);
               headers := table |}).

(** ** Request model and builder *)

Definition _create_hash_table : gmap string string := ∅.

Definition _common_request_init : _ds3_request :=
  {| verb := HTTP_GET; path := EmptyString; path_size := 0; request_length := 0;
     request_headers := _create_hash_table; query_params := _create_hash_table;
     object_list := None |}.

Definition with_verb_path (v : http_verb) (p : string) (r : _ds3_request) : _ds3_request :=
  {| verb := v; path := p; path_size := path_size r;
     request_length := request_length r; request_headers := request_headers r;
     query_params := query_params r; object_list := object_list r |}.

Definition with_length (n : Z) (r : _ds3_request) : _ds3_request :=
  {| verb := verb r; path := path r; path_size := path_size r;
     request_length := n; request_headers := request_headers r;
     query_params := query_params r; object_list := object_list r |}.

Definition with_bulk (op : string) (l : option ds3_bulk_object_list) (r : _ds3_request)
  : _ds3_request :=
  {| verb := verb r; path := path r; path_size := path_size r;
     request_length := request_length r; request_headers := request_headers r;
     query_params := <["operation" := op]> (query_params r); object_list := l |}.

Definition ds3_init_get_service : _ds3_request :=
  with_verb_path HTTP_GET "/" _common_request_init.

Definition ds3_init_get_bucket (bucket_name : string) : _ds3_request :=
  with_verb_path HTTP_GET ("/" +:+ bucket_name) _common_request_init.

Definition ds3_init_get_object (bucket_name object_name : string) : _ds3_request :=
  with_verb_path HTTP_GET ("/" +:+ bucket_name +:+ "/" +:+ object_name) _common_request_init.

Definition ds3_init_delete_object (bucket_name object_name : string) : _ds3_request :=
  with_verb_path HTTP_DELETE ("/" +:+ bucket_name +:+ "/" +:+ object_name) _common_request_init.

(** The [length] argument is a [uint64_t]. *)
Definition ds3_init_put_object (bucket_name object_name : string) (len : Z) : _ds3_request :=
  with_length (wrap64 len)
    (with_verb_path HTTP_PUT ("/" +:+ bucket_name +:+ "/" +:+ object_name) _common_request_init).

Definition ds3_init_put_bucket (bucket_name : string) : _ds3_request :=
  with_verb_path HTTP_PUT ("/" +:+ bucket_name) _common_request_init.

Definition ds3_init_delete_bucket (bucket_name : string) : _ds3_request :=
  with_verb_path HTTP_DELETE ("/" +:+ bucket_name) _common_request_init.

Definition ds3_init_get_bulk (bucket_name : string) (l : option ds3_bulk_object_list)
  : _ds3_request :=
  with_bulk "start_bulk_get" l
    (with_verb_path HTTP_PUT ("/_rest_/bucket/" +:+ bucket_name) _common_request_init).

Definition ds3_init_put_bulk (bucket_name : string) (l : option ds3_bulk_object_list)
  : _ds3_request :=
  with_bulk "start_bulk_put" l
    (with_verb_path HTTP_PUT ("/_rest_/bucket/" +:+ bucket_name) _common_request_init).

(** [ds3_create_creds] on non-null arguments. *)
Definition ds3_create_creds (id secret : string) : ds3_creds :=
  {| access_id := id; access_id_len := strlen id;
     secret_key := secret; secret_key_len := strlen secret |}.

Definition ds3_create_client (ep : string) (c : ds3_creds) : ds3_client :=
  {| endpoint := ep; endpoint_len := strlen ep; proxy := None; proxy_len := 0;
     num_redirects := 5; creds := c |}.

(** ** XML documents as libxml2 presents them *)

(** An element carries its name, its attributes ([properties]) and its
    children; a text node carries its content and is named ["text"]; the
    value of an attribute is a list of text nodes. *)
#[warnings="-register-all"]
Inductive xmlNode : Type :=
| XML_ELEMENT_NODE (name : string) (properties : list xmlAttr) (children : list xmlNode)
| XML_TEXT_NODE (content : string)
with xmlAttr : Type :=
| XML_ATTRIBUTE_NODE (name : string) (children : list xmlNode).

Definition node_name (n : xmlNode) : string :=
  match n with
  | XML_ELEMENT_NODE nm _ _ => nm
  | XML_TEXT_NODE _ => "text"
  end.

Definition xmlChildrenNode (n : xmlNode) : list xmlNode :=
  match n with
  | XML_ELEMENT_NODE _ _ cs => cs
  | XML_TEXT_NODE _ => []
  end.

Definition node_properties (n : xmlNode) : list xmlAttr :=
  match n with
  | XML_ELEMENT_NODE _ ps _ => ps
  | XML_TEXT_NODE _ => []
  end.

Definition attr_name (a : xmlAttr) : string :=
  match a with XML_ATTRIBUTE_NODE nm _ => nm end.

Definition attr_children (a : xmlAttr) : list xmlNode :=
  match a with XML_ATTRIBUTE_NODE _ cs => cs end.

(** [xmlStrcmp(a, b) == 0]. *)
Definition xmlStrEqual (a b : string) : bool := String.eqb a b.

(** [xmlNodeListGetString(doc, list, 1)]: the contents of the text nodes
    of the list, concatenated; [NULL] when there is none. *)
Fixpoint xmlNodeListGetString (l : list xmlNode) : option string :=
  match l with
  | [] => None
  | XML_TEXT_NODE c :: r => Some (c +:+ default EmptyString (xmlNodeListGetString r))
  | XML_ELEMENT_NODE _ _ _ :: r => xmlNodeListGetString r
  end.

(** [xmlNewNode(NULL, name)]. *)
Definition xmlNewNode (nm : string) : xmlNode := XML_ELEMENT_NODE nm [] [].

(** [xmlAddChild(parent, cur)]: [cur] becomes the last child. *)
Definition xmlAddChild (parent cur : xmlNode) : xmlNode :=
  match parent with
  | XML_ELEMENT_NODE nm ps cs => XML_ELEMENT_NODE nm ps (cs ++ [cur])
  | t => t
  end.

Fixpoint set_attr (nm : string) (v : list xmlNode) (ps : list xmlAttr) : list xmlAttr :=
  match ps with
  | [] => [XML_ATTRIBUTE_NODE nm v]
  | a :: r =>
      if xmlStrEqual (attr_name a) nm then XML_ATTRIBUTE_NODE nm v :: r
      else a :: set_attr nm v r
  end.

(** [xmlSetProp(node, name, value)]: the attribute is replaced in place
    or appended; a null value leaves it without a text child. *)
Definition xmlSetProp (node : xmlNode) (nm : string) (v : option string) : xmlNode :=
  let kids := match v with Some s => [XML_TEXT_NODE s] | None => [] end in
  match node with
  | XML_ELEMENT_NODE n ps cs => XML_ELEMENT_NODE n (set_attr nm kids ps) cs
  | t => t
  end.

(** ** Response entities *)

Record ds3_owner := {
  owner_name : option string;
  owner_name_size : Z;
  owner_id : option string;
  owner_id_size : Z
}.

Record ds3_bucket := {
  bucket_creation_date : option string;
  bucket_creation_date_size : Z;
  bucket_name : option string;
  bucket_name_size : Z
}.

Record ds3_get_service_response := {
  buckets : list ds3_bucket;
  owner : option ds3_owner
}.

Definition num_buckets (r : ds3_get_service_response) : Z := Z.of_nat (length (buckets r)).

Record ds3_object := {
  object_name : option string;
  object_name_size : Z;
  etag : option string;
  etag_size : Z;
  last_modified : option string;
  last_modified_size : Z;
  storage_class : option string;
  storage_class_size : Z;
  object_size : Z;
  object_owner : option ds3_owner
}.

Record ds3_get_bucket_response := {
  objects : list ds3_object;
  creation_date : option string;
  creation_date_size : Z;
  is_truncated : bool;
  marker : option string;
  marker_size : Z;
  max_keys : Z;
  listing_name : option string;
  listing_name_size : Z;
  delimiter : option string;
  delimiter_size : Z;
  next_marker : option string;
  next_marker_size : Z;
  prefix : option string;
  prefix_size : Z
}.

Definition num_objects (r : ds3_get_bucket_response) : Z := Z.of_nat (length (objects r)).

Record ds3_bulk_response := {
  job_id : option string;
  job_id_size : Z;
  response_list : list ds3_bulk_object_list
}.

Definition list_size (r : ds3_bulk_response) : Z := Z.of_nat (length (response_list r)).

(** ** XML codec: decoding *)

(** A [for] loop over a sibling list whose body may dereference null. *)
Fixpoint crash_foldl {A B : Type} (f : A → B → crash A) (a : A) (l : list B) : crash A :=
  match l with
  | [] => Done a
  | b :: r => a' ← f a b; crash_foldl f a' r
  end.

Definition owner_zero : ds3_owner :=
  {| owner_name := None; owner_name_size := 0; owner_id := None; owner_id_size := 0 |}.

Definition _parse_owner_child (o : ds3_owner) (child_node : xmlNode) : crash ds3_owner :=
  if xmlStrEqual (node_name child_node) "DisplayName" then
    let text := xmlNodeListGetString (xmlChildrenNode child_node) in
    sz ← strlen_ptr text;
    Done {| owner_name := text; owner_name_size := sz;
            owner_id := owner_id o; owner_id_size := owner_id_size o |}
  else if xmlStrEqual (node_name child_node) "ID" then
    let text := xmlNodeListGetString (xmlChildrenNode child_node) in
    sz ← strlen_ptr text;
    Done {| owner_name := owner_name o; owner_name_size := owner_name_size o;
            owner_id := text; owner_id_size := sz |}
  else Done o.

Definition _parse_owner (owner_node : xmlNode) : crash ds3_owner :=
  crash_foldl _parse_owner_child owner_zero (xmlChildrenNode owner_node).

Definition bucket_zero : ds3_bucket :=
  {| bucket_creation_date := None; bucket_creation_date_size := 0;
     bucket_name := None; bucket_name_size := 0 |}.

Definition _parse_bucket_field (b : ds3_bucket) (data_ptr : xmlNode) : crash ds3_bucket :=
  if xmlStrEqual (node_name data_ptr) "CreationDate" then
    let text := xmlNodeListGetString (xmlChildrenNode data_ptr) in
    sz ← strlen_ptr text;
    Done {| bucket_creation_date := text; bucket_creation_date_size := sz;
            bucket_name := bucket_name b; bucket_name_size := bucket_name_size b |}
  else if xmlStrEqual (node_name data_ptr) "Name" then
    let text := xmlNodeListGetString (xmlChildrenNode data_ptr) in
    sz ← strlen_ptr text;
    Done {| bucket_creation_date := bucket_creation_date b;
            bucket_creation_date_size := bucket_creation_date_size b;
            bucket_name := text; bucket_name_size := sz |}
  else Done b.

(** [_parse_buckets]: one entry per child of [Buckets], whatever its name. *)
Definition _parse_buckets (buckets_node : xmlNode) : crash (list ds3_bucket) :=
  crash_foldl
    (λ array curr,
       b ← crash_foldl _parse_bucket_field bucket_zero (xmlChildrenNode curr);
       Done (array ++ [b]))
    [] (xmlChildrenNode buckets_node).

Definition service_response_zero : ds3_get_service_response :=
  {| buckets := []; owner := None |}.

Definition ds3_get_service_child (r : ds3_get_service_response) (child_node : xmlNode)
  : crash ds3_get_service_response :=
  if xmlStrEqual (node_name child_node) "Buckets" then
    bs ← _parse_buckets child_node;
    Done {| buckets := bs; owner := owner r |}
  else if xmlStrEqual (node_name child_node) "Owner" then
    o ← _parse_owner child_node;
    Done {| buckets := buckets r; owner := Some o |}
  else Done r.

Definition object_zero : ds3_object :=
  {| object_name := None; object_name_size := 0; etag := None; etag_size := 0;
     last_modified := None; last_modified_size := 0;
     storage_class := None; storage_class_size := 0;
     object_size := 0; object_owner := None |}.

Definition _parse_object_child (o : ds3_object) (child_node : xmlNode) : crash ds3_object :=
  let text := xmlNodeListGetString (xmlChildrenNode child_node) in
  if xmlStrEqual (node_name child_node) "Key" then
    sz ← strlen_ptr text;
    Done {| object_name := text; object_name_size := sz;
            etag := etag o; etag_size := etag_size o;
            last_modified := last_modified o; last_modified_size := last_modified_size o;
            storage_class := storage_class o; storage_class_size := storage_class_size o;
            object_size := object_size o; object_owner := object_owner o |}
  else if xmlStrEqual (node_name child_node) "ETag" then
    match text with
    | None => Done o
    | Some t =>
        Done {| object_name := object_name o; object_name_size := object_name_size o;
                etag := Some t; etag_size := strlen t;
                last_modified := last_modified o; last_modified_size := last_modified_size o;
                storage_class := storage_class o; storage_class_size := storage_class_size o;
                object_size := object_size o; object_owner := object_owner o |}
    end
  else if xmlStrEqual (node_name child_node) "LastModified" then
    match text with
    | None => Done o
    | Some t =>
        Done {| object_name := object_name o; object_name_size := object_name_size o;
                etag := etag o; etag_size := etag_size o;
                last_modified := Some t; last_modified_size := strlen t;
                storage_class := storage_class o; storage_class_size := storage_class_size o;
                object_size := object_size o; object_owner := object_owner o |}
    end
  else if xmlStrEqual (node_name child_node) "StorageClass" then
    match text with
    | None => Done o
    | Some t =>
        Done {| object_name := object_name o; object_name_size := object_name_size o;
                etag := etag o; etag_size := etag_size o;
                last_modified := last_modified o; last_modified_size := last_modified_size o;
                storage_class := Some t; storage_class_size := strlen t;
                object_size := object_size o; object_owner := object_owner o |}
    end
  else if xmlStrEqual (node_name child_node) "Size" then
    match text with
    | None => NullDeref
    | Some t =>
        Done {| object_name := object_name o; object_name_size := object_name_size o;
                etag := etag o; etag_size := etag_size o;
                last_modified := last_modified o; last_modified_size := last_modified_size o;
                storage_class := storage_class o; storage_class_size := storage_class_size o;
                object_size := strtoul t; object_owner := object_owner o |}
    end
  else if xmlStrEqual (node_name child_node) "Owner" then
    ow ← _parse_owner child_node;
    Done {| object_name := object_name o; object_name_size := object_name_size o;
            etag := etag o; etag_size := etag_size o;
            last_modified := last_modified o; last_modified_size := last_modified_size o;
            storage_class := storage_class o; storage_class_size := storage_class_size o;
            object_size := object_size o; object_owner := Some ow |}
  else Done o.

Definition _parse_object (contents_node : xmlNode) : crash ds3_object :=
  crash_foldl _parse_object_child object_zero (xmlChildrenNode contents_node).

Definition bucket_response_zero : ds3_get_bucket_response :=
  {| objects := []; creation_date := None; creation_date_size := 0;
     is_truncated := false; marker := None; marker_size := 0; max_keys := 0;
     listing_name := None; listing_name_size := 0; delimiter := None; delimiter_size := 0;
     next_marker := None; next_marker_size := 0; prefix := None; prefix_size := 0 |}.

(** The leaves of a bucket listing that the root loop of
    [ds3_get_bucket] stores. *)
Inductive listing_field :=
| SetObject (o : ds3_object)
| SetCreationDate (t : string)
| SetIsTruncated (b : bool)
| SetMarker (t : string)
| SetMaxKeys (n : Z)
| SetName (t : string)
| SetDelimiter (t : string)
| SetNextMarker (t : string)
| SetPrefix (t : string).

Definition store_field (r : ds3_get_bucket_response) (f : listing_field)
  : ds3_get_bucket_response :=
  {| objects := match f with SetObject o => objects r ++ [o] | _ => objects r end;
     creation_date := match f with SetCreationDate t => Some t | _ => creation_date r end;
     creation_date_size :=
       match f with SetCreationDate t => strlen t | _ => creation_date_size r end;
     is_truncated := match f with SetIsTruncated b => b | _ => is_truncated r end;
     marker := match f with SetMarker t => Some t | _ => marker r end;
     marker_size := match f with SetMarker t => strlen t | _ => marker_size r end;
     max_keys := match f with SetMaxKeys n => n | _ => max_keys r end;
     listing_name := match f with SetName t => Some t | _ => listing_name r end;
     listing_name_size := match f with SetName t => strlen t | _ => listing_name_size r end;
     delimiter := match f with SetDelimiter t => Some t | _ => delimiter r end;
     delimiter_size := match f with SetDelimiter t => strlen t | _ => delimiter_size r end;
     next_marker := match f with SetNextMarker t => Some t | _ => next_marker r end;
     next_marker_size :=
       match f with SetNextMarker t => strlen t | _ => next_marker_size r end;
     prefix := match f with SetPrefix t => Some t | _ => prefix r end;
     prefix_size := match f with SetPrefix t => strlen t | _ => prefix_size r end |}.

(** One pass of the root loop of [ds3_get_bucket]; an element without
    text is skipped by [continue]. *)
Definition ds3_get_bucket_child (r : ds3_get_bucket_response) (child_node : xmlNode)
  : crash ds3_get_bucket_response :=
  let nm := node_name child_node in
  let text := xmlNodeListGetString (xmlChildrenNode child_node) in
  let leaf (mk : string → listing_field) :=
    match text with
    | None => Done r
    | Some t => Done (store_field r (mk t))
    end in
  if xmlStrEqual nm "Contents" then
    o ← _parse_object child_node; Done (store_field r (SetObject o))
  else if xmlStrEqual nm "CreationDate" then leaf SetCreationDate
  else if xmlStrEqual nm "IsTruncated" then
    leaf (λ t, SetIsTruncated (strncmp_eq t "true" 4))
  else if xmlStrEqual nm "Marker" then leaf SetMarker
  else if xmlStrEqual nm "MaxKeys" then leaf (λ t, SetMaxKeys (strtoul t))
  else if xmlStrEqual nm "Name" then leaf SetName
  else if xmlStrEqual nm "Delimiter" then leaf SetDelimiter
  else if xmlStrEqual nm "NextMarker" then leaf SetNextMarker
  else if xmlStrEqual nm "Prefix" then leaf SetPrefix
  else Done r.

Definition bulk_object_zero : ds3_bulk_object :=
  {| bulk_object_name := None; bulk_object_name_size := 0; bulk_object_size := 0 |}.

Definition _parse_bulk_object_attr (o : ds3_bulk_object) (attribute : xmlAttr)
  : ds3_bulk_object :=
  let text := xmlNodeListGetString (attr_children attribute) in
  if xmlStrEqual (attr_name attribute) "Name" then
    match text with
    | None => o
    | Some t => {| bulk_object_name := Some t; bulk_object_name_size := strlen t;
                   bulk_object_size := bulk_object_size o |}
    end
  else if xmlStrEqual (attr_name attribute) "Size" then
    match text with
    | None => o
    | Some t => {| bulk_object_name := bulk_object_name o;
                   bulk_object_name_size := bulk_object_name_size o;
                   bulk_object_size := strtoul t |}
    end
  else o.

Definition _parse_bulk_object (object_node : xmlNode) : ds3_bulk_object :=
  foldl _parse_bulk_object_attr bulk_object_zero (node_properties object_node).

Definition bulk_object_list_zero : ds3_bulk_object_list :=
  {| bulk_list := []; server_id := None; server_id_size := 0; chunk_number := 0 |}.

Definition _parse_bulk_objects_attr (l : ds3_bulk_object_list) (attribute : xmlAttr)
  : ds3_bulk_object_list :=
  let text := xmlNodeListGetString (attr_children attribute) in
  if xmlStrEqual (attr_name attribute) "ServerId" then
    match text with
    | None => l
    | Some t => {| bulk_list := bulk_list l; server_id := Some t; server_id_size := strlen t;
                   chunk_number := chunk_number l |}
    end
  else if xmlStrEqual (attr_name attribute) "ChunkNumber" then
    match text with
    | None => l
    | Some t => {| bulk_list := bulk_list l; server_id := server_id l;
                   server_id_size := server_id_size l; chunk_number := strtoul t |}
    end
  else l.

Definition _parse_bulk_objects_child (array : list ds3_bulk_object) (child_node : xmlNode)
  : list ds3_bulk_object :=
  if xmlStrEqual (node_name child_node) "Object"
  then array ++ [_parse_bulk_object child_node]
  else array.

Definition _parse_bulk_objects (objects_node : xmlNode) : ds3_bulk_object_list :=
  let response :=
    foldl _parse_bulk_objects_attr bulk_object_list_zero (node_properties objects_node) in
  let object_array := foldl _parse_bulk_objects_child [] (xmlChildrenNode objects_node) in
  {| bulk_list := object_array; server_id := server_id response;
     server_id_size := server_id_size response; chunk_number := chunk_number response |}.

Definition bulk_response_zero : ds3_bulk_response :=
  {| job_id := None; job_id_size := 0; response_list := [] |}.

Definition ds3_bulk_root_attr (r : ds3_bulk_response) (attribute : xmlAttr)
  : ds3_bulk_response :=
  if xmlStrEqual (attr_name attribute) "JobId" then
    match xmlNodeListGetString (attr_children attribute) with
    | None => r
    | Some t => {| job_id := Some t; job_id_size := strlen t;
                   response_list := response_list r |}
    end
  else r.

Definition ds3_bulk_root_child (array : list ds3_bulk_object_list) (child_node : xmlNode)
  : list ds3_bulk_object_list :=
  if xmlStrEqual (node_name child_node) "Objects"
  then array ++ [_parse_bulk_objects child_node]
  else array.

(** The part of [ds3_bulk] that walks a [MasterObjectList] root. *)
Definition ds3_bulk_decode (root : xmlNode) : ds3_bulk_response :=
  let response := foldl ds3_bulk_root_attr bulk_response_zero (node_properties root) in
  let objects_array := foldl ds3_bulk_root_child [] (xmlChildrenNode root) in
  {| job_id := job_id response; job_id_size := job_id_size response;
     response_list := objects_array |}.

(** ** XML codec: encoding the bulk manifest *)

(** The body of the loop of [ds3_bulk] over the caller's objects. *)
Definition ds3_bulk_encode_object (obj : ds3_bulk_object) : xmlNode :=
  let size_buff := g_snprintf_ld 21 (bulk_object_size obj) in
  let object_node := xmlNewNode "Object" in
  let object_node := xmlSetProp object_node "Name" (bulk_object_name obj) in
  xmlSetProp object_node "Size" (Some size_buff).

(** The document [ds3_bulk] builds: [MasterObjectList] holding one
    [Objects] element with one [Object] per entry, in order. *)
Definition ds3_bulk_encode (obj_list : ds3_bulk_object_list) : xmlNode :=
  let root_node := xmlNewNode "MasterObjectList" in
  let objects_node :=
    foldl (λ objects_node obj, xmlAddChild objects_node (ds3_bulk_encode_object obj))
          (xmlNewNode "Objects") (bulk_list obj_list) in
  xmlAddChild root_node objects_node.

(** ** Collaborators outside the repository *)

(** The options [_net_process_request] sets on a libcurl easy handle;
    [CURLOPT_INFILESIZE] is a [long]. *)
Record curl_easy := {
  CURLOPT_URL : string;
  CURLOPT_FOLLOWLOCATION : Z;
  CURLOPT_MAXREDIRS : Z;
  CURLOPT_PROXY : option string;
  CURLOPT_WRITEFUNCTION : bool;
  CURLOPT_READFUNCTION : bool;
  CURLOPT_CUSTOMREQUEST : option string;
  CURLOPT_POST : bool;
  CURLOPT_PUT : bool;
  CURLOPT_UPLOAD : bool;
  CURLOPT_INFILESIZE : option Z;
  CURLOPT_HTTPHEADER : list string
}.

(** What the wire delivers for one exchange: the header lines, the body
    in the pieces libcurl hands to the write callback, and the result
    code of the transfer itself ([CURLE_OK] is [0]). *)
Record curl_transfer := {
  header_lines : list string;
  body_chunks : list string;
  result_code : Z
}.

(** What the development takes from outside: the library routines, the
    wire ([curl_easy_transfer]), the order of iteration over a hash
    table, and the bytes that lie in memory behind the contents of the
    byte array holding a response ([heap_after], up to their first NUL). *)
Record collaborators := {
  g_hmac_sha1 : string → string → string;
  g_base64_encode : string → string;
  _generate_date_string : string;
  curl_easy_init : bool;
  curl_easy_transfer : curl_easy → curl_transfer;
  curl_easy_strerror : Z → string;
  xmlParseMemory : string → option xmlNode;
  xmlDocDumpFormatMemory : xmlNode → string;
  visit_order : gmap string string → list (string * string);
  heap_after : string → string
}.

Definition CURLE_OK : Z := 0.
Definition CURLE_WRITE_ERROR : Z := 23.

(** What an exchange does that the outside can observe. *)
Inductive event :=
| EvSign (string_to_sign : string)
| EvPerform (handle : curl_easy).

(** A call: the observable activity, and what it returns unless it
    dereferences a null pointer on the way. *)
Record exchange (R : Type) := {
  trace : list event;
  outcome : crash R
}.
Arguments trace {R} e.
Arguments outcome {R} e.

(** The returned [ds3_error*] and the value left behind a data pointer:
    the bytes gathered through [read_user_struct], or the structure
    stored through [_response] ([None] when nothing was stored). *)
Record ds3_result (R : Type) := {
  error : option ds3_error;
  result : option R
}.
Arguments error {R} d.
Arguments result {R} d.

Record ds3_xml_send_buff := {
  buff : string;
  buff_size : Z;
  total_read : Z
}.

Record query_entries := {
  entries : list (option string);
  entries_size : Z
}.

(** The strings of a [NULL]-terminated [char**]. *)
Fixpoint strv (l : list (option string)) : list string :=
  match l with
  | Some s :: r => s :: strv r
  | _ => []
  end.

(** ** Canonical signer *)

Definition _net_get_verb (v : http_verb) : string :=
  match v with
  | HTTP_GET => "GET"
  | HTTP_PUT => "PUT"
  | HTTP_POST => "POST"
  | HTTP_DELETE => "DELETE"
  | HTTP_HEAD => "HEAD"
  end.

Definition _generate_signature_str (v : http_verb)
    (resource_name date content_type md5 amz_headers : option string) : option string :=
  match resource_name with
  | None => None
  | Some _ =>
      match date with
      | None => None
      | Some _ =>
          g_strconcat [Some (_net_get_verb v); Some NL; md5; Some NL; content_type;
                       Some NL; date; Some NL; amz_headers; resource_name]
      end
  end.

Section Pipeline.

Variable env : collaborators.

(** [_net_compute_signature]: the key is [secret_key_len] bytes of
    [secret_key]; a null string to sign (never passed by the executor)
    is measured by [g_hmac_update(.., -1)]. *)
Definition _net_compute_signature (c : ds3_creds) (v : http_verb)
    (resource_name date content_type md5 amz_headers : option string) : crash string :=
  match _generate_signature_str v resource_name date content_type md5 amz_headers with
  | None => NullDeref
  | Some signature_str =>
      let k := string_take (Z.to_nat (secret_key_len c)) (secret_key c) in
      Done (g_base64_encode env (g_hmac_sha1 env k signature_str))
  end.

(** ** Request executor *)

(** [entries->size] is never advanced: every entry lands in the slot
    [entries->entries[entries->size]]. *)
Definition _hash_for_each (k v : string) (q : query_entries) : query_entries :=
  {| entries := <[Z.to_nat (entries_size q) := Some (k +:+ "=" +:+ v)]> (entries q);
     entries_size := entries_size q |}.

Definition _net_gen_query_params (params : gmap string string) : option string :=
  if 0 <? Z.of_nat (size params) then
    let q_entries := {| entries := replicate (size params + 1) None; entries_size := 0 |} in
    let q_entries :=
      foldl (λ q kv, _hash_for_each kv.1 kv.2 q) q_entries (visit_order env params) in
    Some (g_strjoinv "&" (strv (entries q_entries)))
  else None.

Definition load_xml_buff (contents : string) (blob : string) : Z * string :=
  (strlen contents, blob +:+ contents).

(** [_ds3_send_xml_buff]: up to [size * nmemb] bytes from the start of
    the buffer; [total_read] is not advanced. *)
Definition _ds3_send_xml_buff (room : Z) (xml_buff : ds3_xml_send_buff)
  : string * ds3_xml_send_buff :=
  let remaining := wrap64 (buff_size xml_buff - total_read xml_buff) in
  let to_read := if remaining <? room then remaining else room in
  (string_take (Z.to_nat to_read) (buff xml_buff), xml_buff).

(** libcurl feeds each header line to [_process_header_line] and stops
    the transfer when the callback does not return the line's length. *)
Fixpoint deliver_headers (lines : list string) (rd : ds3_response_data) : crash bool :=
  match lines with
  | [] => Done true
  | l :: r =>
      res ← _process_header_line l rd;
      if res.1 =? strlen l then deliver_headers r res.2 else Done false
  end.

Fixpoint deliver_body {A : Type} (f : string → A → Z * A) (chunks : list string) (a : A)
  : bool * A :=
  match chunks with
  | [] => (true, a)
  | c :: r =>
      let res := f c a in
      if res.1 =? strlen c then deliver_body f r res.2 else (false, res.2)
  end.

(** [curl_easy_perform] with the header callback of this file and the
    write callback registered on the handle, if any. *)
Definition curl_easy_perform {A : Type} (handle : curl_easy)
    (write_data : option A) (write_func : option (string → A → Z * A))
  : crash (Z * option A) :=
  let t := curl_easy_transfer env handle in
  accepted ← deliver_headers (header_lines t) response_data_init;
  if accepted : bool then
    match write_data, write_func with
    | Some a, Some f =>
        let res := deliver_body f (body_chunks t) a in
        Done (if res.1 then result_code t else CURLE_WRITE_ERROR, Some res.2)
    | _, _ => Done (result_code t, write_data)
    end
  else Done (CURLE_WRITE_ERROR, write_data).

Definition _net_process_request {A B : Type}
    (client : ds3_client) (request : _ds3_request)
    (read_user_struct : option A) (read_handler_func : option (string → A → Z * A))
    (write_user_struct : option B) (write_handler_func : option (Z → B → string * B))
  : exchange (ds3_result A) :=
  if curl_easy_init env then
    let url :=
      match _net_gen_query_params (query_params request) with
      | None => endpoint client +:+ path request
      | Some q => endpoint client +:+ path request +:+ "?" +:+ q
      end in
    let reading := bool_decide (is_Some read_user_struct ∧ is_Some read_handler_func) in
    let writing := bool_decide (is_Some write_user_struct ∧ is_Some write_handler_func) in
    let upload := Some (long_of_uint64 (request_length request)) in
    let method :=
      match verb request with
      | HTTP_POST =>
          if writing then (None, true, false, true, upload)
          else (Some "POST", false, false, false, None)
      | HTTP_PUT =>
          if writing then (None, false, true, true, upload)
          else (Some "PUT", false, false, false, None)
      | HTTP_DELETE => (Some "DELETE", false, false, false, None)
      | HTTP_HEAD => (Some "HEAD", false, false, false, None)
      | HTTP_GET => (None, false, false, false, None)
      end in
    let date := _generate_date_string env in
    let date_header := "Date: " +:+ date in
    let signed :=
      _generate_signature_str (verb request) (Some (path request)) (Some date)
        (Some EmptyString) (Some EmptyString) (Some EmptyString) in
    match _net_compute_signature (creds client) (verb request)
            (Some (path request)) (Some date)
            (Some EmptyString) (Some EmptyString) (Some EmptyString) with
    | NullDeref => {| trace := []; outcome := NullDeref |}
    | UseAfterFree => {| trace := []; outcome := UseAfterFree |}
    | Done signature =>
        let auth_header :=
          "Authorization: AWS " +:+ access_id (creds client) +:+ ":" +:+ signature in
        let handle :=
          {| CURLOPT_URL := url;
             CURLOPT_FOLLOWLOCATION := 1;
             CURLOPT_MAXREDIRS := num_redirects client;
             CURLOPT_PROXY := proxy client;
             CURLOPT_WRITEFUNCTION := reading;
             CURLOPT_READFUNCTION := writing;
             CURLOPT_CUSTOMREQUEST := method.1.1.1.1;
             CURLOPT_POST := method.1.1.1.2;
             CURLOPT_PUT := method.1.1.2;
             CURLOPT_UPLOAD := method.1.2;
             CURLOPT_INFILESIZE := method.2;
             CURLOPT_HTTPHEADER := [auth_header; date_header] |} in
        {| trace := [EvSign (default EmptyString signed); EvPerform handle];
           outcome :=
             res ← curl_easy_perform handle
                     (if reading then read_user_struct else None)
                     (if reading then read_handler_func else None);
             let data := if reading then res.2 else read_user_struct in
             if negb (res.1 =? CURLE_OK) then
               let message := "Request failed: " +:+ curl_easy_strerror env res.1 in
               Done {| error := Some (_ds3_create_error DS3_ERROR_FAILED_REQUEST message);
                       result := data |}
             else Done {| error := None; result := data |} |}
    end
  else
    {| trace := [];
       outcome :=
         Done {| error := Some (_ds3_create_error DS3_ERROR_CURL_HANDLE
                                  "Failed to create curl handle");
                 result := read_user_struct |} |}.

Definition missing_args_message : string :=
  "All arguments must be filled in for request processing".

Definition missing_args {R : Type} (msg : string) (left : option R)
  : exchange (ds3_result R) :=
  {| trace := [];
     outcome := Done {| error := Some (_ds3_create_error DS3_ERROR_MISSING_ARGS msg);
                        result := left |} |}.

Definition _internal_request_dispatcher {A B : Type}
    (client : option ds3_client) (request : option _ds3_request)
    (read_user_struct : option A) (read_handler_func : option (string → A → Z * A))
    (write_user_struct : option B) (write_handler_func : option (Z → B → string * B))
  : exchange (ds3_result A) :=
  match client, request with
  | Some c, Some r =>
      _net_process_request c r read_user_struct read_handler_func
        write_user_struct write_handler_func
  | _, _ => missing_args missing_args_message read_user_struct
  end.

(** [xml_blob->data] where a string is expected.  The array has no
    terminator: the string read there ends at the first NUL byte of the
    contents and, when they hold none, runs on into the bytes that lie
    behind them in memory, [heap_after].  An array nothing was appended
    to has a null [data]. *)
Definition blob_data (xml_blob : string) : option string :=
  match xml_blob with
  | EmptyString => None
  | _ => Some (c_str (xml_blob +:+ heap_after env xml_blob))
  end.

(** The [INVALID_XML] error of the decoding operations: the message is
    [g_strconcat(lead, xml_blob->data, NULL)]. *)
Definition invalid_xml {R : Type} (lead xml_blob : string) : ds3_result R :=
  let message := default EmptyString (g_strconcat [Some lead; blob_data xml_blob]) in
  {| error := Some (_ds3_create_error DS3_ERROR_INVALID_XML message);
     result := None |}.

Definition parse_failed_lead : string :=
  "Failed to parse response document.  The actual response is: ".

(** The shared shape of the three decoding operations once the
    response bytes are in [xml_blob]: parse, compare the root's name,
    walk the root. *)
Definition decode_blob {R : Type} (expected lead : string)
    (walk : xmlNode → crash R) (xml_blob : string) : crash (ds3_result R) :=
  match xmlParseMemory env xml_blob with
  | None => Done (invalid_xml parse_failed_lead xml_blob)
  | Some root =>
      if negb (xmlStrEqual (node_name root) expected) then
        Done (invalid_xml lead xml_blob)
      else
        response ← walk root;
        Done {| error := None; result := Some response |}
  end.

(** What [ds3_get_service] does with the bytes gathered in [xml_blob];
    the [ds3_error*] of the exchange is not looked at. *)
Definition ds3_get_service_received (r : ds3_result string)
  : crash (ds3_result ds3_get_service_response) :=
  decode_blob "ListAllMyBucketsResult"
    "Expected the root element to be 'ListAllMyBucketsResult'.  The actual response is: "
    (λ root, crash_foldl ds3_get_service_child service_response_zero (xmlChildrenNode root))
    (default EmptyString (result r)).

(** [ds3_get_service]: the value returned by the dispatcher is dropped. *)
Definition ds3_get_service (client : option ds3_client) (request : option _ds3_request)
  : exchange (ds3_result ds3_get_service_response) :=
  let sent := _internal_request_dispatcher (B := unit) client request
                (Some EmptyString) (Some load_xml_buff) None None in
  {| trace := trace sent;
     outcome := r ← outcome sent; ds3_get_service_received r |}.

Definition ds3_get_bucket_received (r : ds3_result string)
  : crash (ds3_result ds3_get_bucket_response) :=
  decode_blob "ListBucketResult"
    "Expected the root element to be 'ListBucketsResult'.  The actual response is: "
    (λ root, crash_foldl ds3_get_bucket_child bucket_response_zero (xmlChildrenNode root))
    (default EmptyString (result r)).

(** [ds3_get_bucket]: the value returned by the dispatcher is dropped. *)
Definition ds3_get_bucket (client : option ds3_client) (request : option _ds3_request)
  : exchange (ds3_result ds3_get_bucket_response) :=
  let sent := _internal_request_dispatcher (B := unit) client request
                (Some EmptyString) (Some load_xml_buff) None None in
  {| trace := trace sent;
     outcome := r ← outcome sent; ds3_get_bucket_received r |}.

Definition ds3_get_object {A : Type} (client : option ds3_client)
    (request : option _ds3_request)
    (user_data : option A) (callback : option (string → A → Z * A))
  : exchange (ds3_result A) :=
  _internal_request_dispatcher (B := unit) client request user_data callback None None.

Definition ds3_put_object {B : Type} (client : option ds3_client)
    (request : option _ds3_request)
    (user_data : option B) (callback : option (Z → B → string * B))
  : exchange (ds3_result unit) :=
  _internal_request_dispatcher client request None None user_data callback.

Definition ds3_delete_object (client : option ds3_client) (request : option _ds3_request)
  : exchange (ds3_result unit) :=
  _internal_request_dispatcher (B := unit) client request None None None None.

Definition ds3_put_bucket (client : option ds3_client) (request : option _ds3_request)
  : exchange (ds3_result unit) :=
  _internal_request_dispatcher (B := unit) client request None None None None.

Definition ds3_delete_bucket (client : option ds3_client) (request : option _ds3_request)
  : exchange (ds3_result unit) :=
  _internal_request_dispatcher (B := unit) client request None None None None.

Definition bulk_missing_list_message : string :=
  "The bulk command requires a list of objects to process".

(** What [ds3_bulk] does once [_net_process_request] has returned. *)
Definition ds3_bulk_received (r : ds3_result string)
  : crash (ds3_result ds3_bulk_response) :=
  match error r with
  | Some error_response => Done {| error := Some error_response; result := None |}
  | None =>
      decode_blob "MasterObjectList"
        "Expected the root element to be 'MasterObjectList'.  The actual response is: "
        (λ root, Done (ds3_bulk_decode root))
        (default EmptyString (result r))
  end.

Definition ds3_bulk (client : option ds3_client) (_request : option _ds3_request)
  : exchange (ds3_result ds3_bulk_response) :=
  match client, _request with
  | Some c, Some request =>
      match object_list request with
      | Some obj_list =>
          if bulk_list_size obj_list =? 0 then missing_args bulk_missing_list_message None
          else
            let doc := ds3_bulk_encode obj_list in
            let xml_buff := xmlDocDumpFormatMemory env doc in
            let send_buff :=
              {| buff := xml_buff; buff_size := strlen xml_buff; total_read := 0 |} in
            let request := with_length (buff_size send_buff) request in
            let sent := _net_process_request c request
                          (Some EmptyString) (Some load_xml_buff)
                          (Some send_buff) (Some _ds3_send_xml_buff) in
            {| trace := trace sent;
               outcome := r ← outcome sent; ds3_bulk_received r |}
      | None => missing_args bulk_missing_list_message None
      end
  | _, _ => missing_args missing_args_message None
  end.

End Pipeline.

(** ** Vocabulary of the statements *)

Definition CRLF : string := String CR (String LF EmptyString).

Fixpoint string_forall (p : ascii → bool) (s : string) : bool :=
  match s with
  | EmptyString => true
  | String c s' => p c && string_forall p s'
  end.

(** No space character occurs in [s]. *)
Definition space_free (s : string) : bool :=
  string_forall (λ c, negb (Ascii.eqb " " c)) s.

(** [d] occurs in [s] as a substring. *)
Fixpoint occurs (d s : string) : bool :=
  String.prefix d s ||
  match s with
  | EmptyString => false
  | String _ s' => occurs d s'
  end.

Definition status_200 : ds3_response_data :=
  {| status_code := 200; status_message := Some "OK"; status_message_size := 2;
     header_count := 1; headers := ∅ |}.

(** The name of a method on the wire. *)
Definition method_name (v : http_verb) : string :=
  match v with
  | HTTP_GET => "GET"
  | HTTP_PUT => "PUT"
  | HTTP_POST => "POST"
  | HTTP_DELETE => "DELETE"
  | HTTP_HEAD => "HEAD"
  end.

(** The string a signature is computed over, as the specification
    gives it. *)
Definition canonical_string (v : http_verb)
    (md5 content_type date amz_headers resource : string) : string :=
  method_name v +:+ NL +:+ md5 +:+ NL +:+ content_type +:+ NL +:+ date +:+ NL
    +:+ amz_headers +:+ resource.

(** The same collaborators, with every transfer ending in [res]. *)
Definition ending_with (res : Z) (env : collaborators) : collaborators :=
  {| g_hmac_sha1 := g_hmac_sha1 env;
     g_base64_encode := g_base64_encode env;
     _generate_date_string := _generate_date_string env;
     curl_easy_init := curl_easy_init env;
     curl_easy_transfer := λ h,
       {| header_lines := header_lines (curl_easy_transfer env h);
          body_chunks := body_chunks (curl_easy_transfer env h);
          result_code := res |};
     curl_easy_strerror := curl_easy_strerror env;
     xmlParseMemory := xmlParseMemory env;
     xmlDocDumpFormatMemory := xmlDocDumpFormatMemory env;
     visit_order := visit_order env;
     heap_after := heap_after env |}.

(** [body] does not parse, or its root is not named [expected]. *)
Definition body_rejected (env : collaborators) (expected body : string) : Prop :=
  match xmlParseMemory env body with
  | None => True
  | Some root => node_name root ≠ expected
  end.

(** The code of the [ds3_error] a call returned, if it returned one. *)
Definition returned_code {R : Type} (o : crash (ds3_result R)) : option ds3_error_code :=
  match o with
  | Done r => code <$> error r
  | _ => None
  end.

(** The call returned, without a [ds3_error], and stored a result. *)
Definition succeeds {R : Type} (o : crash (ds3_result R)) : Prop :=
  ∃ res, o = Done res ∧ error res = None ∧ is_Some (result res).

(** The document without the text nodes between its elements: what is
    left of a serialised and re-parsed tree whatever the indentation. *)
Fixpoint strip_text (n : xmlNode) : xmlNode :=
  match n with
  | XML_ELEMENT_NODE nm ps cs =>
      XML_ELEMENT_NODE nm ps
        ((fix go (l : list xmlNode) : list xmlNode :=
            match l with
            | [] => []
            | XML_TEXT_NODE _ :: r => go r
            | c :: r => strip_text c :: go r
            end) cs)
  | XML_TEXT_NODE c => XML_TEXT_NODE c
  end.

Fixpoint strip_children (l : list xmlNode) : list xmlNode :=
  match l with
  | [] => []
  | XML_TEXT_NODE _ :: r => strip_children r
  | c :: r => strip_text c :: strip_children r
  end.

(** What the specification keeps of a bulk object: its name and size. *)
Definition name_and_size (o : ds3_bulk_object) : option string * Z :=
  (bulk_object_name o, bulk_object_size o).

(** The arguments [ds3_bulk] requires are not all there. *)
Definition bulk_args_missing (client : option ds3_client) (request : option _ds3_request)
  : bool :=
  match client, request with
  | Some _, Some r =>
      match object_list r with
      | Some l => bool_decide (bulk_list l = [])
      | None => true
      end
  | _, _ => true
  end.



(** No NUL byte occurs in [s]. *)
Definition nul_free (s : string) : bool :=
  string_forall (λ c, negb (Ascii.eqb c NUL)) s.


(** The texts of the [IsTruncated] children that have one, in document
    order. *)
Definition truncated_texts (cs : list xmlNode) : list string :=
  omap (λ n, if xmlStrEqual (node_name n) "IsTruncated"
             then xmlNodeListGetString (xmlChildrenNode n) else None) cs.

(** A listing element and its text. *)
Definition leaf_element (nm text : string) : xmlNode :=
  XML_ELEMENT_NODE nm [] [XML_TEXT_NODE text].

(** Stand-ins for the collaborators, to run the model on concrete
    inputs: a server that answers every request with [200 OK] and
    [body], over a transfer that ends in [res], and a parser that knows
    [body] as the document [doc]. *)
Definition serving (body : string) (doc : xmlNode) (res : Z) : collaborators :=
  {| g_hmac_sha1 := λ k text, k +:+ text;
     g_base64_encode := λ digest, digest;
     _generate_date_string := "Thu, 01 Jan 2015 00:00:00 +0000";
     curl_easy_init := true;
     curl_easy_transfer := λ _,
       {| header_lines := ["HTTP/1.1 200 OK" +:+ CRLF; CRLF];
          body_chunks := [body];
          result_code := res |};
     curl_easy_strerror := λ _, "transfer failed";
     xmlParseMemory := λ b, if String.eqb b body then Some doc else None;
     xmlDocDumpFormatMemory := λ _, body;
     visit_order := map_to_list;
     heap_after := λ _, EmptyString |}.

Definition sample_body : string := "<MasterObjectList/>".

Definition sample_env : collaborators :=
  serving sample_body (XML_ELEMENT_NODE "MasterObjectList" [] []) CURLE_OK.

(** The same collaborators, with [bytes] lying in memory behind every
    array of response bytes. *)
Definition with_heap (bytes : string) (env : collaborators) : collaborators :=
  {| g_hmac_sha1 := g_hmac_sha1 env;
     g_base64_encode := g_base64_encode env;
     _generate_date_string := _generate_date_string env;
     curl_easy_init := curl_easy_init env;
     curl_easy_transfer := curl_easy_transfer env;
     curl_easy_strerror := curl_easy_strerror env;
     xmlParseMemory := xmlParseMemory env;
     xmlDocDumpFormatMemory := xmlDocDumpFormatMemory env;
     visit_order := visit_order env;
     heap_after := λ _, bytes |}.

(** A response that is no XML and holds a NUL byte. *)
Definition binary_body : string := "not xml" +:+ String NUL "at all".

Definition sample_client : ds3_client :=
  ds3_create_client "http://ds3.example" (ds3_create_creds "id" "secret").

Definition sample_objects : ds3_bulk_object_list :=
  {| bulk_list :=
       [ {| bulk_object_name := Some "a"; bulk_object_name_size := 1; bulk_object_size := 10 |};
         {| bulk_object_name := Some "b"; bulk_object_name_size := 1; bulk_object_size := 20 |};
         {| bulk_object_name := Some "c"; bulk_object_name_size := 1;
            bulk_object_size := 2 ^ 64 - 1 |} ];
     server_id := None; server_id_size := 0; chunk_number := 0 |}.

(** A server whose transfer times out (libcurl's code 28) after the
    whole of a listing of the service has arrived. *)
Definition timed_out_env : collaborators :=
  serving "<ListAllMyBucketsResult/>" (XML_ELEMENT_NODE "ListAllMyBucketsResult" [] []) 28.

(** A bucket listing whose [IsTruncated] element reads ["truest"]. *)
Definition truest_listing : xmlNode :=
  XML_ELEMENT_NODE "ListBucketResult" []
    [leaf_element "Name" "b"; leaf_element "IsTruncated" "truest"].

Definition truest_body : string :=
  "<ListBucketResult><Name>b</Name><IsTruncated>truest</IsTruncated></ListBucketResult>".

Definition truest_env : collaborators := serving truest_body truest_listing CURLE_OK.

(** A bucket listing whose [IsTruncated] element reads ["truest"] and
    is followed by an empty [IsTruncated] element. *)
Definition emptied_listing : xmlNode :=
  XML_ELEMENT_NODE "ListBucketResult" []
    [leaf_element "IsTruncated" "truest"; XML_ELEMENT_NODE "IsTruncated" [] [];
     leaf_element "Name" "b"].

Definition emptied_body : string :=
  "<ListBucketResult><IsTruncated>truest</IsTruncated><IsTruncated/>"
    +:+ "<Name>b</Name></ListBucketResult>".

Definition emptied_env : collaborators := serving emptied_body emptied_listing CURLE_OK.

Definition emptied_answer : ds3_result string :=
  {| error := None; result := Some emptied_body |}.

(** The manifest of [sample_objects] as it comes back from an indented
    serialisation: text nodes between the elements. *)
Definition sample_echo : xmlNode :=
  let object nm sz :=
    XML_ELEMENT_NODE "Object"
      [XML_ATTRIBUTE_NODE "Name" [XML_TEXT_NODE nm];
       XML_ATTRIBUTE_NODE "Size" [XML_TEXT_NODE sz]] [] in
  XML_ELEMENT_NODE "MasterObjectList" []
    [XML_TEXT_NODE NL;
     XML_ELEMENT_NODE "Objects" []
       [XML_TEXT_NODE NL; object "a" "10"; XML_TEXT_NODE NL; object "b" "20";
        XML_TEXT_NODE NL; object "c" "-1"; XML_TEXT_NODE NL];
     XML_TEXT_NODE NL].

(** ** Further functions of [ds3.c] *)

(** [ds3_client_proxy]: the proxy is duplicated, then measured. *)
Definition ds3_client_proxy (client : ds3_client) (p : option string) : crash ds3_client :=
  len ← strlen_ptr p;
  Done {| endpoint := endpoint client; endpoint_len := endpoint_len client;
          proxy := p; proxy_len := len;
          num_redirects := num_redirects client; creds := creds client |}.

(** [_ds3_bulk_object_from_file]: [stat] is the file system, giving the
    [st_size] of the files it can examine; the [struct stat] is zeroed
    beforehand, and a failure is only logged. *)
Definition _ds3_bulk_object_from_file (stat : string → option Z) (file_name : option string)
  : crash ds3_bulk_object :=
  let st_size := default 0 (file_name ≫= stat) in
  len ← strlen_ptr file_name;
  Done {| bulk_object_name := file_name; bulk_object_name_size := len;
          bulk_object_size := wrap64 st_size |}.

Fixpoint crash_map {A B : Type} (f : A → crash B) (l : list A) : crash (list B) :=
  match l with
  | [] => Done []
  | a :: r => b ← f a; bs ← crash_map f r; Done (b :: bs)
  end.

(** [ds3_convert_file_list]: one bulk object per file name, in order. *)
Definition ds3_convert_file_list (stat : string → option Z) (file_list : list (option string))
  : crash ds3_bulk_object_list :=
  objs ← crash_map (_ds3_bulk_object_from_file stat) file_list;
  Done {| bulk_list := objs; server_id := None; server_id_size := 0; chunk_number := 0 |}.

(** ** Vocabulary of the further statements *)

(** The header lines of one response fed to [_process_header_line] in
    turn, as libcurl does: the state reached, or [None] once the
    callback has refused a line. *)
Fixpoint process_header_lines (lines : list string) (rd : ds3_response_data)
  : crash (option ds3_response_data) :=
  match lines with
  | [] => Done (Some rd)
  | l :: r =>
      res ← _process_header_line l rd;
      if res.1 =? strlen l then process_header_lines r res.2 else Done None
  end.


(** Only white space. *)
Definition blank (s : string) : bool := string_forall g_ascii_isspace s.


(** A line the parser passes over while it waits for the status line: a
    blank one, or a status line with code 100. *)
Definition interim_line (raw : string) : Prop :=
  2 ≤ strlen raw
  ∧ (blank raw = true
     ∨ ∃ code words,
         g_strchomp raw = String.concat " " ("HTTP/1.1" :: code :: words)
         ∧ space_free code = true
         ∧ wrap64 (g_ascii_strtoll code) = 100).

(** What holds of the response data whatever lines were processed. *)
Definition parser_invariant (rd : ds3_response_data) : Prop :=
  (header_count rd = 0 ∧ status_code rd = 0 ∧ status_message rd = None ∧ headers rd = ∅)
  ∨ (1 ≤ header_count rd
     ∧ status_code rd ≠ 0 ∧ status_code rd ≠ 100 ∧ 0 < status_code rd < 2 ^ 64
     ∧ is_Some (status_message rd)
     ∧ Z.of_nat (size (headers rd)) < header_count rd).

(** The children of a node that carry a given name. *)
Definition named (nm : string) (cs : list xmlNode) : list xmlNode :=
  List.filter (λ n, xmlStrEqual (node_name n) nm) cs.

Fixpoint sum_lengths {A : Type} (ls : list (list A)) : nat :=
  match ls with
  | [] => 0
  | l :: r => length l + sum_lengths r
  end.

(** A [Bucket] element of a service listing, and the entry it stands for. *)
Definition bucket_element (nd : string * string) : xmlNode :=
  XML_ELEMENT_NODE "Bucket" [] [leaf_element "Name" nd.1; leaf_element "CreationDate" nd.2].

Definition bucket_entry (nd : string * string) : ds3_bucket :=
  {| bucket_creation_date := Some nd.2; bucket_creation_date_size := strlen nd.2;
     bucket_name := Some nd.1; bucket_name_size := strlen nd.1 |}.

(** The bulk object [ds3_convert_file_list] makes of a file name. *)
Definition file_entry (stat : string → option Z) (file_name : string) : ds3_bulk_object :=
  {| bulk_object_name := Some file_name; bulk_object_name_size := strlen file_name;
     bulk_object_size := wrap64 (default 0 (stat file_name)) |}.

(** [text] does not start with white space, a sign or a digit. *)
Definition not_a_number (text : string) : bool :=
  match text with
  | EmptyString => true
  | String c _ =>
      negb (isspace c) && negb (Ascii.eqb c "-") && negb (Ascii.eqb c "+")
      && bool_decide (digit_of c = None)
  end.

(** The easy handle an exchange was performed with, if one was. *)
Definition performed {R : Type} (e : exchange R) : option curl_easy :=
  match trace e with
  | [EvSign _; EvPerform h] => Some h
  | _ => None
  end.

(** Successive calls of the upload callback, with the room libcurl
    offers at each call: the bytes handed over at each call. *)
Fixpoint send_calls (rooms : list Z) (xml_buff : ds3_xml_send_buff) : list string :=
  match rooms with
  | [] => []
  | room :: rest =>
      let res := _ds3_send_xml_buff room xml_buff in
      res.1 :: send_calls rest res.2
  end.

(** A server that answers in HTTP/1.0. *)
Definition old_protocol_env : collaborators :=
  {| g_hmac_sha1 := g_hmac_sha1 sample_env;
     g_base64_encode := g_base64_encode sample_env;
     _generate_date_string := _generate_date_string sample_env;
     curl_easy_init := true;
     curl_easy_transfer := λ _,
       {| header_lines := ["HTTP/1.0 200 OK" +:+ CRLF; CRLF];
          body_chunks := [sample_body];
          result_code := CURLE_OK |};
     curl_easy_strerror := λ res,
       if res =? CURLE_WRITE_ERROR then "Failed writing received data to disk/application"
       else "transfer failed";
     xmlParseMemory := xmlParseMemory sample_env;
     xmlDocDumpFormatMemory := xmlDocDumpFormatMemory sample_env;
     visit_order := map_to_list;
     heap_after := heap_after sample_env |}.

(** * Properties *)

(** ** Strings *)

Lemma append_nil_l s : EmptyString +:+ s = s.
Proof. reflexivity. Qed.

Lemma append_cons c a b : String c a +:+ b = String c (a +:+ b).
Proof. reflexivity. Qed.

Lemma strip_prefix_sound d s r : strip_prefix d s = Some r → s = d +:+ r.
Proof.
  revert s. induction d as [|a d IH]; intros s H; simpl in *.
  - by inversion H.
  - destruct s as [|b s]; [discriminate|].
    destruct (Ascii.eqb_spec a b) as [->|]; [|discriminate].
    by rewrite append_cons, (IH s H).
Qed.

Lemma prefix_append d r : String.prefix d (d +:+ r) = true.
Proof.
  induction d as [|x d IH]; [by destruct r|].
  rewrite append_cons. simpl. destruct (ascii_dec x x); [done|congruence].
Qed.

Lemma strstr_sound d s a b : strstr d s = Some (a, b) → s = a +:+ d +:+ b.
Proof.
  revert a b. induction s as [|c s IH]; intros a b H.
  - simpl in H. destruct (strip_prefix d EmptyString) eqn:E; [|discriminate].
    inversion H; subst. rewrite append_nil_l. by apply strip_prefix_sound.
  - simpl in H. destruct (strip_prefix d (String c s)) eqn:E.
    + inversion H; subst. rewrite append_nil_l. by apply strip_prefix_sound.
    + destruct (strstr d s) as [[a' b']|] eqn:E'; [|discriminate].
      inversion H; subst. rewrite append_cons. f_equal. by apply IH.
Qed.



Lemma strstr_space_cons c s :
  strstr " " (String c s) =
  if Ascii.eqb " " c then Some (EmptyString, s)
  else match strstr " " s with
       | Some (a, b) => Some (String c a, b)
       | None => None
       end.
Proof. cbn -[Ascii.eqb]. by destruct (Ascii.eqb " " c). Qed.

Lemma space_free_cons c s :
  space_free (String c s) = negb (Ascii.eqb " " c) && space_free s.
Proof. reflexivity. Qed.

Lemma space_free_no_cut s : space_free s = true → strstr " " s = None.
Proof.
  induction s as [|c s IH]; [reflexivity|].
  rewrite space_free_cons, strstr_space_cons. intros H.
  apply andb_true_iff in H as [Hc Hs].
  destruct (Ascii.eqb " " c); [discriminate|]. by rewrite IH.
Qed.

Lemma strstr_first_space a b :
  space_free a = true → strstr " " (a +:+ " " +:+ b) = Some (a, b).
Proof.
  induction a as [|c a IH]; intros H.
  - reflexivity.
  - rewrite space_free_cons in H. apply andb_true_iff in H as [Hc Hs].
    rewrite append_cons, strstr_space_cons.
    destruct (Ascii.eqb " " c); [discriminate|]. by rewrite (IH Hs).
Qed.

Lemma g_strsplit_loop_nonempty d k s : g_strsplit_loop d k s ≠ [].
Proof.
  destruct k; simpl; [discriminate|].
  destruct (strstr d s) as [[]|]; discriminate.
Qed.

(** Joining what [g_strsplit] cut, with the delimiter it cut at, gives
    the text back, however many cuts were allowed. *)
Lemma g_strjoinv_split_loop d k s : g_strjoinv d (g_strsplit_loop d k s) = s.
Proof.
  revert s. induction k as [|k IH]; intros s; simpl; [reflexivity|].
  destruct (strstr d s) as [[a b]|] eqn:E; [|reflexivity].
  apply strstr_sound in E. specialize (IH b).
  unfold g_strjoinv in *. simpl.
  destruct (g_strsplit_loop d k b) eqn:El.
  - by apply g_strsplit_loop_nonempty in El.
  - rewrite IH. by subst.
Qed.

Lemma g_strchomp_length s : (String.length (g_strchomp s) ≤ String.length s)%nat.
Proof.
  induction s as [|c s IH]; simpl; [lia|].
  destruct (g_strchomp s); simpl in *; [destruct (g_ascii_isspace c); simpl; lia | lia].
Qed.

(** ** Header stream parser *)

Lemma g_strsplit_loop_S d k s :
  g_strsplit_loop d (S k) s =
  match strstr d s with
  | None => [s]
  | Some (tok, rest) => tok :: g_strsplit_loop d k rest
  end.
Proof. reflexivity. Qed.

Lemma concat_cons2 sep x y l :
  String.concat sep (x :: y :: l) = x +:+ sep +:+ String.concat sep (y :: l).
Proof. reflexivity. Qed.

(** The tokens of a status line whose code holds no space: the protocol,
    the code, and tokens that join back to the text after the code. *)
Lemma status_line_tokens code words :
  space_free code = true →
  ∃ rest,
    g_strsplit (String.concat " " ("HTTP/1.1" :: code :: words)) " " 1000
      = "HTTP/1.1" :: code :: rest
    ∧ g_strjoinv " " rest = String.concat " " words.
Proof.
  intros Hcode. rewrite concat_cons2.
  change (g_strsplit ("HTTP/1.1" +:+ " " +:+ String.concat " " (code :: words)) " " 1000)
    with (g_strsplit_loop " " (S (S 997))
            ("HTTP/1.1" +:+ " " +:+ String.concat " " (code :: words))).
  rewrite g_strsplit_loop_S, strstr_first_space by reflexivity.
  rewrite g_strsplit_loop_S.
  destruct words as [|w ws].
  - exists []. simpl String.concat. rewrite space_free_no_cut by done. done.
  - rewrite concat_cons2, strstr_first_space by done.
    eexists. split; [reflexivity|]. apply g_strjoinv_split_loop.
Qed.






(** ** Canonical signer and request executor *)

Lemma string_take_all s : string_take (String.length s) s = s.
Proof. induction s as [|c s IH]; simpl; [done|by rewrite IH]. Qed.

Lemma append_nil_r s : s +:+ EmptyString = s.
Proof. induction s as [|c s IH]; [done|]. by rewrite append_cons, IH. Qed.

Lemma generate_signature_str_canonical v resource date content_type md5 amz :
  _generate_signature_str v (Some resource) (Some date) (Some content_type)
    (Some md5) (Some amz)
  = Some (canonical_string v md5 content_type date amz resource).
Proof.
  unfold _generate_signature_str, canonical_string, g_strconcat, g_strconcat_rest.
  by rewrite append_nil_r.
Qed.

Lemma created_creds_key id secret :
  string_take (Z.to_nat (secret_key_len (ds3_create_creds id secret)))
    (secret_key (ds3_create_creds id secret)) = secret.
Proof. simpl. unfold strlen. rewrite Nat2Z.id. apply string_take_all. Qed.

(** C1. The string to sign is the name of the verb, LF, md5, LF, content
    type, LF, date, LF, amz headers, resource path; the signature is the
    base64 encoding of its HMAC-SHA1 under the secret key; and an
    exchange is performed with the header
    ["Authorization: AWS " access_id ":" signature], signed over the
    request path with empty md5, content type and amz headers. *)
Theorem signature_and_authorization (env : collaborators) (id secret : string)
    (v : http_verb) (resource date content_type md5 amz : string)
    (A B : Type) (ep : string) (request : _ds3_request)
    (read_user_struct : option A) (read_handler_func : option (string → A → Z * A))
    (write_user_struct : option B) (write_handler_func : option (Z → B → string * B)) :
  let c := ds3_create_creds id secret in
  let sign := λ text, g_base64_encode env (g_hmac_sha1 env secret text) in
  let to_sign := λ (v : http_verb) (md5 content_type date amz resource : string),
    match v with
    | HTTP_GET => "GET"
    | HTTP_PUT => "PUT"
    | HTTP_POST => "POST"
    | HTTP_DELETE => "DELETE"
    | HTTP_HEAD => "HEAD"
    end +:+ NL +:+ md5 +:+ NL +:+ content_type +:+ NL +:+ date +:+ NL +:+ amz +:+ resource in
  _generate_signature_str v (Some resource) (Some date) (Some content_type)
    (Some md5) (Some amz)
  = Some (to_sign v md5 content_type date amz resource)
  ∧ _net_compute_signature env c v (Some resource) (Some date) (Some content_type)
      (Some md5) (Some amz)
    = Done (sign (to_sign v md5 content_type date amz resource))
  ∧ ∃ handle,
      let signed :=
        to_sign (verb request) EmptyString EmptyString
          (_generate_date_string env) EmptyString (path request) in
      CURLOPT_HTTPHEADER handle
        = ["Authorization: AWS " +:+ id +:+ ":" +:+ sign signed;
           "Date: " +:+ _generate_date_string env]
      ∧ trace (_net_process_request env (ds3_create_client ep c) request
                 read_user_struct read_handler_func write_user_struct write_handler_func)
        = if curl_easy_init env then [EvSign signed; EvPerform handle] else [].
Proof.
  intros c sign to_sign.
  assert (Hstr : ∀ v' r d ct m a,
             _generate_signature_str v' (Some r) (Some d) (Some ct) (Some m) (Some a)
             = Some (to_sign v' m ct d a r)).
  { intros. unfold _generate_signature_str, _net_get_verb, g_strconcat, g_strconcat_rest.
    by rewrite append_nil_r. }
  split; [apply Hstr|].
  assert (Hsig : ∀ v' r d ct m a,
             _net_compute_signature env c v' (Some r) (Some d) (Some ct) (Some m) (Some a)
             = Done (sign (to_sign v' m ct d a r))).
  { intros. unfold _net_compute_signature.
    rewrite Hstr. unfold c. by rewrite created_creds_key. }
  split; [apply Hsig|].
  unfold _net_process_request.
  rewrite Hsig, Hstr.
  destruct (curl_easy_init env).
  - eexists. split; [|reflexivity]. reflexivity.
  - eexists {| CURLOPT_URL := EmptyString; CURLOPT_FOLLOWLOCATION := 0;
               CURLOPT_MAXREDIRS := 0; CURLOPT_PROXY := None;
               CURLOPT_WRITEFUNCTION := false; CURLOPT_READFUNCTION := false;
               CURLOPT_CUSTOMREQUEST := None; CURLOPT_POST := false; CURLOPT_PUT := false;
               CURLOPT_UPLOAD := false; CURLOPT_INFILESIZE := None;
               CURLOPT_HTTPHEADER := _ |}.
    split; reflexivity.
Qed.

(** ** Request model and builder *)

(** C2, as the source has it. The bucket factories build ["/" bucket],
    the object factories ["/" bucket "/" object], the service factory
    ["/"]; the bulk factories build ["/_rest_/bucket/" bucket], set the
    single query parameter [operation] and attach the caller's list; the
    other factories set no query parameter and attach no list. A factory
    is a value of the embedding: it has no trace of signing or network
    activity. *)
Theorem factory_paths (bucket_name object_name : string) (len : Z)
    (l : option ds3_bulk_object_list) :
  path (ds3_init_get_bucket bucket_name) = "/" +:+ bucket_name
  ∧ path (ds3_init_put_bucket bucket_name) = "/" +:+ bucket_name
  ∧ path (ds3_init_delete_bucket bucket_name) = "/" +:+ bucket_name
  ∧ path (ds3_init_get_object bucket_name object_name)
      = "/" +:+ bucket_name +:+ "/" +:+ object_name
  ∧ path (ds3_init_put_object bucket_name object_name len)
      = "/" +:+ bucket_name +:+ "/" +:+ object_name
  ∧ path (ds3_init_delete_object bucket_name object_name)
      = "/" +:+ bucket_name +:+ "/" +:+ object_name
  ∧ path ds3_init_get_service = "/"
  ∧ (path (ds3_init_get_bulk bucket_name l) = "/_rest_/bucket/" +:+ bucket_name
     ∧ query_params (ds3_init_get_bulk bucket_name l) = {["operation" := "start_bulk_get"]}
     ∧ object_list (ds3_init_get_bulk bucket_name l) = l)
  ∧ (path (ds3_init_put_bulk bucket_name l) = "/_rest_/bucket/" +:+ bucket_name
     ∧ query_params (ds3_init_put_bulk bucket_name l) = {["operation" := "start_bulk_put"]}
     ∧ object_list (ds3_init_put_bulk bucket_name l) = l)
  ∧ Forall (λ r, query_params r = ∅ ∧ object_list r = None)
      [ds3_init_get_service; ds3_init_get_bucket bucket_name;
       ds3_init_put_bucket bucket_name; ds3_init_delete_bucket bucket_name;
       ds3_init_get_object bucket_name object_name;
       ds3_init_put_object bucket_name object_name len;
       ds3_init_delete_object bucket_name object_name].
Proof.
  repeat split; try reflexivity. repeat constructor.
Qed.

(** C2 as stated fails: a bulk factory is a bucket-level operation and
    its path is not ["/" bucket]. *)
Lemma bulk_factory_path_not_bucket :
  ¬ (∀ (bucket_name : string) (l : option ds3_bulk_object_list),
        path (ds3_init_get_bulk bucket_name l) = "/" +:+ bucket_name
        ∧ path (ds3_init_put_bulk bucket_name l) = "/" +:+ bucket_name).
Proof. intros H. destruct (H "b" None) as [H1 _]. discriminate H1. Qed.

(** ** Query string *)

Lemma strv_replicate_None n : strv (replicate n None) = [].
Proof. by destruct n. Qed.

(** Every visited entry overwrites slot 0 and nothing else. *)
Lemma hash_for_each_fold (l : list (string * string)) (q : query_entries) h t :
  entries_size q = 0 →
  entries q = h :: t →
  ∃ h', entries (foldl (λ q kv, _hash_for_each kv.1 kv.2 q) q l) = h' :: t
        ∧ entries_size (foldl (λ q kv, _hash_for_each kv.1 kv.2 q) q l) = 0.
Proof.
  revert q h. induction l as [|kv l IH]; intros q h Hs He; simpl.
  - eauto.
  - eapply IH.
    + exact Hs.
    + unfold _hash_for_each. simpl. rewrite Hs, He. reflexivity.
Qed.

(** What is left after the loop is the entry visited last. *)
Lemma query_params_last_entry (env : collaborators) (params : gmap string string)
    (pre : list (string * string)) (k v : string) :
  (0 < size params)%nat →
  visit_order env params = pre ++ [(k, v)] →
  _net_gen_query_params env params = Some (k +:+ "=" +:+ v).
Proof.
  intros Hsize Hvisit. unfold _net_gen_query_params.
  replace (0 <? Z.of_nat (size params)) with true by (symmetry; apply Z.ltb_lt; lia).
  rewrite Hvisit, foldl_app.
  set (q0 := {| entries := replicate (size params + 1) None; entries_size := 0 |}).
  destruct (hash_for_each_fold pre q0 None (replicate (size params) None) eq_refl)
    as (h' & He & Hs).
  { unfold q0. simpl. by rewrite Nat.add_1_r. }
  set (q1 := foldl _ q0 pre) in *.
  cbn [foldl fst snd]. unfold _hash_for_each. cbn [entries entries_size].
  rewrite Hs, He. simpl. by rewrite strv_replicate_None.
Qed.





(** ** Operations and the transport's result *)

(** The bytes an exchange gathers do not depend on how the transfer
    ended. *)
Lemma gathered_bytes_ignore_result_code (env : collaborators) (res1 res2 : Z)
    {A B R : Type} (client : option ds3_client) (request : option _ds3_request)
    (d : option A) (f : option (string → A → Z * A))
    (wd : option B) (wf : option (Z → B → string * B))
    (k : option A → crash R) :
  (r ← outcome (_internal_request_dispatcher (ending_with res1 env) client request d f wd wf);
   k (result r))
  = (r ← outcome (_internal_request_dispatcher (ending_with res2 env) client request d f wd wf);
     k (result r)).
Proof.
  unfold _internal_request_dispatcher.
  destruct client as [c|], request as [rq|]; try reflexivity.
  unfold _net_process_request, _net_compute_signature.
  cbn [curl_easy_init ending_with _generate_date_string g_base64_encode g_hmac_sha1
       visit_order].
  rewrite generate_signature_str_canonical.
  destruct (curl_easy_init env); [|reflexivity].
  cbn [outcome]. unfold curl_easy_perform.
  cbn [curl_easy_transfer ending_with header_lines body_chunks result_code
       curl_easy_strerror].
  unfold _net_gen_query_params. cbn [visit_order ending_with].
  match goal with |- context [curl_easy_transfer env ?h] => set (handle := h) end.
  clearbody handle.
  generalize (bool_decide (is_Some d ∧ is_Some f)). intros reading.
  destruct (deliver_headers (header_lines (curl_easy_transfer env handle))
              response_data_init) as [accepted| |]; [|reflexivity..].
  cbn [mbind crash_bind].
  destruct accepted, reading, d as [a|], f as [g|]; cbn [mbind crash_bind fst snd];
    repeat match goal with
           | |- context [deliver_body ?g ?l ?a] => destruct (deliver_body g l a) as [[] ?]
           end;
    cbn [mbind crash_bind fst snd];
    repeat match goal with
           | |- context [negb (?x =? ?y)] => destruct (negb (x =? y))
           end; reflexivity.
Qed.

Lemma decode_blob_cases (env : collaborators) {R : Type} (expected lead : string)
    (walk : xmlNode → crash R) (body : string) :
  match xmlParseMemory env body with
  | None => decode_blob env expected lead walk body
            = Done (invalid_xml env parse_failed_lead body)
  | Some root =>
      if String.eqb (node_name root) expected
      then decode_blob env expected lead walk body
           = (response ← walk root; Done {| error := None; result := Some response |})
      else decode_blob env expected lead walk body = Done (invalid_xml env lead body)
  end.
Proof.
  unfold decode_blob, xmlStrEqual. destruct (xmlParseMemory env body) as [root|]; [|done].
  by destruct (String.eqb (node_name root) expected).
Qed.

Lemma decode_blob_code (env : collaborators) {R : Type} (expected lead : string)
    (walk : xmlNode → crash R) (body : string) :
  returned_code (decode_blob env expected lead walk body) = None
  ∨ returned_code (decode_blob env expected lead walk body) = Some DS3_ERROR_INVALID_XML.
Proof.
  pose proof (decode_blob_cases env expected lead walk body) as H.
  destruct (xmlParseMemory env body) as [root|].
  - destruct (String.eqb (node_name root) expected); rewrite H.
    + left. by destruct (walk root).
    + by right.
  - rewrite H. by right.
Qed.

(** The operations that return what the dispatcher returns, and
    [ds3_bulk], report a failed transfer. *)
Lemma net_process_request_error (env : collaborators) {A B : Type}
    (c : ds3_client) (rq : _ds3_request)
    (d : option A) (f : option (string → A → Z * A))
    (wd : option B) (wf : option (Z → B → string * B)) (r : ds3_result A) :
  outcome (_net_process_request env c rq d f wd wf) = Done r →
  error r = None
  ∨ (∃ res, res ≠ CURLE_OK
            ∧ error r = Some (_ds3_create_error DS3_ERROR_FAILED_REQUEST
                                ("Request failed: " +:+ curl_easy_strerror env res)))
  ∨ (curl_easy_init env = false
     ∧ error r = Some (_ds3_create_error DS3_ERROR_CURL_HANDLE "Failed to create curl handle")).
Proof.
  unfold _net_process_request, _net_compute_signature.
  rewrite generate_signature_str_canonical.
  destruct (curl_easy_init env); cbn [outcome].
  - match goal with |- context [curl_easy_perform env ?h ?a ?b] =>
      destruct (curl_easy_perform env h a b) as [[res data]| |] end; [|discriminate..].
    cbn [mbind crash_bind fst snd].
    destruct (Z.eqb_spec res CURLE_OK) as [->|Hne]; cbn [negb]; intros [= <-]; cbn [error].
    + by left.
    + right; left. by exists res.
  - intros [= <-]. right; right. done.
Qed.

Lemma transport_failure_reported (env : collaborators) (res : Z) {A B : Type}
    (c : ds3_client) (rq : _ds3_request)
    (d : option A) (f : option (string → A → Z * A))
    (wd : option B) (wf : option (Z → B → string * B)) (r : ds3_result A) :
  res ≠ CURLE_OK →
  curl_easy_init env = true →
  outcome (_net_process_request (ending_with res env) c rq d f wd wf) = Done r →
  code <$> error r = Some DS3_ERROR_FAILED_REQUEST.
Proof.
  intros Hres Hinit. unfold _net_process_request, _net_compute_signature.
  cbn [curl_easy_init ending_with _generate_date_string g_base64_encode g_hmac_sha1
       visit_order].
  rewrite generate_signature_str_canonical, Hinit. cbn [outcome].
  unfold curl_easy_perform.
  cbn [curl_easy_transfer ending_with header_lines body_chunks result_code].
  match goal with |- context [curl_easy_transfer env ?h] => generalize h end.
  intros handle. generalize (bool_decide (is_Some d ∧ is_Some f)). intros reading.
  destruct (deliver_headers (header_lines (curl_easy_transfer env handle))
              response_data_init) as [accepted| |]; [|discriminate..].
  cbn [mbind crash_bind].
  destruct accepted, reading, d as [a|], f as [g|]; cbn [mbind crash_bind fst snd];
    repeat match goal with
           | |- context [deliver_body ?g ?l ?a] => destruct (deliver_body g l a) as [[] ?]
           end;
    cbn [mbind crash_bind fst snd];
    repeat match goal with
           | |- context [negb (?x =? ?y)] => destruct (Z.eqb_spec x y)
           end; cbn [negb]; try (intros [= <-]; reflexivity); try done.
Qed.

(** C5, what the source does. [ds3_get_service] and [ds3_get_bucket]
    drop the error of the exchange: a transfer that fails is answered
    exactly as one that succeeds, never with [FAILED_REQUEST], and a
    listing that arrived whole before the failure is returned as a
    result. *)
Theorem listing_operations_hide_transport_failure (env : collaborators) (res : Z)
    (client : option ds3_client) (request : option _ds3_request) :
  outcome (ds3_get_service (ending_with res env) client request)
    = outcome (ds3_get_service (ending_with CURLE_OK env) client request)
  ∧ outcome (ds3_get_bucket (ending_with res env) client request)
    = outcome (ds3_get_bucket (ending_with CURLE_OK env) client request)
  ∧ returned_code (outcome (ds3_get_service env client request))
    ≠ Some DS3_ERROR_FAILED_REQUEST
  ∧ returned_code (outcome (ds3_get_bucket env client request))
    ≠ Some DS3_ERROR_FAILED_REQUEST
  ∧ outcome (ds3_get_service timed_out_env (Some sample_client) (Some ds3_init_get_service))
    = Done {| error := None; result := Some {| buckets := []; owner := None |} |}.
Proof.
  split; [|split; [|split; [|split]]].
  - unfold ds3_get_service. cbn [outcome].
    apply (gathered_bytes_ignore_result_code env res CURLE_OK client request
             (Some EmptyString) (Some load_xml_buff) (@None unit) None
             (λ d, ds3_get_service_received env {| error := None; result := d |})).
  - unfold ds3_get_bucket. cbn [outcome].
    apply (gathered_bytes_ignore_result_code env res CURLE_OK client request
             (Some EmptyString) (Some load_xml_buff) (@None unit) None
             (λ d, ds3_get_bucket_received env {| error := None; result := d |})).
  - unfold ds3_get_service. cbn [outcome].
    destruct (outcome _) as [r| |]; [|done..]. cbn [mbind crash_bind].
    unfold ds3_get_service_received.
    by destruct (decode_blob_code env "ListAllMyBucketsResult"
        "Expected the root element to be 'ListAllMyBucketsResult'.  The actual response is: "
        (λ root, crash_foldl ds3_get_service_child service_response_zero
                   (xmlChildrenNode root))
        (default EmptyString (result r))) as [-> | ->].
  - unfold ds3_get_bucket. cbn [outcome].
    destruct (outcome _) as [r| |]; [|done..]. cbn [mbind crash_bind].
    unfold ds3_get_bucket_received.
    by destruct (decode_blob_code env "ListBucketResult"
        "Expected the root element to be 'ListBucketsResult'.  The actual response is: "
        (λ root, crash_foldl ds3_get_bucket_child bucket_response_zero
                   (xmlChildrenNode root))
        (default EmptyString (result r))) as [-> | ->].
  - by vm_compute.
Qed.

(** The sibling path: [ds3_bulk] looks at the error and returns it. *)
Lemma bulk_reports_transport_failure (env : collaborators) (res : Z)
    (c : ds3_client) (rq : _ds3_request) (r : ds3_result ds3_bulk_response) :
  res ≠ CURLE_OK →
  curl_easy_init env = true →
  bulk_args_missing (Some c) (Some rq) = false →
  outcome (ds3_bulk (ending_with res env) (Some c) (Some rq)) = Done r →
  code <$> error r = Some DS3_ERROR_FAILED_REQUEST.
Proof.
  intros Hres Hinit Hargs. unfold bulk_args_missing in Hargs. unfold ds3_bulk.
  destruct (object_list rq) as [l|]; [|discriminate].
  apply bool_decide_eq_false in Hargs.
  replace (bulk_list_size l =? 0) with false.
  2:{ symmetry. apply Z.eqb_neq. unfold bulk_list_size. destruct (bulk_list l); [done|].
      simpl. lia. }
  cbn [outcome].
  match goal with |- context [outcome ?e] => destruct (outcome e) as [r0| |] eqn:E end;
    [|discriminate..].
  apply transport_failure_reported in E; [|done..].
  cbn [mbind crash_bind]. unfold ds3_bulk_received.
  destruct (error r0) as [e0|]; [|discriminate]. by intros [= <-].
Qed.

(** ** Arguments of [ds3_bulk] *)

(** C8. [ds3_bulk] returns [MISSING_ARGS], with no signing and no
    exchange, when the client, the request or the object list is absent
    or the list is empty; on every other input it does not return
    [MISSING_ARGS]. *)
Theorem bulk_missing_arguments (env : collaborators)
    (client : option ds3_client) (request : option _ds3_request) :
  let refused := λ msg,
    {| trace := [];
       outcome := Done {| error := Some {| code := DS3_ERROR_MISSING_ARGS;
                                           message := msg; message_size := 54 |};
                          result := @None ds3_bulk_response |} |} in
  match client, request with
  | Some c, Some rq =>
      match object_list rq with
      | Some l =>
          if bool_decide (bulk_list l = []) then
            ds3_bulk env client request
            = refused "The bulk command requires a list of objects to process"
          else
            returned_code (outcome (ds3_bulk env client request))
            ≠ Some DS3_ERROR_MISSING_ARGS
      | None =>
          ds3_bulk env client request
          = refused "The bulk command requires a list of objects to process"
      end
  | _, _ =>
      ds3_bulk env client request
      = refused "All arguments must be filled in for request processing"
  end.
Proof.
  intros refused. unfold ds3_bulk.
  destruct client as [c|]; [|reflexivity].
  destruct request as [rq|]; [|reflexivity].
  destruct (object_list rq) as [l|]; [|reflexivity].
  unfold bulk_list_size.
  destruct (bulk_list l) as [|o os] eqn:El.
  - rewrite bool_decide_eq_true_2 by done. reflexivity.
  - rewrite bool_decide_eq_false_2 by done.
    replace (Z.of_nat (length (o :: os)) =? 0) with false
      by (symmetry; apply Z.eqb_neq; simpl; lia).
    cbn [outcome].
    match goal with |- context [outcome ?e] => destruct (outcome e) as [r| |] eqn:E end;
      [|done..].
    cbn [mbind crash_bind]. unfold ds3_bulk_received.
    apply net_process_request_error in E.
    destruct E as [-> | [(res & _ & ->) | (_ & ->)]]; try done.
    by destruct (decode_blob_code env "MasterObjectList"
        "Expected the root element to be 'MasterObjectList'.  The actual response is: "
        (λ root, Done (ds3_bulk_decode root))
        (default EmptyString (result r))) as [-> | ->].
Qed.

(** ** Decoding: when [INVALID_XML] is returned *)

Lemma crash_foldl_app {A B : Type} (f : A → B → crash A) (a : A) (l1 l2 : list B) :
  crash_foldl f a (l1 ++ l2) = (a' ← crash_foldl f a l1; crash_foldl f a' l2).
Proof.
  revert a. induction l1 as [|b l1 IH]; intros a; simpl; [done|].
  destruct (f a b) as [a1| |]; simpl; [apply IH|done..].
Qed.

(** The decoders read no freed memory. *)
Lemma crash_foldl_tame {A B : Type} (f : A → B → crash A) (a : A) (l : list B) :
  (∀ a' x, f a' x ≠ UseAfterFree) → crash_foldl f a l ≠ UseAfterFree.
Proof.
  intros Hf. revert a. induction l as [|x l IH]; intros a; simpl; [done|].
  destruct (f a x) as [a1| |] eqn:E; simpl; [apply IH|done|by apply Hf in E].
Qed.

Lemma parse_owner_child_tame o n : _parse_owner_child o n ≠ UseAfterFree.
Proof.
  unfold _parse_owner_child, strlen_ptr.
  repeat (case_match; cbn [mbind crash_bind]; try done).
Qed.

Lemma parse_owner_tame n : _parse_owner n ≠ UseAfterFree.
Proof. apply crash_foldl_tame, parse_owner_child_tame. Qed.

Lemma parse_bucket_field_tame b n : _parse_bucket_field b n ≠ UseAfterFree.
Proof.
  unfold _parse_bucket_field, strlen_ptr.
  repeat (case_match; cbn [mbind crash_bind]; try done).
Qed.

Lemma parse_buckets_step_tame (array : list ds3_bucket) (curr : xmlNode) :
  (b ← crash_foldl _parse_bucket_field bucket_zero (xmlChildrenNode curr);
   Done (array ++ [b])) ≠ UseAfterFree.
Proof.
  pose proof (crash_foldl_tame _parse_bucket_field bucket_zero (xmlChildrenNode curr)
                parse_bucket_field_tame) as H.
  by destruct (crash_foldl _ _ _).
Qed.

Lemma parse_buckets_tame n : _parse_buckets n ≠ UseAfterFree.
Proof. apply crash_foldl_tame, parse_buckets_step_tame. Qed.

Lemma parse_object_child_tame o n : _parse_object_child o n ≠ UseAfterFree.
Proof.
  pose proof (parse_owner_tame n) as Ho.
  unfold _parse_object_child, strlen_ptr.
  destruct (_parse_owner n); [| |done];
    repeat (case_match; cbn [mbind crash_bind]; try done).
Qed.

Lemma parse_object_tame n : _parse_object n ≠ UseAfterFree.
Proof. apply crash_foldl_tame, parse_object_child_tame. Qed.

Lemma get_service_child_tame r n : ds3_get_service_child r n ≠ UseAfterFree.
Proof.
  pose proof (parse_owner_tame n) as Ho. pose proof (parse_buckets_tame n) as Hb.
  unfold ds3_get_service_child.
  destruct (_parse_owner n), (_parse_buckets n); try done;
    repeat (case_match; cbn [mbind crash_bind]; try done).
Qed.

Lemma get_bucket_child_tame r n : ds3_get_bucket_child r n ≠ UseAfterFree.
Proof.
  pose proof (parse_object_tame n) as Ho.
  unfold ds3_get_bucket_child.
  destruct (_parse_object n); [| |done];
    repeat (case_match; cbn [mbind crash_bind]; try done).
Qed.

Lemma crash_foldl_crashes {A B : Type} (f : A → B → crash A) (a : A)
    (before after : list B) (bad : B) :
  (∀ a' x, f a' x ≠ UseAfterFree) →
  (∀ a', f a' bad = NullDeref) →
  crash_foldl f a (before ++ bad :: after) = NullDeref.
Proof.
  intros Htame Hbad. rewrite crash_foldl_app.
  pose proof (crash_foldl_tame f a before Htame) as Hb.
  destruct (crash_foldl f a before); cbn [mbind crash_bind crash_foldl]; [|done..].
  by rewrite Hbad.
Qed.

Lemma required_owner_leaf_crashes nm ps kids o :
  nm = "DisplayName" ∨ nm = "ID" →
  xmlNodeListGetString kids = None →
  _parse_owner_child o (XML_ELEMENT_NODE nm ps kids) = NullDeref.
Proof.
  intros Hnm Htext. unfold _parse_owner_child. cbn [node_name xmlChildrenNode].
  rewrite Htext. destruct Hnm as [-> | ->]; reflexivity.
Qed.

Lemma required_bucket_leaf_crashes nm ps kids b :
  nm = "CreationDate" ∨ nm = "Name" →
  xmlNodeListGetString kids = None →
  _parse_bucket_field b (XML_ELEMENT_NODE nm ps kids) = NullDeref.
Proof.
  intros Hnm Htext. unfold _parse_bucket_field. cbn [node_name xmlChildrenNode].
  rewrite Htext. destruct Hnm as [-> | ->]; reflexivity.
Qed.

(** A child of [Buckets] is read as a bucket whatever its name. *)
Lemma parse_buckets_any_child_crashes buckets_ps nm ps leaf leaf_ps
    (before after inner_before inner_after : list xmlNode) :
  leaf = "CreationDate" ∨ leaf = "Name" →
  _parse_buckets
    (XML_ELEMENT_NODE "Buckets" buckets_ps
       (before ++ XML_ELEMENT_NODE nm ps
                    (inner_before ++ XML_ELEMENT_NODE leaf leaf_ps [] :: inner_after)
               :: after))
  = NullDeref.
Proof.
  intros Hleaf. unfold _parse_buckets. cbn [xmlChildrenNode].
  rewrite crash_foldl_crashes; [done|apply parse_buckets_step_tame|].
  intros array. cbn [xmlChildrenNode].
  rewrite crash_foldl_crashes; [done|apply parse_bucket_field_tame|].
  intros b. by apply required_bucket_leaf_crashes.
Qed.

Lemma append_assoc a b c : (a +:+ b) +:+ c = a +:+ (b +:+ c).
Proof. induction a as [|x a IH]; [done|]. by rewrite !append_cons, IH. Qed.

Lemma c_str_append a b : nul_free a = true → c_str (a +:+ b) = a +:+ c_str b.
Proof.
  induction a as [|x a IH]; [done|]. unfold nul_free. cbn [string_forall].
  intros H. apply andb_true_iff in H as [Hx Ha].
  rewrite !append_cons. cbn [c_str]. apply negb_true_iff in Hx. rewrite Hx.
  by rewrite (IH Ha).
Qed.

Lemma c_str_nul_free a : nul_free a = true → c_str a = a.
Proof.
  intros H. rewrite <- (append_nil_r a) at 1. rewrite c_str_append by done.
  apply append_nil_r.
Qed.

(** The message of the [INVALID_XML] error, written out. *)
Lemma invalid_xml_message (env : collaborators) {R : Type} (lead body : string) :
  invalid_xml env lead body
  = {| error := Some {| code := DS3_ERROR_INVALID_XML;
                        message := lead +:+ match body with
                                            | EmptyString => EmptyString
                                            | _ => c_str (body +:+ heap_after env body)
                                            end;
                        message_size :=
                          strlen (lead +:+ match body with
                                           | EmptyString => EmptyString
                                           | _ => c_str (body +:+ heap_after env body)
                                           end) |};
       result := @None R |}.
Proof.
  unfold invalid_xml, blob_data, _ds3_create_error, g_strconcat, g_strconcat_rest.
  destruct body; cbn [default]; by rewrite ?append_nil_r.
Qed.

Lemma decode_blob_accepted (env : collaborators) {R : Type} (expected lead : string)
    (walk : xmlNode → crash R) (body : string) (root : xmlNode) :
  xmlParseMemory env body = Some root →
  node_name root = expected →
  walk root ≠ UseAfterFree →
  decode_blob env expected lead walk body = NullDeref
  ∨ succeeds (decode_blob env expected lead walk body).
Proof.
  intros Hparse Hroot Htame.
  pose proof (decode_blob_cases env expected lead walk body) as H.
  rewrite Hparse, Hroot, String.eqb_refl in H. rewrite H.
  destruct (walk root) as [response| |]; cbn [mbind crash_bind]; [|by left|done].
  right. eexists. split; [reflexivity|]. split; [done|]. by eexists.
Qed.

Lemma decode_blob_invalid_iff (env : collaborators) {R : Type} (expected lead : string)
    (walk : xmlNode → crash R) (body : string) :
  returned_code (decode_blob env expected lead walk body) = Some DS3_ERROR_INVALID_XML
  ↔ body_rejected env expected body.
Proof.
  pose proof (decode_blob_cases env expected lead walk body) as H.
  unfold body_rejected.
  destruct (xmlParseMemory env body) as [root|].
  - destruct (String.eqb_spec (node_name root) expected) as [Heq|Hne]; rewrite H.
    + split; [|done]. by destruct (walk root).
    + done.
  - by rewrite H.
Qed.

(** C6, what the source does. Each decoding operation returns
    [INVALID_XML] exactly when the body does not parse or its root has
    another name than the expected one; otherwise it returns a result
    without error or, for the two listings, dereferences a null pointer.
    The message is the lead followed by the string read at the start of
    the byte array, which has no terminator: the bytes of the body up to
    its first NUL byte and, when it holds none, the body and then what
    lies behind it in memory.  A child or an attribute with an
    unrecognised name is passed over, except under [Buckets], where a
    child of any name is read as a bucket. *)
Theorem invalid_xml_message_is_unterminated_read (env : collaborators)
    (e : option ds3_error) (body : string) :
  let listed := {| error := e; result := Some body |} in
  let answered := {| error := None; result := Some body |} in
  let text := match body with
              | EmptyString => EmptyString
              | _ => c_str (body +:+ heap_after env body)
              end in
  let invalid := λ (R : Type) (lead : string),
    Done {| error := Some {| code := DS3_ERROR_INVALID_XML;
                             message := lead +:+ text;
                             message_size := strlen (lead +:+ text) |};
            result := @None R |} in
  let unparsed := "Failed to parse response document.  The actual response is: " in
  (match xmlParseMemory env body with
   | None =>
       ds3_get_service_received env listed = invalid _ unparsed
       ∧ ds3_get_bucket_received env listed = invalid _ unparsed
       ∧ ds3_bulk_received env answered = invalid _ unparsed
   | Some root =>
       (if String.eqb (node_name root) "ListAllMyBucketsResult" then
          ds3_get_service_received env listed = NullDeref
          ∨ succeeds (ds3_get_service_received env listed)
        else
          ds3_get_service_received env listed
          = invalid _ ("Expected the root element to be 'ListAllMyBucketsResult'.  "
                         +:+ "The actual response is: "))
       ∧ (if String.eqb (node_name root) "ListBucketResult" then
            ds3_get_bucket_received env listed = NullDeref
            ∨ succeeds (ds3_get_bucket_received env listed)
          else
            ds3_get_bucket_received env listed
            = invalid _ ("Expected the root element to be 'ListBucketsResult'.  "
                           +:+ "The actual response is: "))
       ∧ (if String.eqb (node_name root) "MasterObjectList" then
            succeeds (ds3_bulk_received env answered)
          else
            ds3_bulk_received env answered
            = invalid _ ("Expected the root element to be 'MasterObjectList'.  "
                           +:+ "The actual response is: "))
   end)
  ∧ (returned_code (ds3_get_service_received env listed) = Some DS3_ERROR_INVALID_XML
     ↔ body_rejected env "ListAllMyBucketsResult" body)
  ∧ (returned_code (ds3_get_bucket_received env listed) = Some DS3_ERROR_INVALID_XML
     ↔ body_rejected env "ListBucketResult" body)
  ∧ (returned_code (ds3_bulk_received env answered) = Some DS3_ERROR_INVALID_XML
     ↔ body_rejected env "MasterObjectList" body)
  ∧ (∀ before after,
        body = before +:+ String NUL after → nul_free before = true → text = before)
  ∧ (body ≠ EmptyString → nul_free body = true →
     text = body +:+ c_str (heap_after env body))
  ∧ (∀ r n, node_name n ∉ ["Buckets"; "Owner"] → ds3_get_service_child r n = Done r)
  ∧ (∀ o n, node_name n ∉ ["DisplayName"; "ID"] → _parse_owner_child o n = Done o)
  ∧ (∀ b n, node_name n ∉ ["CreationDate"; "Name"] → _parse_bucket_field b n = Done b)
  ∧ (∀ buckets_ps nm ps leaf leaf_ps before after inner_before inner_after,
        leaf = "CreationDate" ∨ leaf = "Name" →
        _parse_buckets
          (XML_ELEMENT_NODE "Buckets" buckets_ps
             (before ++ XML_ELEMENT_NODE nm ps
                          (inner_before ++ XML_ELEMENT_NODE leaf leaf_ps [] :: inner_after)
                     :: after))
        = NullDeref)
  ∧ (∀ r n, node_name n ∉ ["Contents"; "CreationDate"; "IsTruncated"; "Marker"; "MaxKeys";
                            "Name"; "Delimiter"; "NextMarker"; "Prefix"] →
            ds3_get_bucket_child r n = Done r)
  ∧ (∀ o n, node_name n ∉ ["Key"; "ETag"; "LastModified"; "StorageClass"; "Size"; "Owner"] →
            _parse_object_child o n = Done o)
  ∧ (∀ l n, node_name n ≠ "Objects" → ds3_bulk_root_child l n = l)
  ∧ (∀ r a, attr_name a ≠ "JobId" → ds3_bulk_root_attr r a = r)
  ∧ (∀ l n, node_name n ≠ "Object" → _parse_bulk_objects_child l n = l)
  ∧ (∀ l a, attr_name a ∉ ["ServerId"; "ChunkNumber"] → _parse_bulk_objects_attr l a = l)
  ∧ (∀ o a, attr_name a ∉ ["Name"; "Size"] → _parse_bulk_object_attr o a = o)
  ∧ ds3_get_service_received sample_env {| error := None; result := Some binary_body |}
    = Done {| error :=
                Some {| code := DS3_ERROR_INVALID_XML;
                        message := "Failed to parse response document.  "
                                     +:+ "The actual response is: not xml";
                        message_size := 67 |};
              result := None |}
  ∧ occurs binary_body
      ("Failed to parse response document.  " +:+ "The actual response is: not xml")
    = false
  ∧ ds3_get_service_received (with_heap "stale" sample_env)
      {| error := None; result := Some "<html/>" |}
    = Done {| error :=
                Some {| code := DS3_ERROR_INVALID_XML;
                        message := "Failed to parse response document.  "
                                     +:+ "The actual response is: <html/>stale";
                        message_size := 72 |};
              result := None |}.
Proof.
  intros listed answered text invalid unparsed.
  assert (Hinv : ∀ R lead, Done (invalid_xml env (R := R) lead body) = invalid R lead).
  { intros R lead. by rewrite invalid_xml_message. }
  split.
  { pose proof (decode_blob_cases env "ListAllMyBucketsResult"
      "Expected the root element to be 'ListAllMyBucketsResult'.  The actual response is: "
      (λ root, crash_foldl ds3_get_service_child service_response_zero
                 (xmlChildrenNode root)) body) as Hs.
    pose proof (decode_blob_cases env "ListBucketResult"
      "Expected the root element to be 'ListBucketsResult'.  The actual response is: "
      (λ root, crash_foldl ds3_get_bucket_child bucket_response_zero
                 (xmlChildrenNode root)) body) as Hb.
    pose proof (decode_blob_cases env "MasterObjectList"
      "Expected the root element to be 'MasterObjectList'.  The actual response is: "
      (λ root, Done (ds3_bulk_decode root)) body) as Hm.
    unfold ds3_get_service_received, ds3_get_bucket_received, ds3_bulk_received.
    subst listed answered. cbn [error result default from_option id].
    destruct (xmlParseMemory env body) as [root|] eqn:Hparse.
    - split; [|split].
      + destruct (String.eqb_spec (node_name root) "ListAllMyBucketsResult") as [Hn|Hn].
        * apply (decode_blob_accepted env _ _ _ body root Hparse Hn).
          apply crash_foldl_tame, get_service_child_tame.
        * rewrite Hs. apply Hinv.
      + destruct (String.eqb_spec (node_name root) "ListBucketResult") as [Hn|Hn].
        * apply (decode_blob_accepted env _ _ _ body root Hparse Hn).
          apply crash_foldl_tame, get_bucket_child_tame.
        * rewrite Hb. apply Hinv.
      + destruct (String.eqb_spec (node_name root) "MasterObjectList") as [Hn|Hn].
        * destruct (decode_blob_accepted env "MasterObjectList"
            "Expected the root element to be 'MasterObjectList'.  The actual response is: "
            (λ root, Done (ds3_bulk_decode root)) body root Hparse Hn) as [H|H]; [done| |done].
          revert H. rewrite Hm. discriminate.
        * rewrite Hm. apply Hinv.
    - rewrite Hs, Hb, Hm. repeat split; apply Hinv. }
  split; [apply decode_blob_invalid_iff|].
  split; [apply decode_blob_invalid_iff|].
  split; [apply (decode_blob_invalid_iff env "MasterObjectList")|].
  split.
  { intros before after -> Hfree. unfold text.
    destruct (before +:+ String NUL after) eqn:E.
    - destruct before; discriminate E.
    - rewrite <- E, append_assoc, c_str_append by done.
      rewrite append_cons. cbn [c_str]. rewrite Ascii.eqb_refl. apply append_nil_r. }
  split.
  { intros Hne Hfree. unfold text. destruct body; [done|]. by apply c_str_append. }
  split.
  { intros r n Hn. unfold ds3_get_service_child, xmlStrEqual.
    repeat match goal with
           | |- context [String.eqb (node_name n) ?x] =>
               destruct (String.eqb_spec (node_name n) x) as [Heq|_];
               [exfalso; apply Hn; rewrite Heq; set_solver|]
           end.
    done. }
  split.
  { intros o n Hn. unfold _parse_owner_child, xmlStrEqual.
    repeat match goal with
           | |- context [String.eqb (node_name n) ?x] =>
               destruct (String.eqb_spec (node_name n) x) as [Heq|_];
               [exfalso; apply Hn; rewrite Heq; set_solver|]
           end.
    done. }
  split.
  { intros b n Hn. unfold _parse_bucket_field, xmlStrEqual.
    repeat match goal with
           | |- context [String.eqb (node_name n) ?x] =>
               destruct (String.eqb_spec (node_name n) x) as [Heq|_];
               [exfalso; apply Hn; rewrite Heq; set_solver|]
           end.
    done. }
  split; [intros; by apply parse_buckets_any_child_crashes|].
  split.
  { intros r n Hn. unfold ds3_get_bucket_child, xmlStrEqual.
    repeat match goal with
           | |- context [String.eqb (node_name n) ?x] =>
               destruct (String.eqb_spec (node_name n) x) as [Heq|_];
               [exfalso; apply Hn; rewrite Heq; set_solver|]
           end.
    done. }
  split.
  { intros o n Hn. unfold _parse_object_child, xmlStrEqual.
    repeat match goal with
           | |- context [String.eqb (node_name n) ?x] =>
               destruct (String.eqb_spec (node_name n) x) as [Heq|_];
               [exfalso; apply Hn; rewrite Heq; set_solver|]
           end.
    done. }
  split.
  { intros l n Hn. unfold ds3_bulk_root_child, xmlStrEqual.
    by destruct (String.eqb_spec (node_name n) "Objects"). }
  split.
  { intros r a Hn. unfold ds3_bulk_root_attr, xmlStrEqual.
    by destruct (String.eqb_spec (attr_name a) "JobId"). }
  split.
  { intros l n Hn. unfold _parse_bulk_objects_child, xmlStrEqual.
    by destruct (String.eqb_spec (node_name n) "Object"). }
  split.
  { intros l a Hn. unfold _parse_bulk_objects_attr, xmlStrEqual.
    repeat match goal with
           | |- context [String.eqb (attr_name a) ?x] =>
               destruct (String.eqb_spec (attr_name a) x) as [Heq|_];
               [exfalso; apply Hn; rewrite Heq; set_solver|]
           end.
    done. }
  split.
  { intros o a Hn. unfold _parse_bulk_object_attr, xmlStrEqual.
    repeat match goal with
           | |- context [String.eqb (attr_name a) ?x] =>
               destruct (String.eqb_spec (attr_name a) x) as [Heq|_];
               [exfalso; apply Hn; rewrite Heq; set_solver|]
           end.
    done. }
  split; [by vm_compute|]. split; by vm_compute.
Qed.

(** ** Bucket listing: the truncated flag *)

Lemma strncmp_true_prefix text :
  strncmp_eq text "true" 4 = true ↔ ∃ rest, text = "true" +:+ rest.
Proof.
  split.
  - destruct text as [|c1 [|c2 [|c3 [|c4 rest]]]]; simpl; try discriminate;
      repeat match goal with
             | |- context [Ascii.eqb ?a ?b] => destruct (Ascii.eqb_spec a b); subst
             end; simpl; try discriminate.
    intros _. by exists rest.
  - intros [rest ->]. by vm_compute.
Qed.

(** One pass of the root loop: the flag is set from the text of an
    [IsTruncated] element that has one, and left alone otherwise. *)
Lemma get_bucket_child_truncated r n r' :
  ds3_get_bucket_child r n = Done r' →
  is_truncated r'
  = match (if xmlStrEqual (node_name n) "IsTruncated"
           then xmlNodeListGetString (xmlChildrenNode n) else None) with
    | Some text => strncmp_eq text "true" 4
    | None => is_truncated r
    end.
Proof.
  unfold ds3_get_bucket_child, xmlStrEqual.
  destruct (String.eqb_spec (node_name n) "IsTruncated") as [Hn|_].
  - rewrite Hn. cbn [String.eqb Ascii.eqb Bool.eqb]. cbv iota.
    destruct (xmlNodeListGetString (xmlChildrenNode n)); by intros [= <-].
  - repeat match goal with
           | |- context [String.eqb (node_name n) ?x] => destruct (String.eqb (node_name n) x)
           end;
      try destruct (_parse_object n); try destruct (xmlNodeListGetString (xmlChildrenNode n));
      simpl; intros [= <-] || discriminate; reflexivity.
Qed.

Lemma get_bucket_walk_truncated cs r r' :
  crash_foldl ds3_get_bucket_child r cs = Done r' →
  is_truncated r'
  = match last (truncated_texts cs) with
    | Some text => strncmp_eq text "true" 4
    | None => is_truncated r
    end.
Proof.
  revert r. induction cs as [|n cs IH]; intros r.
  - by intros [= <-].
  - cbn [crash_foldl].
    destruct (ds3_get_bucket_child r n) as [r1| |] eqn:E; cbn [mbind crash_bind];
      [|discriminate..].
    intros H. rewrite (IH _ H). apply get_bucket_child_truncated in E.
    unfold truncated_texts. cbn [omap list_omap].
    fold (truncated_texts cs).
    destruct (if xmlStrEqual (node_name n) "IsTruncated"
              then xmlNodeListGetString (xmlChildrenNode n) else None) as [text|].
    + rewrite last_cons. by destruct (last (truncated_texts cs)).
    + by destruct (last (truncated_texts cs)).
Qed.

(** C9, as the source has it. In a decoded bucket listing the truncated
    flag is true exactly when some [IsTruncated] element has text and
    the text of the last such element begins with the four characters
    ["true"]; an [IsTruncated] element without text is passed over. *)
Theorem truncated_flag_is_prefix_test (env : collaborators) (r : ds3_result string)
    (root : xmlNode) (listing : ds3_result ds3_get_bucket_response) :
  xmlParseMemory env (default EmptyString (result r)) = Some root →
  node_name root = "ListBucketResult" →
  ds3_get_bucket_received env r = Done listing →
  ∃ response,
    result listing = Some response
    ∧ (is_truncated response = true
       ↔ ∃ text rest,
           last (truncated_texts (xmlChildrenNode root)) = Some text
           ∧ text = "true" +:+ rest).
Proof.
  intros Hparse Hroot.
  unfold ds3_get_bucket_received.
  match goal with |- context [decode_blob env ?a ?b ?c ?d] =>
    pose proof (decode_blob_cases env a b c d) as H end.
  rewrite Hparse, Hroot in H. cbn in H. rewrite H. clear H.
  destruct (crash_foldl ds3_get_bucket_child bucket_response_zero (xmlChildrenNode root))
    as [response| |] eqn:E; cbn [mbind crash_bind]; [|discriminate..].
  intros [= <-]. exists response. split; [done|].
  rewrite (get_bucket_walk_truncated _ _ _ E).
  destruct (last (truncated_texts (xmlChildrenNode root))) as [text|].
  - rewrite strncmp_true_prefix. split.
    + intros [rest ->]. by eexists _, _.
    + intros (text' & rest & [= <-] & ->). by eexists.
  - cbn [bucket_response_zero is_truncated]. split; [discriminate|].
    by intros (? & ? & ? & _).
Qed.

Lemma truncated_flag_is_prefix_test_witness :
  ∃ response,
    ds3_get_bucket_received emptied_env emptied_answer
      = Done {| error := None; result := Some response |}
    ∧ last (truncated_texts (xmlChildrenNode emptied_listing)) = Some "truest"
    ∧ is_truncated response = true.
Proof.
  assert (Hrun : ∃ response, ds3_get_bucket_received emptied_env emptied_answer
                             = Done {| error := None; result := Some response |})
    by (eexists; by vm_compute).
  destruct Hrun as [response Hrun]. exists response. split; [exact Hrun|].
  split; [reflexivity|].
  destruct (truncated_flag_is_prefix_test emptied_env emptied_answer emptied_listing _
              eq_refl eq_refl Hrun) as (response' & [= <-] & Hflag).
  apply Hflag. by exists "truest", "st".
Defined.

(** C9 as stated fails: a listing whose [IsTruncated] text is
    ["truest"], not ["true"], is decoded with the flag set. *)
Lemma truncated_flag_not_exact_match :
  ∃ response,
    outcome (ds3_get_bucket truest_env (Some sample_client) (Some (ds3_init_get_bucket "b")))
      = Done {| error := None; result := Some response |}
    ∧ xmlNodeListGetString (xmlChildrenNode (leaf_element "IsTruncated" "truest"))
      = Some "truest"
    ∧ ¬ (is_truncated response = true ↔ "truest" = "true").
Proof.
  eexists. split; [by vm_compute|]. split; [reflexivity|].
  intros [H _]. specialize (H eq_refl). discriminate H.
Qed.

(** ** Bulk manifest: sizes through ["%ld"] and [strtoul] *)

Ltac digit_cases d :=
  let H := fresh in
  assert (H : d = 0 ∨ d = 1 ∨ d = 2 ∨ d = 3 ∨ d = 4 ∨ d = 5 ∨ d = 6 ∨ d = 7 ∨ d = 8 ∨ d = 9)
    by lia;
  repeat destruct H as [->|H]; try subst d.

Lemma digit_of_digit_char d : 0 ≤ d < 10 → digit_of (digit_char d) = Some d.
Proof. intros Hd. digit_cases d; reflexivity. Qed.

Lemma digit_char_plain d :
  0 ≤ d < 10 →
  isspace (digit_char d) = false
  ∧ Ascii.eqb (digit_char d) "-" = false
  ∧ Ascii.eqb (digit_char d) "+" = false.
Proof. intros Hd. digit_cases d; repeat split; reflexivity. Qed.

Lemma dec_digits_S f n acc :
  dec_digits (S f) n acc =
  if n <? 10 then String (digit_char (n mod 10)) acc
  else dec_digits f (n / 10) (String (digit_char (n mod 10)) acc).
Proof. reflexivity. Qed.

Lemma dec_digits_length f n acc :
  (String.length (dec_digits f n acc) ≤ f + String.length acc)%nat.
Proof.
  revert n acc. induction f as [|f IH]; intros n acc; [simpl; lia|].
  rewrite dec_digits_S. destruct (n <? 10); [simpl; lia|].
  etransitivity; [apply IH|]. simpl. lia.
Qed.

(** The printed digits start with a digit. *)
Lemma dec_digits_head f n acc :
  0 ≤ n → ∃ d rest, 0 ≤ d < 10 ∧ dec_digits (S f) n acc = String (digit_char d) rest.
Proof.
  revert n acc. induction f as [|f IH]; intros n acc Hn; rewrite dec_digits_S.
  - exists (n mod 10), acc. split; [apply Z.mod_pos_bound; lia|].
    by destruct (n <? 10).
  - destruct (n <? 10).
    + exists (n mod 10), acc. split; [apply Z.mod_pos_bound; lia|done].
    + apply IH. apply Z.div_pos; lia.
Qed.

(** Reading the printed digits back gives the number. *)
Lemma parse_dec_digits f n acc :
  0 ≤ n < 10 ^ Z.of_nat (S f) →
  ∃ m, ∀ a, parse_digits a (dec_digits (S f) n acc) = parse_digits (a * m + n) acc.
Proof.
  revert n acc. induction f as [|f IH]; intros n acc Hn; rewrite dec_digits_S.
  - change (10 ^ Z.of_nat 1) with 10 in Hn.
    replace (n <? 10) with true by (symmetry; apply Z.ltb_lt; lia).
    exists 10. intros a. simpl. rewrite Z.mod_small by lia.
    by rewrite digit_of_digit_char by lia.
  - destruct (Z.ltb_spec n 10) as [Hlt|Hge].
    + exists 10. intros a. simpl. rewrite Z.mod_small by lia.
      by rewrite digit_of_digit_char by lia.
    + destruct (IH (n / 10) (String (digit_char (n mod 10)) acc)) as [m Hm].
      { split; [apply Z.div_pos; lia|].
        apply Z.div_lt_upper_bound; [lia|].
        rewrite Nat2Z.inj_succ, Z.pow_succ_r in Hn by lia. lia. }
      exists (m * 10). intros a. rewrite Hm. simpl.
      rewrite digit_of_digit_char by (apply Z.mod_pos_bound; lia).
      f_equal. pose proof (Z.div_mod n 10). lia.
Qed.

Lemma string_take_ge n s : (String.length s ≤ n)%nat → string_take n s = s.
Proof.
  revert n. induction s as [|c s IH]; intros n Hn; [by destruct n|].
  destruct n as [|n]; simpl in *; [lia|]. rewrite IH; [done|lia].
Qed.

Lemma strtoul_digits n :
  0 ≤ n < 10 ^ 19 → n ≤ 2 ^ 64 - 1 →
  strtoul (dec_digits 19 n EmptyString) = n
  ∧ strtoul (String "-" (dec_digits 19 n EmptyString)) = (- n) mod 2 ^ 64.
Proof.
  intros Hn Hmax.
  destruct (dec_digits_head 18 n EmptyString) as (d & rest & Hd & Hhead); [lia|].
  destruct (parse_dec_digits 18 n EmptyString) as [m Hm]; [done|].
  destruct (digit_char_plain d Hd) as (Hsp & Hminus & Hplus).
  assert (Hparse : parse_digits 0 (dec_digits 19 n EmptyString) = n).
  { rewrite Hm. simpl. lia. }
  split.
  - unfold strtoul. rewrite Hhead. cbn [skip_while]. rewrite Hsp.
    cbn [parse_sign]. rewrite Hminus, Hplus. rewrite <- Hhead, Hparse.
    by replace (2 ^ 64 - 1 <? n) with false by (symmetry; apply Z.ltb_ge; lia).
  - unfold strtoul. cbn [skip_while]. change (isspace "-") with false. cbv iota.
    cbn [parse_sign]. change (Ascii.eqb "-" "-") with true. cbv iota.
    rewrite Hparse.
    by replace (2 ^ 64 - 1 <? n) with false by (symmetry; apply Z.ltb_ge; lia).
Qed.

(** A size printed by [g_snprintf(.., "%ld", ..)] and read by [strtoul]
    is the size. *)
Lemma strtoul_snprintf_ld (s : Z) :
  0 ≤ s < 2 ^ 64 → strtoul (g_snprintf_ld 21 s) = s.
Proof.
  intros Hs. unfold g_snprintf_ld, format_ld, long_of_uint64.
  change (Nat.pred 21) with 20%nat.
  destruct (Z.ltb_spec s (2 ^ 63)) as [Hlow|Hhigh].
  - replace (s <? 0) with false by (symmetry; apply Z.ltb_ge; lia).
    rewrite string_take_ge.
    + apply strtoul_digits; lia.
    + pose proof (dec_digits_length 19 s EmptyString) as Hl.
      change (19 + String.length EmptyString)%nat with 19%nat in Hl. lia.
  - replace (s - 2 ^ 64 <? 0) with true by (symmetry; apply Z.ltb_lt; lia).
    rewrite string_take_ge.
    + destruct (strtoul_digits (- (s - 2 ^ 64))) as [_ ->]; [lia..|].
      symmetry. apply Z.mod_unique_pos with (q := -1); lia.
    + pose proof (dec_digits_length 19 (- (s - 2 ^ 64)) EmptyString) as Hl.
      change (19 + String.length EmptyString)%nat with 19%nat in Hl.
      cbn [String.length]. lia.
Qed.

(** ** Bulk manifest: encoding, then decoding *)

Lemma foldl_add_children {A : Type} (g : A → xmlNode) nm ps cs (l : list A) :
  foldl (λ n o, xmlAddChild n (g o)) (XML_ELEMENT_NODE nm ps cs) l
  = XML_ELEMENT_NODE nm ps (cs ++ map g l).
Proof.
  revert cs. induction l as [|o l IH]; intros cs; simpl.
  - by rewrite app_nil_r.
  - rewrite IH, <- app_assoc. reflexivity.
Qed.

(** The manifest: one [Objects] element holding one [Object] per entry,
    in the order of the list. *)
Lemma ds3_bulk_encode_shape obj_list :
  ds3_bulk_encode obj_list
  = XML_ELEMENT_NODE "MasterObjectList" []
      [XML_ELEMENT_NODE "Objects" [] (map ds3_bulk_encode_object (bulk_list obj_list))].
Proof. unfold ds3_bulk_encode, xmlNewNode. by rewrite foldl_add_children. Qed.

Lemma ds3_bulk_encode_object_shape o :
  ds3_bulk_encode_object o
  = XML_ELEMENT_NODE "Object"
      [XML_ATTRIBUTE_NODE "Name"
         (match bulk_object_name o with Some s => [XML_TEXT_NODE s] | None => [] end);
       XML_ATTRIBUTE_NODE "Size" [XML_TEXT_NODE (g_snprintf_ld 21 (bulk_object_size o))]]
      [].
Proof. reflexivity. Qed.

Lemma parse_encoded_object o :
  0 ≤ bulk_object_size o < 2 ^ 64 →
  name_and_size (_parse_bulk_object (ds3_bulk_encode_object o)) = name_and_size o.
Proof.
  destruct o as [[s|] nsz sz]; cbn [bulk_object_size]; intros Hsize.
  - change (name_and_size (_parse_bulk_object (ds3_bulk_encode_object _)))
      with (Some (s +:+ EmptyString),
            strtoul (g_snprintf_ld 21 sz +:+ EmptyString)).
    by rewrite !append_nil_r, strtoul_snprintf_ld.
  - change (name_and_size (_parse_bulk_object (ds3_bulk_encode_object _)))
      with (@None string, strtoul (g_snprintf_ld 21 sz +:+ EmptyString)).
    by rewrite !append_nil_r, strtoul_snprintf_ld.
Qed.

Lemma parse_encoded_objects (l : list ds3_bulk_object) (acc : list ds3_bulk_object) :
  Forall (λ o, 0 ≤ bulk_object_size o < 2 ^ 64) l →
  name_and_size <$> foldl _parse_bulk_objects_child acc (map ds3_bulk_encode_object l)
  = (name_and_size <$> acc) ++ (name_and_size <$> l).
Proof.
  intros Hall. revert acc. induction Hall as [|o l Ho _ IH]; intros acc; simpl.
  - by rewrite app_nil_r.
  - unfold _parse_bulk_objects_child at 2.
    change (xmlStrEqual (node_name (ds3_bulk_encode_object o)) "Object") with true.
    cbv iota. rewrite IH, fmap_app, <- app_assoc. simpl.
    by rewrite (parse_encoded_object o Ho).
Qed.

Lemma strip_text_element nm ps cs :
  strip_text (XML_ELEMENT_NODE nm ps cs) = XML_ELEMENT_NODE nm ps (strip_children cs).
Proof.
  reflexivity.
Qed.

Lemma node_name_strip n : node_name (strip_text n) = node_name n.
Proof. destruct n; [by rewrite strip_text_element|done]. Qed.

Lemma node_properties_strip n : node_properties (strip_text n) = node_properties n.
Proof. destruct n; [by rewrite strip_text_element|done]. Qed.

Lemma parse_bulk_objects_children_strip cs acc :
  foldl _parse_bulk_objects_child acc (strip_children cs)
  = foldl _parse_bulk_objects_child acc cs.
Proof.
  revert acc. induction cs as [|c cs IH]; intros acc; [done|].
  assert (Hc : _parse_bulk_objects_child acc (strip_text c)
               = _parse_bulk_objects_child acc c).
  { unfold _parse_bulk_objects_child, _parse_bulk_object.
    by rewrite node_name_strip, node_properties_strip. }
  destruct c as [nm ps kids|t].
  - change (strip_children (XML_ELEMENT_NODE nm ps kids :: cs))
      with (strip_text (XML_ELEMENT_NODE nm ps kids) :: strip_children cs).
    cbn [foldl]. by rewrite IH, Hc.
  - change (strip_children (XML_TEXT_NODE t :: cs)) with (strip_children cs).
    cbn [foldl]. by rewrite IH.
Qed.

Lemma parse_bulk_objects_strip n : _parse_bulk_objects (strip_text n) = _parse_bulk_objects n.
Proof.
  destruct n as [nm ps cs|t]; [|done]. rewrite strip_text_element.
  unfold _parse_bulk_objects. cbn [node_properties xmlChildrenNode].
  by rewrite parse_bulk_objects_children_strip.
Qed.

Lemma bulk_root_children_strip cs acc :
  foldl ds3_bulk_root_child acc (strip_children cs) = foldl ds3_bulk_root_child acc cs.
Proof.
  revert acc. induction cs as [|c cs IH]; intros acc; [done|].
  assert (Hc : ds3_bulk_root_child acc (strip_text c) = ds3_bulk_root_child acc c).
  { unfold ds3_bulk_root_child. by rewrite node_name_strip, parse_bulk_objects_strip. }
  destruct c as [nm ps kids|t].
  - change (strip_children (XML_ELEMENT_NODE nm ps kids :: cs))
      with (strip_text (XML_ELEMENT_NODE nm ps kids) :: strip_children cs).
    cbn [foldl]. by rewrite IH, Hc.
  - change (strip_children (XML_TEXT_NODE t :: cs)) with (strip_children cs).
    cbn [foldl]. by rewrite IH.
Qed.

(** Text nodes between the elements do not change what is decoded. *)
Lemma ds3_bulk_decode_strip doc : ds3_bulk_decode (strip_text doc) = ds3_bulk_decode doc.
Proof.
  destruct doc as [nm ps cs|t]; [|done]. rewrite strip_text_element.
  unfold ds3_bulk_decode. cbn [node_properties xmlChildrenNode].
  by rewrite bulk_root_children_strip.
Qed.

(** C7. The manifest built from a list of bulk objects holds one
    [Objects] element with one [Object] per entry, in order; the
    bulk-objects parser reads back from it, and from any document that
    differs from it by text nodes between elements, as many objects with
    the names and sizes of the list, in order. *)
Theorem bulk_manifest_round_trip (obj_list : ds3_bulk_object_list) (echoed : xmlNode) :
  Forall (λ o, 0 ≤ bulk_object_size o < 2 ^ 64) (bulk_list obj_list) →
  strip_text echoed = ds3_bulk_encode obj_list →
  ds3_bulk_encode obj_list
  = XML_ELEMENT_NODE "MasterObjectList" []
      [XML_ELEMENT_NODE "Objects" [] (map ds3_bulk_encode_object (bulk_list obj_list))]
  ∧ (∀ objects_node,
        xmlChildrenNode (ds3_bulk_encode obj_list) = [objects_node] →
        name_and_size <$> bulk_list (_parse_bulk_objects objects_node)
        = name_and_size <$> bulk_list obj_list)
  ∧ ∃ chunk,
      response_list (ds3_bulk_decode echoed) = [chunk]
      ∧ length (bulk_list chunk) = length (bulk_list obj_list)
      ∧ name_and_size <$> bulk_list chunk = name_and_size <$> bulk_list obj_list.
Proof.
  intros Hsizes Hecho.
  pose proof (ds3_bulk_encode_shape obj_list) as Hshape.
  assert (Hnode : name_and_size <$> bulk_list
                    (_parse_bulk_objects
                       (XML_ELEMENT_NODE "Objects" []
                          (map ds3_bulk_encode_object (bulk_list obj_list))))
                  = name_and_size <$> bulk_list obj_list).
  { unfold _parse_bulk_objects. cbn [bulk_list xmlChildrenNode].
    by rewrite (parse_encoded_objects _ [] Hsizes). }
  split; [exact Hshape|]. split.
  - intros objects_node. rewrite Hshape. cbn [xmlChildrenNode]. by intros [= <-].
  - rewrite <- ds3_bulk_decode_strip, Hecho, Hshape.
    eexists. split; [reflexivity|]. split; [|exact Hnode].
    apply (f_equal length) in Hnode. by rewrite !length_fmap in Hnode.
Qed.

Lemma bulk_manifest_round_trip_witness :
  Forall (λ o, 0 ≤ bulk_object_size o < 2 ^ 64) (bulk_list sample_objects)
  ∧ ∃ chunk,
      response_list (ds3_bulk_decode sample_echo) = [chunk]
      ∧ length (bulk_list chunk) = 3%nat
      ∧ name_and_size <$> bulk_list chunk
        = [(Some "a", 10); (Some "b", 20); (Some "c", 2 ^ 64 - 1)].
Proof.
  assert (Hsizes : Forall (λ o, 0 ≤ bulk_object_size o < 2 ^ 64) (bulk_list sample_objects)).
  { repeat constructor; simpl; lia. }
  split; [exact Hsizes|].
  destruct (bulk_manifest_round_trip sample_objects sample_echo Hsizes)
    as (_ & _ & chunk & Hlist & Hlen & Hobjs); [by vm_compute|].
  exists chunk. split; [exact Hlist|]. split; [exact Hlen | exact Hobjs].
Defined.

(** * Further properties *)

(** ** Header stream parser: header lines and refused lines *)




Lemma append_length a b :
  String.length (a +:+ b) = (String.length a + String.length b)%nat.
Proof. induction a as [|c a IH]; [done|]. rewrite append_cons. simpl. by rewrite IH. Qed.




Lemma g_strchomp_blank s : blank s = true → g_strchomp s = EmptyString.
Proof.
  induction s as [|c s IH]; [done|].
  unfold blank. cbn [string_forall]. intros H. apply andb_true_iff in H as [Hc Hs].
  cbn [g_strchomp]. rewrite (IH Hs), Hc. reflexivity.
Qed.

Lemma blank_line_passed raw rd :
  2 ≤ strlen raw → blank raw = true → _process_header_line raw rd = Done (strlen raw, rd).
Proof.
  intros Hlen Hblank. unfold _process_header_line. cbv zeta.
  replace (strlen raw <? 2) with false by (symmetry; apply Z.ltb_ge; lia).
  by rewrite g_strchomp_blank.
Qed.

(** X2. In every state a line of white space only (the blank line that
    ends the headers included) is accepted and changes nothing, and a
    line of fewer than two bytes is refused. *)
Theorem blank_and_short_lines (blank_raw short_raw : string) (rd : ds3_response_data) :
  2 ≤ strlen blank_raw →
  blank blank_raw = true →
  strlen short_raw < 2 →
  _process_header_line blank_raw rd = Done (strlen blank_raw, rd)
  ∧ _process_header_line short_raw rd = Done (0, rd).
Proof.
  intros Hlen Hblank Hshort. split; [by apply blank_line_passed|].
  unfold _process_header_line. cbv zeta.
  by replace (strlen short_raw <? 2) with true by (symmetry; apply Z.ltb_lt; lia).
Qed.

Lemma blank_and_short_lines_witness :
  _process_header_line CRLF status_200 = Done (2, status_200)
  ∧ _process_header_line (String LF EmptyString) status_200 = Done (0, status_200).
Proof.
  apply (blank_and_short_lines CRLF (String LF EmptyString) status_200);
    [done | reflexivity | done].
Defined.



(** ** Header stream parser: a whole response head *)

(** What [_process_header_line] does with a well-formed status line. *)
Lemma status_line_step raw code words rd :
  header_count rd < 1 →
  g_strchomp raw = String.concat " " ("HTTP/1.1" :: code :: words) →
  space_free code = true →
  _process_header_line raw rd =
  let status := wrap64 (g_ascii_strtoll code) in
  if status =? 0 then Done (0, rd)
  else if status =? 100 then Done (strlen raw, rd)
  else Done (strlen raw,
             {| status_code := status;
                status_message := Some (String.concat " " words);
                status_message_size := strlen (String.concat " " words);
                header_count := wrap64 (header_count rd + 1);
                headers := headers rd |}).
Proof.
  intros Hcount Hline Hcode. apply Z.ltb_lt in Hcount.
  destruct (status_line_tokens code words Hcode) as (rest & Htok & Hjoin).
  unfold _process_header_line. cbv zeta. rewrite Hline, Hcount, Htok.
  assert (Hlen : (strlen raw <? 2) = false).
  { apply Z.ltb_ge. unfold strlen. pose proof (g_strchomp_length raw) as Hle.
    rewrite Hline, concat_cons2, !append_length in Hle. simpl in Hle. lia. }
  rewrite Hlen.
  assert (Hne : (strlen (String.concat " " ("HTTP/1.1" :: code :: words)) =? 0) = false).
  { rewrite concat_cons2. apply Z.eqb_neq. unfold strlen.
    rewrite !append_length. simpl. lia. }
  rewrite Hne.
  assert (Hpre : g_str_has_prefix (String.concat " " ("HTTP/1.1" :: code :: words))
                   "HTTP/1.1" = true).
  { rewrite concat_cons2. apply prefix_append. }
  rewrite Hpre.
  change (("HTTP/1.1" :: code :: rest) !! 1%nat) with (Some code). cbv beta iota.
  change (drop 2 ("HTTP/1.1" :: code :: rest)) with rest. by rewrite Hjoin.
Qed.

Lemma interim_line_passed raw rd :
  header_count rd < 1 → interim_line raw →
  _process_header_line raw rd = Done (strlen raw, rd).
Proof.
  intros Hcount [Hlen [Hblank | (code & words & Hline & Hcode & H100)]].
  - by apply blank_line_passed.
  - rewrite (status_line_step raw code words rd Hcount Hline Hcode). cbv zeta.
    by rewrite H100.
Qed.

(** X4. While the status line is awaited, any run of blank lines and of
    status lines with code 100 is passed over: the rest of the response
    head is processed as if the run had not been there. *)
Theorem interim_lines_skipped (prelude rest : list string) (rd : ds3_response_data) :
  header_count rd < 1 →
  Forall interim_line prelude →
  process_header_lines (prelude ++ rest) rd = process_header_lines rest rd.
Proof.
  intros Hcount Hall. induction Hall as [|raw prelude Hraw _ IH]; [done|].
  cbn [app process_header_lines].
  rewrite (interim_line_passed raw rd Hcount Hraw). cbn [mbind crash_bind fst snd].
  by rewrite Z.eqb_refl.
Qed.

Lemma interim_lines_skipped_witness :
  ∃ rd',
    process_header_lines
      (["HTTP/1.1 100 Continue" +:+ CRLF; CRLF]
         ++ ["HTTP/1.1 201 Created" +:+ CRLF; "ETag: x" +:+ CRLF; CRLF])
      response_data_init = Done (Some rd')
    ∧ status_code rd' = 201 ∧ status_message rd' = Some "Created"
    ∧ header_count rd' = 2.
Proof.
  rewrite (interim_lines_skipped ["HTTP/1.1 100 Continue" +:+ CRLF; CRLF]
             ["HTTP/1.1 201 Created" +:+ CRLF; "ETag: x" +:+ CRLF; CRLF]
             response_data_init).
  - eexists. split; [by vm_compute|]. done.
  - done.
  - constructor; [|constructor; [|constructor]].
    + split; [done|]. right. exists "100", ["Continue"]. by vm_compute.
    + split; [done|]. by left.
Defined.

Lemma parser_step_invariant raw rd n rd' :
  parser_invariant rd →
  header_count rd < 2 ^ 64 - 1 →
  _process_header_line raw rd = Done (n, rd') →
  parser_invariant rd' ∧ header_count rd ≤ header_count rd' ≤ header_count rd + 1.
Proof.
  intros Hinv Hbound. pose proof Hinv as Hinv0. unfold _process_header_line. cbv zeta.
  destruct (strlen raw <? 2); [intros [= <- <-]; split; [done|lia]|].
  destruct (strlen (g_strchomp raw) =? 0); [intros [= <- <-]; split; [done|lia]|].
  destruct (Z.ltb_spec (header_count rd) 1) as [Hlt|Hge].
  - destruct Hinv as [(H0 & _ & _ & Hempty) | (H1 & _)]; [|lia].
    destruct (g_str_has_prefix _ _); [|intros [= <- <-]; split; [exact Hinv0|lia]].
    destruct (_ !! 1%nat) as [tok|]; [|discriminate].
    destruct (Z.eqb_spec (wrap64 (g_ascii_strtoll tok)) 0) as [|Hn0];
      [intros [= <- <-]; split; [exact Hinv0|lia]|].
    destruct (Z.eqb_spec (wrap64 (g_ascii_strtoll tok)) 100) as [|Hn100];
      [intros [= <- <-]; split; [exact Hinv0|lia]|].
    intros [= <- <-]. cbn [header_count]. rewrite H0. change (wrap64 (0 + 1)) with 1.
    split; [|lia]. right. cbn [header_count status_code status_message headers].
    pose proof (Z.mod_pos_bound (g_ascii_strtoll tok) (2 ^ 64) ltac:(lia)) as Hr.
    fold (wrap64 (g_ascii_strtoll tok)) in Hr.
    rewrite Hempty, map_size_empty. repeat split; try done; try lia.
  - destruct Hinv as [(H0 & _) | (H1 & Hs0 & Hs100 & Hrange & Hmsg & Hsize)]; [lia|].
    assert (Hw : wrap64 (header_count rd + 1) = header_count rd + 1).
    { unfold wrap64. apply Z.mod_small. lia. }
    destruct (g_strsplit (g_strchomp raw) ": " 2 !! 0%nat) as [k|],
             (g_strsplit (g_strchomp raw) ": " 2 !! 1%nat) as [v|];
      cbn [strlen_ptr mbind crash_bind default from_option id]; try discriminate.
    unfold g_hash_table_insert. cbn [key].
    destruct (headers rd !! k) as [old|] eqn:Hk;
      [destruct (entry_key_freed old); [discriminate|]|];
      cbn [mbind crash_bind]; intros [= <- <-]; cbn [header_count]; rewrite Hw;
      (split; [|lia]); right; cbn [header_count status_code status_message headers];
      repeat split; try done; try lia;
      match goal with |- context [size (<[?k := ?v]> ?m)] =>
        pose proof (map_size_insert k v m) as Hins end;
      rewrite Hk in Hins; cbn in Hins; lia.
Qed.

Lemma parser_run_invariant lines rd rd' :
  parser_invariant rd →
  header_count rd + Z.of_nat (length lines) < 2 ^ 64 →
  process_header_lines lines rd = Done (Some rd') →
  parser_invariant rd' ∧ header_count rd' ≤ header_count rd + Z.of_nat (length lines).
Proof.
  revert rd. induction lines as [|raw lines IH]; intros rd Hinv Hbound.
  - intros [= <-]. split; [done|simpl; lia].
  - cbn [process_header_lines]. cbn [length] in Hbound.
    destruct (_process_header_line raw rd) as [[n rd1]| |] eqn:E; [|discriminate..].
    cbn [mbind crash_bind fst snd].
    destruct (n =? strlen raw); [|discriminate].
    apply parser_step_invariant in E as [Hinv1 Hc1]; [|done|lia].
    intros H. apply IH in H as [Hinv' Hc']; [|done|lia].
    split; [done|]. cbn [length]. lia.
Qed.

(** X5. Whatever the lines of a response head, the state reached from
    the initial one either still awaits the status line with nothing
    recorded, or holds a status code that is neither 0 nor 100, a status
    message, and fewer headers than lines counted: no header is recorded
    before a status line, and an interim 100 status is never reported. *)
Theorem parser_state_invariant (lines : list string) (rd' : ds3_response_data) :
  Z.of_nat (length lines) < 2 ^ 64 →
  process_header_lines lines response_data_init = Done (Some rd') →
  parser_invariant rd' ∧ header_count rd' ≤ Z.of_nat (length lines).
Proof.
  intros Hlen Hrun.
  apply (parser_run_invariant lines response_data_init rd'); [by left|done|done].
Qed.

Lemma parser_state_invariant_witness :
  parser_invariant
    {| status_code := 200; status_message := Some "OK"; status_message_size := 2;
       header_count := 2;
       headers := {["ETag" := {| entry_key_freed := false;
                                  entry_header := {| key := "ETag"; key_size := 4;
                                                     value := "x"; value_size := 1 |} |}]} |}.
Proof.
  apply (parser_state_invariant ["HTTP/1.1 200 OK" +:+ CRLF; "ETag: x" +:+ CRLF; CRLF]);
    [by vm_compute | by vm_compute].
Defined.

(** ** Request executor: what an exchange is performed with *)

Lemma no_query_string (env : collaborators) : _net_gen_query_params env ∅ = None.
Proof. reflexivity. Qed.

(** X6. How each operation reaches the server, for requests built by
    the factories: the URL is endpoint and path; [GET] operations set no
    method option, [DELETE] operations and [ds3_put_bucket] name the
    method as a custom request without a body, and [ds3_put_object]
    uploads when it is given a callback and its data, with the declared
    length as libcurl reads it -- a [long], so that a length of [2^63]
    or more is announced as a negative size -- and falls back to the
    custom request ["PUT"] when it is not. *)
Theorem operations_on_the_wire (env : collaborators) (c : ds3_client)
    (bucket_name object_name : string) (len : Z)
    (A B : Type) (a : A) (f : string → A → Z * A) (b : B) (g : Z → B → string * B) :
  curl_easy_init env = true →
  0 ≤ len < 2 ^ 64 →
  let url_of := λ R (e : exchange (ds3_result R)), CURLOPT_URL <$> performed e in
  let method_of := λ R (e : exchange (ds3_result R)),
    (λ h, (CURLOPT_CUSTOMREQUEST h, CURLOPT_PUT h, CURLOPT_UPLOAD h, CURLOPT_INFILESIZE h))
      <$> performed e in
  let object_url := endpoint c +:+ "/" +:+ bucket_name +:+ "/" +:+ object_name in
  let bucket_url := endpoint c +:+ "/" +:+ bucket_name in
  (url_of _ (ds3_get_service env (Some c) (Some ds3_init_get_service))
     = Some (endpoint c +:+ "/")
   ∧ method_of _ (ds3_get_service env (Some c) (Some ds3_init_get_service))
     = Some (None, false, false, None))
  ∧ (url_of _ (ds3_get_bucket env (Some c) (Some (ds3_init_get_bucket bucket_name)))
       = Some bucket_url
     ∧ method_of _ (ds3_get_bucket env (Some c) (Some (ds3_init_get_bucket bucket_name)))
       = Some (None, false, false, None))
  ∧ (url_of _ (ds3_get_object env (Some c)
                 (Some (ds3_init_get_object bucket_name object_name)) (Some a) (Some f))
       = Some object_url
     ∧ method_of _ (ds3_get_object env (Some c)
                      (Some (ds3_init_get_object bucket_name object_name)) (Some a) (Some f))
       = Some (None, false, false, None))
  ∧ (url_of _ (ds3_put_object env (Some c)
                 (Some (ds3_init_put_object bucket_name object_name len)) (Some b) (Some g))
       = Some object_url
     ∧ method_of _ (ds3_put_object env (Some c)
                      (Some (ds3_init_put_object bucket_name object_name len))
                      (Some b) (Some g))
       = Some (None, true, true, Some (if len <? 2 ^ 63 then len else len - 2 ^ 64)))
  ∧ method_of _ (ds3_put_object env (Some c)
                   (Some (ds3_init_put_object bucket_name object_name len)) (Some b) None)
    = Some (Some "PUT", false, false, None)
  ∧ (url_of _ (ds3_delete_object env (Some c)
                 (Some (ds3_init_delete_object bucket_name object_name)))
       = Some object_url
     ∧ method_of _ (ds3_delete_object env (Some c)
                      (Some (ds3_init_delete_object bucket_name object_name)))
       = Some (Some "DELETE", false, false, None))
  ∧ (url_of _ (ds3_put_bucket env (Some c) (Some (ds3_init_put_bucket bucket_name)))
       = Some bucket_url
     ∧ method_of _ (ds3_put_bucket env (Some c) (Some (ds3_init_put_bucket bucket_name)))
       = Some (Some "PUT", false, false, None))
  ∧ (url_of _ (ds3_delete_bucket env (Some c) (Some (ds3_init_delete_bucket bucket_name)))
       = Some bucket_url
     ∧ method_of _ (ds3_delete_bucket env (Some c)
                      (Some (ds3_init_delete_bucket bucket_name)))
       = Some (Some "DELETE", false, false, None)).
Proof.
  intros Hinit Hlen url_of method_of object_url bucket_url.
  assert (Hwrap : wrap64 len = len) by (unfold wrap64; apply Z.mod_small; lia).
  unfold url_of, method_of, ds3_get_service, ds3_get_bucket, ds3_get_object,
    ds3_put_object, ds3_delete_object, ds3_put_bucket, ds3_delete_bucket,
    _internal_request_dispatcher, performed, _net_process_request,
    _net_compute_signature.
  cbn [trace]. rewrite Hinit. rewrite !generate_signature_str_canonical.
  cbn [trace].
  repeat split; try reflexivity.
  cbn [fmap option_fmap option_map ds3_init_put_object with_length request_length verb
       with_verb_path CURLOPT_CUSTOMREQUEST CURLOPT_PUT CURLOPT_UPLOAD CURLOPT_INFILESIZE
       fst snd].
  unfold long_of_uint64. rewrite Hwrap. reflexivity.
Qed.

Lemma operations_on_the_wire_witness :
  (λ h, (CURLOPT_CUSTOMREQUEST h, CURLOPT_PUT h, CURLOPT_UPLOAD h, CURLOPT_INFILESIZE h))
    <$> performed (ds3_put_object sample_env (Some sample_client)
                     (Some (ds3_init_put_object "b" "o" (2 ^ 64 - 1)))
                     (Some tt) (Some (λ _ u, (EmptyString, u))))
  = Some (None, true, true, Some (-1)).
Proof.
  destruct (operations_on_the_wire sample_env sample_client "b" "o" (2 ^ 64 - 1)
              string unit EmptyString load_xml_buff tt (λ _ u, (EmptyString, u)) eq_refl)
    as (_ & _ & _ & (_ & Hput) & _); [lia|].
  exact Hput.
Defined.

(** X7. A client made by [ds3_create_client] performs its exchanges
    following redirects, at most five, and without proxy; after
    [ds3_client_proxy] the exchanges go through the proxy given, and a
    null proxy is dereferenced. *)
Theorem client_settings_on_the_wire (env : collaborators) (ep p : string) (cr : ds3_creds)
    (rq : _ds3_request) :
  curl_easy_init env = true →
  let settings := λ c,
    (λ h, (CURLOPT_FOLLOWLOCATION h, CURLOPT_MAXREDIRS h, CURLOPT_PROXY h))
      <$> performed (ds3_delete_object env (Some c) (Some rq)) in
  settings (ds3_create_client ep cr) = Some (1, 5, None)
  ∧ (∃ c', ds3_client_proxy (ds3_create_client ep cr) (Some p) = Done c'
           ∧ settings c' = Some (1, 5, Some p)
           ∧ endpoint c' = ep ∧ creds c' = cr)
  ∧ ds3_client_proxy (ds3_create_client ep cr) None = NullDeref.
Proof.
  intros Hinit settings.
  unfold settings, ds3_delete_object, _internal_request_dispatcher, performed,
    _net_process_request, _net_compute_signature.
  rewrite Hinit, generate_signature_str_canonical. cbn [trace].
  split; [reflexivity|]. split; [|reflexivity].
  eexists. split; [reflexivity|]. repeat split.
Qed.

Lemma client_settings_on_the_wire_witness :
  ∃ c', ds3_client_proxy sample_client (Some "http://proxy:3128") = Done c'
        ∧ (CURLOPT_PROXY <$> performed (ds3_delete_object sample_env (Some c')
                                          (Some (ds3_init_delete_object "b" "o"))))
          = Some (Some "http://proxy:3128").
Proof.
  destruct (client_settings_on_the_wire sample_env "http://ds3.example" "http://proxy:3128"
              (ds3_create_creds "id" "secret") (ds3_init_delete_object "b" "o") eq_refl)
    as (_ & (c' & Hc & Hs & _) & _).
  exists c'. split; [exact Hc|].
  apply (f_equal (fmap (λ t : Z * Z * option string, t.2))) in Hs.
  rewrite <- option_fmap_compose in Hs. exact Hs.
Defined.

(** ** Request executor: what an exchange returns *)

(** X8. The executor returns no error, or [FAILED_REQUEST] with the
    text ["Request failed: "] and libcurl's message for a result other
    than [CURLE_OK], or [CURL_HANDLE] when no handle could be had -- in
    which case nothing was signed or sent and the caller's data is
    untouched; it never returns [MISSING_ARGS] or [INVALID_XML]. *)
Theorem executor_errors (env : collaborators) (A B : Type)
    (c : ds3_client) (rq : _ds3_request)
    (d : option A) (f : option (string → A → Z * A))
    (wd : option B) (wf : option (Z → B → string * B)) (r : ds3_result A) :
  outcome (_net_process_request env c rq d f wd wf) = Done r →
  (curl_easy_init env = true
   ∧ (error r = None
      ∨ ∃ res, res ≠ CURLE_OK
               ∧ error r
                 = Some {| code := DS3_ERROR_FAILED_REQUEST;
                           message := "Request failed: " +:+ curl_easy_strerror env res;
                           message_size :=
                             strlen ("Request failed: " +:+ curl_easy_strerror env res) |}))
  ∨ (curl_easy_init env = false
     ∧ error r = Some {| code := DS3_ERROR_CURL_HANDLE;
                         message := "Failed to create curl handle";
                         message_size := 28 |}
     ∧ result r = d
     ∧ trace (_net_process_request env c rq d f wd wf) = []).
Proof.
  intros Hrun. pose proof (net_process_request_error env c rq d f wd wf r Hrun) as Herr.
  destruct (curl_easy_init env) eqn:Hinit.
  - left. split; [done|]. destruct Herr as [?|[?|[? _]]]; [by left|by right|done].
  - right. split; [done|]. revert Hrun.
    unfold _net_process_request. rewrite Hinit. cbn [outcome trace].
    by intros [= <-].
Qed.

Lemma executor_errors_witness :
  outcome (ds3_delete_bucket timed_out_env (Some sample_client)
             (Some (ds3_init_delete_bucket "b")))
  = Done {| error := Some {| code := DS3_ERROR_FAILED_REQUEST;
                             message := "Request failed: transfer failed";
                             message_size := 31 |};
            result := None |}
  ∧ ∃ res, res ≠ CURLE_OK
           ∧ Some {| code := DS3_ERROR_FAILED_REQUEST;
                     message := "Request failed: transfer failed";
                     message_size := 31 |}
             = Some {| code := DS3_ERROR_FAILED_REQUEST;
                       message := "Request failed: " +:+ curl_easy_strerror timed_out_env res;
                       message_size :=
                         strlen ("Request failed: "
                                   +:+ curl_easy_strerror timed_out_env res) |}.
Proof.
  assert (Hrun : outcome (_net_process_request timed_out_env sample_client
                            (ds3_init_delete_bucket "b") (@None unit) None (@None unit) None)
                 = Done {| error := Some {| code := DS3_ERROR_FAILED_REQUEST;
                                            message := "Request failed: transfer failed";
                                            message_size := 31 |};
                           result := None |}) by (by vm_compute).
  split; [exact Hrun|].
  destruct (executor_errors timed_out_env unit unit sample_client
              (ds3_init_delete_bucket "b") None None None None _ Hrun)
    as [[_ [H|H]] | [H _]]; [discriminate H | exact H | discriminate H].
Defined.

(** What libcurl is told of the header lines is whether the callback
    took them all. *)
Lemma deliver_headers_refused lines rd :
  process_header_lines lines rd = Done None → deliver_headers lines rd = Done false.
Proof.
  revert rd. induction lines as [|l lines IH]; intros rd; [discriminate|].
  cbn [process_header_lines deliver_headers].
  destruct (_process_header_line l rd) as [[n rd1]| |]; cbn [mbind crash_bind fst snd];
    [|discriminate..].
  destruct (n =? strlen l); [apply IH|done].
Qed.

(** X9. When the header callback refuses a line of the response, the
    exchange ends in [FAILED_REQUEST] with libcurl's message for
    [CURLE_WRITE_ERROR], whatever the transfer's own result, and none of
    the body reaches the caller's data. *)
Theorem refused_header_fails_exchange (env : collaborators) (t : curl_transfer)
    (A B : Type) (c : ds3_client) (rq : _ds3_request)
    (d : option A) (f : option (string → A → Z * A))
    (wd : option B) (wf : option (Z → B → string * B)) :
  curl_easy_init env = true →
  (∀ h, curl_easy_transfer env h = t) →
  process_header_lines (header_lines t) response_data_init = Done None →
  outcome (_net_process_request env c rq d f wd wf)
  = Done {| error :=
              Some {| code := DS3_ERROR_FAILED_REQUEST;
                      message := "Request failed: " +:+ curl_easy_strerror env 23;
                      message_size :=
                        strlen ("Request failed: " +:+ curl_easy_strerror env 23) |};
            result := d |}.
Proof.
  intros Hinit Ht Hrefused. apply deliver_headers_refused in Hrefused.
  unfold _net_process_request, _net_compute_signature.
  rewrite Hinit, generate_signature_str_canonical. cbn [outcome].
  unfold curl_easy_perform. rewrite Ht, Hrefused. cbn [mbind crash_bind fst snd].
  change (negb (CURLE_WRITE_ERROR =? CURLE_OK)) with true. cbv iota.
  by destruct (bool_decide _).
Qed.

Lemma refused_header_fails_exchange_witness :
  outcome (ds3_get_object old_protocol_env (Some sample_client)
             (Some (ds3_init_get_object "b" "o")) (Some EmptyString) (Some load_xml_buff))
  = Done {| error :=
              Some {| code := DS3_ERROR_FAILED_REQUEST;
                      message := "Request failed: "
                                   +:+ "Failed writing received data to disk/application";
                      message_size := 64 |};
            result := Some EmptyString |}.
Proof.
  apply (refused_header_fails_exchange old_protocol_env
           {| header_lines := ["HTTP/1.0 200 OK" +:+ CRLF; CRLF];
              body_chunks := [sample_body]; result_code := CURLE_OK |});
    [reflexivity | reflexivity | by vm_compute].
Defined.

Lemma concat_empty_cons c l : String.concat EmptyString (c :: l) = c +:+ String.concat EmptyString l.
Proof. destruct l; [by rewrite append_nil_r | reflexivity]. Qed.

Lemma deliver_body_load_xml_buff chunks blob :
  deliver_body load_xml_buff chunks blob
  = (true, blob +:+ String.concat EmptyString chunks).
Proof.
  revert blob. induction chunks as [|c chunks IH]; intros blob.
  - cbn. by rewrite append_nil_r.
  - cbn [deliver_body]. change (load_xml_buff c blob) with (strlen c, blob +:+ c).
    cbn [fst snd]. by rewrite Z.eqb_refl, IH, concat_empty_cons, append_assoc.
Qed.

(** X10. When the response head is accepted, an exchange that gathers the
    body with [load_xml_buff] leaves in the caller's blob what it held
    followed by all the pieces of the body, in order -- also when the
    transfer ends in an error. *)
Theorem body_gathered_in_order (env : collaborators) (t : curl_transfer) (B : Type)
    (c : ds3_client) (rq : _ds3_request) (blob : string)
    (wd : option B) (wf : option (Z → B → string * B)) :
  curl_easy_init env = true →
  (∀ h, curl_easy_transfer env h = t) →
  deliver_headers (header_lines t) response_data_init = Done true →
  ∃ e,
    outcome (_net_process_request env c rq (Some blob) (Some load_xml_buff) wd wf)
      = Done {| error := e;
                result := Some (blob +:+ String.concat EmptyString (body_chunks t)) |}
    ∧ (e = None ↔ result_code t = CURLE_OK).
Proof.
  intros Hinit Ht Haccepted.
  unfold _net_process_request, _net_compute_signature.
  rewrite Hinit, generate_signature_str_canonical. cbn [outcome].
  unfold curl_easy_perform. rewrite Ht, Haccepted. cbn [mbind crash_bind].
  rewrite bool_decide_eq_true_2 by (split; eauto).
  rewrite deliver_body_load_xml_buff. cbn [mbind crash_bind fst snd].
  destruct (Z.eqb_spec (result_code t) CURLE_OK) as [Heq|Hne]; cbn [negb];
    eexists; (split; [reflexivity|]); split; done.
Qed.

Lemma body_gathered_in_order_witness :
  ∃ e,
    outcome (ds3_get_object sample_env (Some sample_client)
               (Some (ds3_init_get_object "b" "o")) (Some "seen: ") (Some load_xml_buff))
      = Done {| error := e; result := Some "seen: <MasterObjectList/>" |}
    ∧ (e = None ↔ CURLE_OK = CURLE_OK).
Proof.
  apply (body_gathered_in_order sample_env
           {| header_lines := ["HTTP/1.1 200 OK" +:+ CRLF; CRLF];
              body_chunks := [sample_body]; result_code := CURLE_OK |} unit
           sample_client (ds3_init_get_object "b" "o") "seen: " None None);
    [reflexivity | reflexivity | by vm_compute].
Defined.

(** ** Operations: missing arguments and the bulk exchange *)

Lemma listing_received_code (env : collaborators) (r : ds3_result string) :
  returned_code (ds3_get_service_received env r) ≠ Some DS3_ERROR_MISSING_ARGS
  ∧ returned_code (ds3_get_bucket_received env r) ≠ Some DS3_ERROR_MISSING_ARGS.
Proof.
  unfold ds3_get_service_received, ds3_get_bucket_received. split.
  - by destruct (decode_blob_code env "ListAllMyBucketsResult"
        "Expected the root element to be 'ListAllMyBucketsResult'.  The actual response is: "
        (λ root, crash_foldl ds3_get_service_child service_response_zero
                   (xmlChildrenNode root))
        (default EmptyString (result r))) as [-> | ->].
  - by destruct (decode_blob_code env "ListBucketResult"
        "Expected the root element to be 'ListBucketsResult'.  The actual response is: "
        (λ root, crash_foldl ds3_get_bucket_child bucket_response_zero
                   (xmlChildrenNode root))
        (default EmptyString (result r))) as [-> | ->].
Qed.

(** X11. With a null client or a null request, the operations that
    return the dispatcher's value return [MISSING_ARGS] without signing
    or sending and leave the caller's data alone; [ds3_get_service] and
    [ds3_get_bucket] do not sign or send either, but go on to decode the
    empty blob and never return [MISSING_ARGS]. *)
Theorem missing_client_or_request (env : collaborators)
    (client : option ds3_client) (request : option _ds3_request)
    (A B : Type) (user_data : option A) (callback : option (string → A → Z * A))
    (upload_data : option B) (upload : option (Z → B → string * B)) :
  client = None ∨ request = None →
  let refusal :=
    {| code := DS3_ERROR_MISSING_ARGS;
       message := "All arguments must be filled in for request processing";
       message_size := 54 |} in
  let refused := λ R (left : option R),
    {| trace := []; outcome := Done {| error := Some refusal; result := left |} |} in
  ds3_get_object env client request user_data callback = refused A user_data
  ∧ ds3_put_object env client request upload_data upload = refused unit None
  ∧ ds3_delete_object env client request = refused unit None
  ∧ ds3_put_bucket env client request = refused unit None
  ∧ ds3_delete_bucket env client request = refused unit None
  ∧ (trace (ds3_get_service env client request) = []
     ∧ outcome (ds3_get_service env client request)
       = ds3_get_service_received env
           {| error := Some refusal; result := Some EmptyString |}
     ∧ returned_code (outcome (ds3_get_service env client request))
       ≠ Some DS3_ERROR_MISSING_ARGS)
  ∧ (trace (ds3_get_bucket env client request) = []
     ∧ outcome (ds3_get_bucket env client request)
       = ds3_get_bucket_received env
           {| error := Some refusal; result := Some EmptyString |}
     ∧ returned_code (outcome (ds3_get_bucket env client request))
       ≠ Some DS3_ERROR_MISSING_ARGS).
Proof.
  intros Hmissing refusal refused.
  assert (Hdispatch : ∀ (A' B' : Type) (d : option A') (f : option (string → A' → Z * A'))
                        (wd : option B') (wf : option (Z → B' → string * B')),
             _internal_request_dispatcher env client request d f wd wf = refused A' d).
  { intros. unfold _internal_request_dispatcher.
    destruct Hmissing as [-> | ->]; [done|]. by destruct client. }
  unfold ds3_get_object, ds3_put_object, ds3_delete_object, ds3_put_bucket,
    ds3_delete_bucket, ds3_get_service, ds3_get_bucket.
  rewrite !Hdispatch. repeat split.
  - apply (listing_received_code env {| error := Some refusal; result := Some EmptyString |}).
  - apply (listing_received_code env {| error := Some refusal; result := Some EmptyString |}).
Qed.

Lemma missing_client_or_request_witness :
  ds3_delete_bucket sample_env None (Some (ds3_init_delete_bucket "b"))
  = {| trace := [];
       outcome :=
         Done {| error :=
                   Some {| code := DS3_ERROR_MISSING_ARGS;
                           message := "All arguments must be filled in for request processing";
                           message_size := 54 |};
                 result := None |} |}.
Proof.
  destruct (missing_client_or_request sample_env None (Some (ds3_init_delete_bucket "b"))
              unit unit None None None None (or_introl eq_refl))
    as (_ & _ & _ & _ & H & _).
  exact H.
Defined.

(** X12. A bulk request built by [ds3_init_put_bulk] or
    [ds3_init_get_bulk] around a non-empty list is sent by [ds3_bulk] as
    an upload by [PUT] of as many bytes as the serialised manifest is
    long, to endpoint, ["/_rest_/bucket/"], bucket and the [operation]
    query parameter; the string signed is that of a [PUT] without md5,
    content type or amz headers on the path without the query. *)
Theorem bulk_exchange_on_the_wire (env : collaborators) (c : ds3_client)
    (bucket_name : string) (l : ds3_bulk_object_list) :
  curl_easy_init env = true →
  bulk_list l ≠ [] →
  (∀ k v, visit_order env {[k := v]} = [(k, v)]) →
  strlen (xmlDocDumpFormatMemory env (ds3_bulk_encode l)) < 2 ^ 63 →
  let body := xmlDocDumpFormatMemory env (ds3_bulk_encode l) in
  let sent := λ request,
    (λ h, (CURLOPT_URL h, CURLOPT_CUSTOMREQUEST h, CURLOPT_PUT h, CURLOPT_UPLOAD h,
           CURLOPT_INFILESIZE h))
      <$> performed (ds3_bulk env (Some c) (Some request)) in
  let signed := λ request,
    head (trace (ds3_bulk env (Some c) (Some request))) in
  let bucket_path := "/_rest_/bucket/" +:+ bucket_name in
  sent (ds3_init_put_bulk bucket_name (Some l))
    = Some (endpoint c +:+ bucket_path +:+ "?" +:+ "operation=start_bulk_put",
            None, true, true, Some (strlen body))
  ∧ sent (ds3_init_get_bulk bucket_name (Some l))
    = Some (endpoint c +:+ bucket_path +:+ "?" +:+ "operation=start_bulk_get",
            None, true, true, Some (strlen body))
  ∧ signed (ds3_init_put_bulk bucket_name (Some l))
    = Some (EvSign ("PUT" +:+ NL +:+ NL +:+ NL +:+ _generate_date_string env +:+ NL
                      +:+ bucket_path))
  ∧ signed (ds3_init_get_bulk bucket_name (Some l))
    = Some (EvSign ("PUT" +:+ NL +:+ NL +:+ NL +:+ _generate_date_string env +:+ NL
                      +:+ bucket_path)).
Proof.
  intros Hinit Hlist Hvisit Hbody body sent signed bucket_path.
  assert (Hlong : long_of_uint64 (strlen body) = strlen body).
  { unfold long_of_uint64.
    by replace (strlen body <? 2 ^ 63) with true by (symmetry; apply Z.ltb_lt; exact Hbody). }
  assert (Hsize : (bulk_list_size l =? 0) = false).
  { apply Z.eqb_neq. unfold bulk_list_size. destruct (bulk_list l); [done|simpl; lia]. }
  assert (Hq : ∀ op, _net_gen_query_params env (<["operation" := op]> ∅)
                     = Some ("operation" +:+ "=" +:+ op)).
  { intros op. apply (query_params_last_entry env _ []); [|apply Hvisit].
    change (<["operation" := op]> ∅) with ({["operation" := op]} : gmap string string).
    rewrite map_size_singleton. lia. }
  unfold sent, signed, performed, ds3_bulk, ds3_init_put_bulk, ds3_init_get_bulk,
    with_bulk, with_verb_path, with_length, _common_request_init, _create_hash_table.
  cbn [object_list]. rewrite Hsize. cbn [trace].
  unfold _net_process_request, _net_compute_signature.
  cbn [query_params verb path request_length buff_size].
  unfold _generate_signature_str, _net_get_verb, g_strconcat, g_strconcat_rest.
  rewrite Hinit, !Hq, !append_nil_r. cbn [trace].
  fold body. rewrite Hlong.
  repeat split.
Qed.

Lemma bulk_exchange_on_the_wire_witness :
  (λ h, (CURLOPT_URL h, CURLOPT_CUSTOMREQUEST h, CURLOPT_PUT h, CURLOPT_UPLOAD h,
         CURLOPT_INFILESIZE h))
    <$> performed (ds3_bulk sample_env (Some sample_client)
                     (Some (ds3_init_put_bulk "b" (Some sample_objects))))
  = Some ("http://ds3.example/_rest_/bucket/b?operation=start_bulk_put",
          None, true, true, Some 19).
Proof.
  destruct (bulk_exchange_on_the_wire sample_env sample_client "b" sample_objects)
    as (H & _); [reflexivity | discriminate | | by vm_compute | exact H].
  intros k v. apply map_to_list_singleton.
Defined.

(** ** XML codec: what the decoding loops collect *)

Lemma crash_foldl_snoc_length {B : Type} (step : B → xmlNode → crash B)
    (cs : list xmlNode) (acc out : list B) (zero : B) :
  crash_foldl (λ array curr, b ← crash_foldl step zero (xmlChildrenNode curr);
                             Done (array ++ [b])) acc cs = Done out →
  length out = (length acc + length cs)%nat.
Proof.
  revert acc. induction cs as [|c cs IH]; intros acc; cbn [crash_foldl].
  - intros [= <-]. simpl. lia.
  - destruct (crash_foldl step zero (xmlChildrenNode c)) as [b| |]; cbn [mbind crash_bind];
      [|discriminate..].
    intros H. apply IH in H. rewrite length_app in H. simpl in *. lia.
Qed.

(** X13. [_parse_buckets] makes one bucket entry for every child of the
    [Buckets] element, whatever the child is: the text nodes of an
    indented listing are entries too, with neither name nor date. *)
Theorem one_bucket_entry_per_child (buckets_node : xmlNode) (out : list ds3_bucket) :
  _parse_buckets buckets_node = Done out →
  length out = length (xmlChildrenNode buckets_node)
  ∧ ∀ i text, xmlChildrenNode buckets_node !! i = Some (XML_TEXT_NODE text) →
              out !! i = Some bucket_zero.
Proof.
  unfold _parse_buckets. intros Hrun. split.
  { by apply crash_foldl_snoc_length in Hrun. }
  assert (Hgen : ∀ cs acc out',
             crash_foldl (λ array curr,
                 b ← crash_foldl _parse_bucket_field bucket_zero (xmlChildrenNode curr);
                 Done (array ++ [b])) acc cs = Done out' →
             ∀ i text, cs !! i = Some (XML_TEXT_NODE text) →
                       out' !! (length acc + i)%nat = Some bucket_zero).
  { clear. induction cs as [|c cs IH]; intros acc out' Hrun i text Hi; [done|].
    cbn [crash_foldl] in Hrun.
    destruct (crash_foldl _parse_bucket_field bucket_zero (xmlChildrenNode c))
      as [b| |] eqn:Eb; cbn [mbind crash_bind] in Hrun; [|discriminate..].
    destruct i as [|i].
    - injection Hi as ->. cbn in Eb. injection Eb as <-.
      assert (Hpre : ∀ cs' acc' out'', 
                 crash_foldl (λ array curr,
                     b ← crash_foldl _parse_bucket_field bucket_zero (xmlChildrenNode curr);
                     Done (array ++ [b])) acc' cs' = Done out'' →
                 ∀ j x, acc' !! j = Some x → out'' !! j = Some x).
      { clear. induction cs' as [|c' cs' IH']; intros acc' out'' H j x Hj;
          cbn [crash_foldl] in H; [by injection H as <-|].
        destruct (crash_foldl _ _ _) as [b'| |]; cbn [mbind crash_bind] in H;
          [|discriminate..].
        eapply IH'; [exact H|]. by apply lookup_app_l_Some. }
      eapply Hpre; [exact Hrun|]. rewrite Nat.add_0_r.
      by rewrite lookup_app_r, Nat.sub_diag.
    - cbn in Hi. specialize (IH _ _ Hrun i text Hi).
      rewrite length_app in IH. simpl in IH.
      by replace (length acc + S i)%nat with (length acc + 1 + i)%nat by lia. }
  intros i text Hi. exact (Hgen _ [] _ Hrun i text Hi).
Qed.

Lemma one_bucket_entry_per_child_witness :
  _parse_buckets
    (XML_ELEMENT_NODE "Buckets" []
       [XML_TEXT_NODE NL;
        XML_ELEMENT_NODE "Bucket" [] [leaf_element "Name" "b1"];
        XML_TEXT_NODE NL])
  = Done [bucket_zero;
          {| bucket_creation_date := None; bucket_creation_date_size := 0;
             bucket_name := Some "b1"; bucket_name_size := 2 |};
          bucket_zero]
  ∧ length [bucket_zero;
            {| bucket_creation_date := None; bucket_creation_date_size := 0;
               bucket_name := Some "b1"; bucket_name_size := 2 |};
            bucket_zero] = 3%nat.
Proof.
  assert (Hrun : _parse_buckets
                   (XML_ELEMENT_NODE "Buckets" []
                      [XML_TEXT_NODE NL;
                       XML_ELEMENT_NODE "Bucket" [] [leaf_element "Name" "b1"];
                       XML_TEXT_NODE NL])
                 = Done [bucket_zero;
                         {| bucket_creation_date := None; bucket_creation_date_size := 0;
                            bucket_name := Some "b1"; bucket_name_size := 2 |};
                         bucket_zero]) by (by vm_compute).
  split; [exact Hrun|].
  exact (proj1 (one_bucket_entry_per_child _ _ Hrun)).
Defined.

Lemma named_cons nm c cs :
  named nm (c :: cs) = if xmlStrEqual (node_name c) nm then c :: named nm cs else named nm cs.
Proof. reflexivity. Qed.

Lemma get_bucket_child_objects r n r' :
  ds3_get_bucket_child r n = Done r' →
  if xmlStrEqual (node_name n) "Contents"
  then ∃ o, _parse_object n = Done o ∧ objects r' = objects r ++ [o]
  else objects r' = objects r.
Proof.
  unfold ds3_get_bucket_child.
  destruct (xmlStrEqual (node_name n) "Contents").
  - destruct (_parse_object n) as [o| |]; cbn [mbind crash_bind]; [|discriminate..].
    intros [= <-]. by exists o.
  - repeat match goal with
           | |- context [xmlStrEqual (node_name n) ?x] =>
               destruct (xmlStrEqual (node_name n) x)
           end;
      try destruct (xmlNodeListGetString (xmlChildrenNode n));
      intros [= <-]; reflexivity.
Qed.

Lemma crash_map_length {A B : Type} (f : A → crash B) (l : list A) (out : list B) :
  crash_map f l = Done out → length out = length l.
Proof.
  revert out. induction l as [|x l IH]; intros out; cbn [crash_map].
  - by intros [= <-].
  - destruct (f x); cbn [mbind crash_bind]; [|discriminate..].
    destruct (crash_map f l) as [out'| |]; cbn [mbind crash_bind]; [|discriminate..].
    intros [= <-]. simpl. by rewrite (IH out' eq_refl).
Qed.

(** X14. The objects of a decoded bucket listing are the [Contents]
    children of the root, each read by [_parse_object], in document
    order; no other child adds or removes an object. *)
Theorem listing_objects_in_document_order (cs : list xmlNode)
    (r r' : ds3_get_bucket_response) :
  crash_foldl ds3_get_bucket_child r cs = Done r' →
  ∃ os,
    crash_map _parse_object (named "Contents" cs) = Done os
    ∧ objects r' = objects r ++ os
    ∧ num_objects r' = num_objects r + Z.of_nat (length (named "Contents" cs)).
Proof.
  assert (Hcount : ∀ (a b : ds3_get_bucket_response) os l,
             crash_map _parse_object l = Done os →
             objects b = objects a ++ os →
             num_objects b = num_objects a + Z.of_nat (length l)).
  { intros a b os l Hos Heq. unfold num_objects.
    rewrite Heq, length_app, (crash_map_length _ _ _ Hos). lia. }
  revert r. induction cs as [|c cs IH]; intros r; cbn [crash_foldl].
  - intros [= <-]. exists []. rewrite app_nil_r. split; [done|]. split; [done|].
    simpl. lia.
  - destruct (ds3_get_bucket_child r c) as [r1| |] eqn:E; cbn [mbind crash_bind];
      [|discriminate..].
    intros H. destruct (IH _ H) as (os & Hos & Hobjs & _).
    apply get_bucket_child_objects in E. rewrite named_cons.
    destruct (xmlStrEqual (node_name c) "Contents").
    + destruct E as (o & Ho & E).
      assert (Hrun : crash_map _parse_object (c :: named "Contents" cs) = Done (o :: os)).
      { cbn [crash_map]. by rewrite Ho, Hos. }
      assert (Heq : objects r' = objects r ++ o :: os).
      { by rewrite Hobjs, E, <- app_assoc. }
      exists (o :: os). split; [done|]. split; [done|]. by eapply Hcount.
    + rewrite E in Hobjs. exists os. split; [done|]. split; [done|]. by eapply Hcount.
Qed.

Lemma listing_objects_in_document_order_witness :
  ∃ os,
    crash_map _parse_object
      (named "Contents"
         [leaf_element "Name" "b";
          XML_ELEMENT_NODE "Contents" [] [leaf_element "Key" "k1"];
          XML_TEXT_NODE NL;
          XML_ELEMENT_NODE "Contents" [] [leaf_element "Key" "k2"]]) = Done os
    ∧ length os = 2%nat.
Proof.
  destruct (listing_objects_in_document_order
              [leaf_element "Name" "b";
               XML_ELEMENT_NODE "Contents" [] [leaf_element "Key" "k1"];
               XML_TEXT_NODE NL;
               XML_ELEMENT_NODE "Contents" [] [leaf_element "Key" "k2"]]
              bucket_response_zero
              (store_field
                 (store_field (store_field bucket_response_zero (SetName "b"))
                    (SetObject {| object_name := Some "k1"; object_name_size := 2;
                                  etag := None; etag_size := 0;
                                  last_modified := None; last_modified_size := 0;
                                  storage_class := None; storage_class_size := 0;
                                  object_size := 0; object_owner := None |}))
                 (SetObject {| object_name := Some "k2"; object_name_size := 2;
                               etag := None; etag_size := 0;
                               last_modified := None; last_modified_size := 0;
                               storage_class := None; storage_class_size := 0;
                               object_size := 0; object_owner := None |})))
    as (os & Hos & _ & _); [by vm_compute|].
  exists os. split; [exact Hos|]. by apply crash_map_length in Hos.
Defined.

(** ** XML codec: the bulk job manifest *)

Lemma foldl_collect {B : Type} (nm : string) (f : xmlNode → B)
    (cs : list xmlNode) (acc : list B) :
  foldl (λ array n, if xmlStrEqual (node_name n) nm then array ++ [f n] else array) acc cs
  = acc ++ map f (named nm cs).
Proof.
  revert acc. induction cs as [|c cs IH]; intros acc; cbn [foldl].
  - by rewrite app_nil_r.
  - rewrite IH, named_cons. destruct (xmlStrEqual (node_name c) nm); [|done].
    by rewrite <- app_assoc.
Qed.

(** X15. A decoded job manifest has one chunk for every [Objects] child
    of the root and, in each chunk, one object for every [Object] child
    of that element, all in document order; other children are passed
    over, so the objects decoded are as many as the [Object] elements
    under the [Objects] elements, however the server has chunked them. *)
Theorem manifest_chunks_in_document_order (root : xmlNode) :
  response_list (ds3_bulk_decode root)
    = map _parse_bulk_objects (named "Objects" (xmlChildrenNode root))
  ∧ (∀ objects_node,
        bulk_list (_parse_bulk_objects objects_node)
        = map _parse_bulk_object (named "Object" (xmlChildrenNode objects_node)))
  ∧ sum_lengths (map bulk_list (response_list (ds3_bulk_decode root)))
    = sum_lengths (map (λ n, named "Object" (xmlChildrenNode n))
                       (named "Objects" (xmlChildrenNode root))).
Proof.
  assert (Hchunk : ∀ objects_node,
             bulk_list (_parse_bulk_objects objects_node)
             = map _parse_bulk_object (named "Object" (xmlChildrenNode objects_node))).
  { intros n. unfold _parse_bulk_objects. cbn [bulk_list].
    exact (foldl_collect "Object" _parse_bulk_object (xmlChildrenNode n) []). }
  assert (Hroot : response_list (ds3_bulk_decode root)
                  = map _parse_bulk_objects (named "Objects" (xmlChildrenNode root))).
  { unfold ds3_bulk_decode. cbn [response_list].
    exact (foldl_collect "Objects" _parse_bulk_objects (xmlChildrenNode root) []). }
  split; [exact Hroot|]. split; [exact Hchunk|].
  rewrite Hroot. clear Hroot.
  induction (named "Objects" (xmlChildrenNode root)) as [|n l IH]; [done|].
  cbn [map sum_lengths]. rewrite IH, Hchunk, length_map. reflexivity.
Qed.

(** ** XML codec: leaves without text *)

Lemma required_object_leaf_crashes nm ps kids o :
  nm = "Key" ∨ nm = "Size" →
  xmlNodeListGetString kids = None →
  _parse_object_child o (XML_ELEMENT_NODE nm ps kids) = NullDeref.
Proof.
  intros Hnm Htext. unfold _parse_object_child. cbn [node_name xmlChildrenNode].
  rewrite Htext. destruct Hnm as [-> | ->]; reflexivity.
Qed.

(** X16. A bucket listing in which some [Contents] element holds a [Key]
    or a [Size] element without text (an empty element, say) makes
    [ds3_get_bucket] dereference a null pointer: nothing is returned,
    neither listing nor error. *)
Theorem empty_key_or_size_crashes (env : collaborators) (r : ds3_result string)
    (root : xmlNode) (before after inner_before inner_after : list xmlNode)
    (ps inner_ps : list xmlAttr) (nm : string) (kids : list xmlNode) :
  xmlParseMemory env (default EmptyString (result r)) = Some root →
  node_name root = "ListBucketResult" →
  xmlChildrenNode root
    = before ++ XML_ELEMENT_NODE "Contents" ps
                  (inner_before ++ XML_ELEMENT_NODE nm inner_ps kids :: inner_after)
             :: after →
  nm = "Key" ∨ nm = "Size" →
  xmlNodeListGetString kids = None →
  ds3_get_bucket_received env r = NullDeref.
Proof.
  intros Hparse Hroot Hkids Hnm Htext. unfold ds3_get_bucket_received.
  match goal with |- context [decode_blob env ?a ?b ?c ?d] =>
    pose proof (decode_blob_cases env a b c d) as H end.
  rewrite Hparse, Hroot in H. cbn in H. rewrite H, Hkids. clear H.
  rewrite crash_foldl_crashes; [done|apply get_bucket_child_tame|].
  intros r1. unfold ds3_get_bucket_child. cbn [node_name xmlChildrenNode].
  change (xmlStrEqual "Contents" "Contents") with true. cbv iota.
  unfold _parse_object. cbn [xmlChildrenNode].
  rewrite crash_foldl_crashes; [done|apply parse_object_child_tame|].
  intros o. by apply required_object_leaf_crashes.
Qed.

Lemma empty_key_or_size_crashes_witness :
  outcome (ds3_get_bucket
             (serving "<ListBucketResult><Contents><Key/></Contents></ListBucketResult>"
                (XML_ELEMENT_NODE "ListBucketResult" []
                   [XML_ELEMENT_NODE "Contents" [] [XML_ELEMENT_NODE "Key" [] []]])
                CURLE_OK)
             (Some sample_client) (Some (ds3_init_get_bucket "b")))
  = NullDeref.
Proof.
  set (env := serving _ _ _).
  assert (Hsent : outcome (_internal_request_dispatcher (B := unit) env (Some sample_client)
                             (Some (ds3_init_get_bucket "b"))
                             (Some EmptyString) (Some load_xml_buff) None None)
                  = Done {| error := None;
                            result := Some
                              "<ListBucketResult><Contents><Key/></Contents></ListBucketResult>" |})
    by (by vm_compute).
  unfold ds3_get_bucket. cbn [outcome]. rewrite Hsent. cbn [mbind crash_bind].
  apply (empty_key_or_size_crashes env _
           (XML_ELEMENT_NODE "ListBucketResult" []
              [XML_ELEMENT_NODE "Contents" [] [XML_ELEMENT_NODE "Key" [] []]])
           [] [] [] [] [] [] "Key" []);
    [reflexivity | reflexivity | reflexivity | by left | reflexivity].
Defined.

(** X17. In a service listing, an [Owner] whose [ID] or [DisplayName]
    has no text, and a child of [Buckets] whose [Name] or [CreationDate]
    has no text, make [ds3_get_service] dereference a null pointer. *)
Theorem empty_service_leaf_crashes (env : collaborators) (r : ds3_result string)
    (root : xmlNode) (before after inner_before inner_after : list xmlNode)
    (owner_ps buckets_ps bucket_ps inner_ps : list xmlAttr)
    (bucket_tag nm : string) (kids buckets_before buckets_after : list xmlNode) :
  xmlParseMemory env (default EmptyString (result r)) = Some root →
  node_name root = "ListAllMyBucketsResult" →
  xmlNodeListGetString kids = None →
  (nm = "DisplayName" ∨ nm = "ID" →
   xmlChildrenNode root
     = before ++ XML_ELEMENT_NODE "Owner" owner_ps
                   (inner_before ++ XML_ELEMENT_NODE nm inner_ps kids :: inner_after)
              :: after →
   ds3_get_service_received env r = NullDeref)
  ∧ (nm = "CreationDate" ∨ nm = "Name" →
     xmlChildrenNode root
       = before ++ XML_ELEMENT_NODE "Buckets" buckets_ps
                     (buckets_before
                        ++ XML_ELEMENT_NODE bucket_tag bucket_ps
                             (inner_before ++ XML_ELEMENT_NODE nm inner_ps kids :: inner_after)
                        :: buckets_after)
                :: after →
     ds3_get_service_received env r = NullDeref).
Proof.
  intros Hparse Hroot Htext.
  assert (Hwalk : ds3_get_service_received env r
                  = (response ← crash_foldl ds3_get_service_child service_response_zero
                                  (xmlChildrenNode root);
                     Done {| error := None; result := Some response |})).
  { unfold ds3_get_service_received.
    match goal with |- context [decode_blob env ?a ?b ?c ?d] =>
      pose proof (decode_blob_cases env a b c d) as H end.
    rewrite Hparse, Hroot in H. cbn in H. exact H. }
  rewrite Hwalk. split; intros Hnm Hkids; rewrite Hkids.
  - rewrite crash_foldl_crashes; [done|apply get_service_child_tame|].
    intros r1. unfold ds3_get_service_child. cbn [node_name].
    change (xmlStrEqual "Owner" "Buckets") with false.
    change (xmlStrEqual "Owner" "Owner") with true. cbv iota.
    unfold _parse_owner. cbn [xmlChildrenNode].
    rewrite crash_foldl_crashes; [done|apply parse_owner_child_tame|].
    intros o. by apply required_owner_leaf_crashes.
  - rewrite crash_foldl_crashes; [done|apply get_service_child_tame|].
    intros r1. unfold ds3_get_service_child. cbn [node_name].
    change (xmlStrEqual "Buckets" "Buckets") with true. cbv iota.
    unfold _parse_buckets. cbn [xmlChildrenNode].
    rewrite crash_foldl_crashes; [done|apply parse_buckets_step_tame|].
    intros array. cbn [xmlChildrenNode].
    rewrite crash_foldl_crashes; [done|apply parse_bucket_field_tame|].
    intros b. by apply required_bucket_leaf_crashes.
Qed.

Lemma empty_service_leaf_crashes_witness :
  ds3_get_service_received
    (serving "<ListAllMyBucketsResult><Owner><ID/></Owner></ListAllMyBucketsResult>"
       (XML_ELEMENT_NODE "ListAllMyBucketsResult" []
          [XML_ELEMENT_NODE "Owner" [] [XML_ELEMENT_NODE "ID" [] []]])
       CURLE_OK)
    {| error := None;
       result := Some "<ListAllMyBucketsResult><Owner><ID/></Owner></ListAllMyBucketsResult>" |}
  = NullDeref.
Proof.
  destruct (empty_service_leaf_crashes
              (serving "<ListAllMyBucketsResult><Owner><ID/></Owner></ListAllMyBucketsResult>"
                 (XML_ELEMENT_NODE "ListAllMyBucketsResult" []
                    [XML_ELEMENT_NODE "Owner" [] [XML_ELEMENT_NODE "ID" [] []]])
                 CURLE_OK)
              {| error := None;
                 result := Some
                   "<ListAllMyBucketsResult><Owner><ID/></Owner></ListAllMyBucketsResult>" |}
              (XML_ELEMENT_NODE "ListAllMyBucketsResult" []
                 [XML_ELEMENT_NODE "Owner" [] [XML_ELEMENT_NODE "ID" [] []]])
              [] [] [] [] [] [] [] [] "Bucket" "ID" [] [] [])
    as [H _]; [reflexivity | reflexivity | reflexivity |].
  apply H; [by right | reflexivity].
Defined.

(** ** Numeric leaves, service listings, file lists, the upload callback *)

Lemma strtoul_not_a_number (text : string) :
  not_a_number text = true → strtoul text = 0.
Proof.
  destruct text as [|c rest]; [reflexivity|].
  unfold not_a_number. rewrite !andb_true_iff, !negb_true_iff, bool_decide_eq_true.
  intros [[[Hsp Hminus] Hplus] Hdigit].
  unfold strtoul. cbn [skip_while]. rewrite Hsp.
  unfold parse_sign. rewrite Hminus, Hplus. cbn [parse_digits]. rewrite Hdigit.
  reflexivity.
Qed.

(** X18. A [MaxKeys] or [Size] element whose text does not start with
    white space, a sign or a digit is not rejected: [ds3_get_bucket]
    stores [0] as the maximum number of keys, and [_parse_object] stores
    [0] as the size, leaving every other field as it was. *)
Theorem non_numeric_leaf_reads_zero (text : string) (ps : list xmlAttr)
    (r : ds3_get_bucket_response) (o : ds3_object) :
  not_a_number text = true →
  ds3_get_bucket_child r (XML_ELEMENT_NODE "MaxKeys" ps [XML_TEXT_NODE text])
  = Done (store_field r (SetMaxKeys 0))
  ∧ _parse_object_child o (XML_ELEMENT_NODE "Size" ps [XML_TEXT_NODE text])
    = Done {| object_name := object_name o; object_name_size := object_name_size o;
              etag := etag o; etag_size := etag_size o;
              last_modified := last_modified o; last_modified_size := last_modified_size o;
              storage_class := storage_class o; storage_class_size := storage_class_size o;
              object_size := 0; object_owner := object_owner o |}.
Proof.
  intros Hnan. apply strtoul_not_a_number in Hnan.
  split.
  - change (ds3_get_bucket_child r (XML_ELEMENT_NODE "MaxKeys" ps [XML_TEXT_NODE text]))
      with (Done (store_field r (SetMaxKeys (strtoul (text +:+ EmptyString))))).
    by rewrite append_nil_r, Hnan.
  - change (_parse_object_child o (XML_ELEMENT_NODE "Size" ps [XML_TEXT_NODE text]))
      with (Done {| object_name := object_name o; object_name_size := object_name_size o;
              etag := etag o; etag_size := etag_size o;
              last_modified := last_modified o; last_modified_size := last_modified_size o;
              storage_class := storage_class o; storage_class_size := storage_class_size o;
              object_size := strtoul (text +:+ EmptyString);
              object_owner := object_owner o |}).
    by rewrite append_nil_r, Hnan.
Qed.

Lemma non_numeric_leaf_reads_zero_witness :
  ds3_get_bucket_child bucket_response_zero
    (XML_ELEMENT_NODE "MaxKeys" [] [XML_TEXT_NODE "many"])
  = Done (store_field bucket_response_zero (SetMaxKeys 0)).
Proof.
  destruct (non_numeric_leaf_reads_zero "many" [] bucket_response_zero object_zero)
    as [H _]; [reflexivity|].
  exact H.
Defined.

Lemma parse_bucket_element (nd : string * string) :
  crash_foldl _parse_bucket_field bucket_zero (xmlChildrenNode (bucket_element nd))
  = Done (bucket_entry nd).
Proof.
  destruct nd as [n d].
  change (crash_foldl _parse_bucket_field bucket_zero
            (xmlChildrenNode (bucket_element (n, d))))
    with (Done {| bucket_creation_date := Some (d +:+ EmptyString);
                  bucket_creation_date_size := strlen (d +:+ EmptyString);
                  bucket_name := Some (n +:+ EmptyString);
                  bucket_name_size := strlen (n +:+ EmptyString) |}).
  by rewrite !append_nil_r.
Qed.

Lemma parse_bucket_elements (bs : list (string * string)) (acc : list ds3_bucket) :
  crash_foldl
    (λ array curr,
       b ← crash_foldl _parse_bucket_field bucket_zero (xmlChildrenNode curr);
       Done (array ++ [b]))
    acc (map bucket_element bs)
  = Done (acc ++ map bucket_entry bs).
Proof.
  revert acc. induction bs as [|nd bs IH]; intros acc.
  - simpl. by rewrite app_nil_r.
  - cbn [map crash_foldl]. rewrite parse_bucket_element.
    cbn [mbind crash_bind]. rewrite IH, <- app_assoc. reflexivity.
Qed.

(** X19. A service listing whose root holds an [Owner] with [ID] and
    [DisplayName] and a [Buckets] element with one [Bucket] per pair of
    name and creation date decodes, without error, to that owner and to
    the buckets in document order, each with its name, its creation date
    and their lengths. *)
Theorem service_listing_decoded (env : collaborators) (r : ds3_result string)
    (root : xmlNode) (id display : string) (bs : list (string * string))
    (owner_ps buckets_ps id_ps display_ps : list xmlAttr) :
  xmlParseMemory env (default EmptyString (result r)) = Some root →
  node_name root = "ListAllMyBucketsResult" →
  xmlChildrenNode root
  = [XML_ELEMENT_NODE "Owner" owner_ps
       [XML_ELEMENT_NODE "ID" id_ps [XML_TEXT_NODE id];
        XML_ELEMENT_NODE "DisplayName" display_ps [XML_TEXT_NODE display]];
     XML_ELEMENT_NODE "Buckets" buckets_ps (map bucket_element bs)] →
  ds3_get_service_received env r
  = Done {| error := None;
            result := Some {| buckets := map bucket_entry bs;
                              owner := Some {| owner_name := Some display;
                                               owner_name_size := strlen display;
                                               owner_id := Some id;
                                               owner_id_size := strlen id |} |} |}.
Proof.
  intros Hparse Hroot Hkids.
  unfold ds3_get_service_received.
  match goal with |- context [decode_blob env ?a ?b ?c ?d] =>
    pose proof (decode_blob_cases env a b c d) as H end.
  rewrite Hparse, Hroot in H. cbn in H. rewrite H, Hkids. clear H.
  cbn [crash_foldl].
  change (ds3_get_service_child service_response_zero
            (XML_ELEMENT_NODE "Owner" owner_ps
               [XML_ELEMENT_NODE "ID" id_ps [XML_TEXT_NODE id];
                XML_ELEMENT_NODE "DisplayName" display_ps [XML_TEXT_NODE display]]))
    with (Done {| buckets := [];
                  owner := Some {| owner_name := Some (display +:+ EmptyString);
                                   owner_name_size := strlen (display +:+ EmptyString);
                                   owner_id := Some (id +:+ EmptyString);
                                   owner_id_size := strlen (id +:+ EmptyString) |} |}).
  rewrite !append_nil_r. cbn [mbind crash_bind].
  unfold ds3_get_service_child at 1. cbn [node_name].
  change (xmlStrEqual "Buckets" "Buckets") with true. cbv iota.
  unfold _parse_buckets. cbn [xmlChildrenNode].
  rewrite parse_bucket_elements. reflexivity.
Qed.

Lemma service_listing_decoded_witness :
  ds3_get_service_received
    (serving "listing"
       (XML_ELEMENT_NODE "ListAllMyBucketsResult" []
          [XML_ELEMENT_NODE "Owner" []
             [XML_ELEMENT_NODE "ID" [] [XML_TEXT_NODE "7"];
              XML_ELEMENT_NODE "DisplayName" [] [XML_TEXT_NODE "ryan"]];
           XML_ELEMENT_NODE "Buckets" []
             (map bucket_element [("books", "2014-01-02"); ("films", "2014-03-04")])])
       CURLE_OK)
    {| error := None; result := Some "listing" |}
  = Done {| error := None;
            result := Some {| buckets := map bucket_entry
                                           [("books", "2014-01-02"); ("films", "2014-03-04")];
                              owner := Some {| owner_name := Some "ryan";
                                               owner_name_size := strlen "ryan";
                                               owner_id := Some "7";
                                               owner_id_size := strlen "7" |} |} |}.
Proof.
  apply (service_listing_decoded _ _
           (XML_ELEMENT_NODE "ListAllMyBucketsResult" []
              [XML_ELEMENT_NODE "Owner" []
                 [XML_ELEMENT_NODE "ID" [] [XML_TEXT_NODE "7"];
                  XML_ELEMENT_NODE "DisplayName" [] [XML_TEXT_NODE "ryan"]];
               XML_ELEMENT_NODE "Buckets" []
                 (map bucket_element [("books", "2014-01-02"); ("films", "2014-03-04")])])
           "7" "ryan" [("books", "2014-01-02"); ("films", "2014-03-04")] [] [] [] []);
    reflexivity.
Defined.

Lemma crash_map_files (stat : string → option Z) (names : list string) :
  crash_map (_ds3_bulk_object_from_file stat) (Some <$> names)
  = Done (map (file_entry stat) names).
Proof.
  induction names as [|n names IH]; [reflexivity|].
  cbn [fmap list_fmap crash_map]. fold (@fmap list _ string (option string) Some names).
  change (_ds3_bulk_object_from_file stat (Some n)) with (Done (file_entry stat n)).
  cbn [mbind crash_bind]. rewrite IH. reflexivity.
Qed.

Lemma file_entries_in_range (stat : string → option Z) (names : list string) :
  Forall (λ o, 0 ≤ bulk_object_size o < 2 ^ 64) (map (file_entry stat) names).
Proof.
  induction names as [|n names IH]; constructor; [|exact IH].
  cbn [file_entry bulk_object_size]. unfold wrap64. by apply Z.mod_pos_bound.
Qed.

Lemma crash_map_null {A B : Type} (f : A → crash B) (before after : list A) (x : A) :
  (∀ a, f a ≠ UseAfterFree) →
  f x = NullDeref →
  crash_map f (before ++ x :: after) = NullDeref.
Proof.
  intros Htame Hx. induction before as [|a before IH]; cbn [app crash_map].
  - by rewrite Hx.
  - pose proof (Htame a) as Ha.
    destruct (f a); [|done..]. cbn [mbind crash_bind]. by rewrite IH.
Qed.

(** X20. [ds3_convert_file_list] makes one bulk object per file name, in
    the order given: the name, its length, and the size [stat] reports,
    [0] for a file [stat] cannot examine; every size is a 64-bit value.
    A null file name makes it dereference a null pointer.  The list made
    of no file name is one [ds3_bulk] refuses for want of objects, with
    no signing and no exchange. *)
Theorem file_list_converted (stat : string → option Z) :
  (∀ names,
     ds3_convert_file_list stat (Some <$> names)
     = Done {| bulk_list := map (file_entry stat) names;
               server_id := None; server_id_size := 0; chunk_number := 0 |}
     ∧ Forall (λ o, 0 ≤ bulk_object_size o < 2 ^ 64) (map (file_entry stat) names))
  ∧ (∀ before after, ds3_convert_file_list stat (before ++ None :: after) = NullDeref)
  ∧ ∃ l, ds3_convert_file_list stat [] = Done l
         ∧ ∀ env client bucket_name,
             ds3_bulk env (Some client) (Some (ds3_init_put_bulk bucket_name (Some l)))
             = {| trace := [];
                  outcome :=
                    Done {| error :=
                              Some {| code := DS3_ERROR_MISSING_ARGS;
                                      message := "The bulk command requires a list of "
                                                   +:+ "objects to process";
                                      message_size := 54 |};
                            result := None |} |}.
Proof.
  split; [|split].
  - intros names. split.
    + unfold ds3_convert_file_list. by rewrite crash_map_files.
    + apply file_entries_in_range.
  - intros before after. unfold ds3_convert_file_list.
    rewrite crash_map_null; [done| |done].
    intros file_name. unfold _ds3_bulk_object_from_file. by destruct file_name.
  - eexists. split; [reflexivity|]. intros env client bucket_name. reflexivity.
Qed.

(** X21. The manifest [ds3_bulk] builds from a converted file list reads
    back, directly or with text nodes between its elements, as one chunk
    holding the file names in order, each with the size [stat] gave. *)
Theorem converted_file_list_round_trip (stat : string → option Z) (names : list string)
    (obj_list : ds3_bulk_object_list) (echoed : xmlNode) :
  ds3_convert_file_list stat (Some <$> names) = Done obj_list →
  strip_text echoed = ds3_bulk_encode obj_list →
  ∃ chunk,
    response_list (ds3_bulk_decode echoed) = [chunk]
    ∧ name_and_size <$> bulk_list chunk
      = map (λ n, (Some n, wrap64 (default 0 (stat n)))) names.
Proof.
  unfold ds3_convert_file_list. rewrite crash_map_files. cbn [mbind crash_bind].
  intros [= <-] Hecho.
  rewrite <- ds3_bulk_decode_strip, Hecho, ds3_bulk_encode_shape. cbn [bulk_list].
  eexists. split; [reflexivity|].
  unfold _parse_bulk_objects. cbn [bulk_list xmlChildrenNode].
  rewrite (parse_encoded_objects _ []).
  - cbn [fmap list_fmap app]. clear Hecho.
    induction names as [|n names IH]; [reflexivity|].
    cbn [map fmap list_fmap]. f_equal. exact IH.
  - apply file_entries_in_range.
Qed.

Lemma converted_file_list_round_trip_witness :
  ∃ chunk,
    response_list
      (ds3_bulk_decode
         (XML_ELEMENT_NODE "MasterObjectList" []
            [XML_TEXT_NODE " ";
             XML_ELEMENT_NODE "Objects" []
               [XML_ELEMENT_NODE "Object"
                  [XML_ATTRIBUTE_NODE "Name" [XML_TEXT_NODE "a.txt"];
                   XML_ATTRIBUTE_NODE "Size" [XML_TEXT_NODE "12"]] [];
                XML_TEXT_NODE " ";
                XML_ELEMENT_NODE "Object"
                  [XML_ATTRIBUTE_NODE "Name" [XML_TEXT_NODE "gone"];
                   XML_ATTRIBUTE_NODE "Size" [XML_TEXT_NODE "0"]] []]]))
    = [chunk]
    ∧ name_and_size <$> bulk_list chunk
      = map (λ n, (Some n,
                   wrap64 (default 0 (if String.eqb n "a.txt" then Some 12 else None))))
            ["a.txt"; "gone"].
Proof.
  apply (converted_file_list_round_trip
           (λ n, if String.eqb n "a.txt" then Some 12 else None) ["a.txt"; "gone"]
           {| bulk_list :=
                map (file_entry (λ n, if String.eqb n "a.txt" then Some 12 else None))
                    ["a.txt"; "gone"];
              server_id := None; server_id_size := 0; chunk_number := 0 |});
    vm_compute; reflexivity.
Defined.

Lemma string_take_take (n m : nat) (s : string) :
  string_take n (string_take m s) = string_take (Nat.min n m) s.
Proof.
  revert m s. induction n as [|n IH]; intros m s; [by destruct s, m|].
  destruct m as [|m]; [by destruct s|].
  destruct s as [|c s]; [done|].
  cbn [string_take Nat.min]. by rewrite IH.
Qed.

(** X22. The upload callback never advances its buffer: for a buffer
    not yet read whose recorded size is its length, every call, however
    many were made before, hands over the first bytes of the manifest,
    as many as the room offered allows, so that a later call repeats the
    start of what an earlier call handed over. *)
Theorem upload_callback_restarts (rooms : list Z) (xml_buff : ds3_xml_send_buff) :
  total_read xml_buff = 0 →
  buff_size xml_buff = strlen (buff xml_buff) →
  strlen (buff xml_buff) < 2 ^ 64 →
  Forall (λ room, 0 ≤ room) rooms →
  send_calls rooms xml_buff
  = map (λ room, string_take (Z.to_nat (Z.min room (strlen (buff xml_buff))))
                   (buff xml_buff)) rooms
  ∧ ∀ i j first second,
      (i < j)%nat →
      rooms !! i = Some first → rooms !! j = Some second →
      second ≤ first →
      send_calls rooms xml_buff !! j
      = string_take (Z.to_nat second) <$> (send_calls rooms xml_buff !! i).
Proof.
  intros Hread Hsize Hlen Hrooms.
  assert (Hcalls : send_calls rooms xml_buff
                   = map (λ room, string_take (Z.to_nat (Z.min room (strlen (buff xml_buff))))
                                    (buff xml_buff)) rooms).
  { induction Hrooms as [|room rooms Hroom _ IH]; [reflexivity|].
    cbn [send_calls map]. unfold _ds3_send_xml_buff at 1 2. cbn [fst snd].
    rewrite IH. f_equal.
    rewrite Hread, Hsize, Z.sub_0_r. unfold wrap64.
    rewrite Z.mod_small by (unfold strlen in *; lia).
    f_equal. f_equal.
    destruct (Z.ltb_spec (strlen (buff xml_buff)) room); lia. }
  split; [exact Hcalls|].
  intros i j first second Hij Hi Hj Hle.
  rewrite Hcalls. change map with (@fmap list _) at 1 2.
  rewrite !list_lookup_fmap, Hi, Hj. cbn [fmap option_fmap option_map].
  rewrite string_take_take. f_equal. f_equal.
  pose proof (Forall_lookup_1 _ _ _ _ Hrooms Hj) as Hs.
  cbn beta in Hs. lia.
Qed.

Lemma upload_callback_restarts_witness :
  send_calls [4; 2] {| buff := "<MasterObjectList/>"; buff_size := 19; total_read := 0 |}
  = ["<Mas"; "<M"].
Proof.
  destruct (upload_callback_restarts [4; 2]
              {| buff := "<MasterObjectList/>"; buff_size := 19; total_read := 0 |})
    as [H _]; [reflexivity | reflexivity | reflexivity | |].
  - constructor; [lia|]. constructor; [lia|]. constructor.
  - rewrite H. reflexivity.
Defined.
